(** * BlogWebApp: the REST handlers and the Blog model, embedded in Rocq

    The development follows the backend of the repository:
    - [backend/models/Blog.js] (schema, virtuals, [calculateReadTime],
      [generateExcerpt], the [pre('save')] hook);
    - the three route files for comments, users and blogs.

    Documents live in three collections keyed by [_id]; every handler is a
    function from the database and the request to a response and the new
    database.  JavaScript strings are modelled by [string]: one [ascii] per
    code unit, which restricts the model to code units below 256.  Ids that
    reach a handler are well-formed ObjectIds (a malformed id makes the
    driver throw, which is outside the model). *)

From stdpp Require Import base option list gmap sorting strings.
From Stdlib Require Import ZArith String Ascii Lia.

Local Open Scope string_scope.
Local Open Scope Z_scope.

(** ** JavaScript primitives used by the handlers *)

Module JS.

(** Code units matched by the regular expression class [\s] (below 256):
    TAB, LF, VT, FF, CR, SPACE and NBSP. *)
Definition is_space (c : ascii) : bool :=
  let n := N_of_ascii c in
  ((9 <=? n) && (n <=? 13) || (n =? 32) || (n =? 160))%N.

(** [s.split(/\s+/)]: the pieces of [s] between maximal runs of white
    space.  [cur] is the piece being read, [prev_ws] tells that the
    previous code unit was white space.  A run at the start or at the end
    of [s] yields an empty piece, and the empty string yields one empty
    piece. *)
Fixpoint split_ws_from (cur : string) (prev_ws : bool) (s : string) : list string :=
  match s with
  | EmptyString => [cur]
  | String c s' =>
      if is_space c then
        if prev_ws then split_ws_from cur true s'
        else cur :: split_ws_from "" true s'
      else split_ws_from (cur +:+ String c "") false s'
  end.

Definition split_ws (s : string) : list string := split_ws_from "" false s.

(** [true] when [s] contains the code unit [>]. *)
Fixpoint contains_gt (s : string) : bool :=
  match s with
  | EmptyString => false
  | String c s' => if Ascii.eqb c ">" then true else contains_gt s'
  end.

(** [s.replace(/<[^>]*>/g, '')]: a match starts at a [<] that is followed
    somewhere by a [>] and ends at the first such [>]; a [<] with no [>]
    after it is kept. *)
Fixpoint strip_tags_from (inside : bool) (s : string) : string :=
  match s with
  | EmptyString => EmptyString
  | String c s' =>
      if inside then
        if Ascii.eqb c ">" then strip_tags_from false s'
        else strip_tags_from true s'
      else if Ascii.eqb c "<" && contains_gt s' then strip_tags_from true s'
      else String c (strip_tags_from false s')
  end.

Definition strip_tags (s : string) : string := strip_tags_from false s.

(** [s.substring(0, n)] for [0 <= n]. *)
Definition substring0 (n : nat) (s : string) : string := String.substring 0 n s.

(** [s.length]. *)
Definition length (s : string) : Z := Z.of_nat (String.length s).

(** [s.trim()]. *)
Fixpoint ltrim (s : string) : string :=
  match s with
  | EmptyString => EmptyString
  | String c s' => if is_space c then ltrim s' else s
  end.

Definition trim (s : string) : string :=
  String.rev (ltrim (String.rev (ltrim s))).

(** [Math.ceil(a / b)] for integers [a] and [b <> 0]; the floating-point
    quotient of two integers below 2^53 has the same ceiling as the exact
    one. *)
Definition ceil_div (a b : Z) : Z := - ((- a) / b).

(** [arr.indexOf(x)] on an array of ObjectIds (Mongoose compares ids by
    value): the first index holding [x], or [-1]. *)
Fixpoint indexOf (l : list N) (x : N) : Z :=
  match l with
  | [] => -1
  | y :: l' =>
      if decide (y = x) then 0
      else let i := indexOf l' x in if decide (i = -1) then -1 else i + 1
  end.

(** [arr.includes(x)] on such an array. *)
Definition includes (l : list N) (x : N) : bool := bool_decide (indexOf l x ≠ -1).

(** [arr.splice(i, 1)] for [0 <= i]: removes the element at index [i]. *)
Definition splice1 (i : Z) (l : list N) : list N := delete (Z.to_nat i) l.

(** [arr.push(x)]. *)
Definition push (l : list N) (x : N) : list N := l ++ [x].

End JS.

Abbreviation ObjectId := N.

(** ** The Blog model ([backend/models/Blog.js]) *)

Module Blog.

Record Seo := mkSeo {
  metaTitle : string;
  metaDescription : string;
  keywords : list string
}.

(** A stored document; its [_id] is the key under which the collection
    holds it.  [category] and [status] are strings, checked against their
    [enum] when the document is validated.  The record holds the paths that
    the schema declares and [createdAt]; [updatedAt] and the version key,
    which [save] and the update queries maintain on their own, are left out
    of it, so two documents that are equal here agree on the paths below and
    may differ in those two. *)
Record doc := mk {
  title : string;
  content : string;
  excerpt : string;
  author : ObjectId;
  tags : list string;
  category : string;
  featuredImage : string;
  status : string;
  isPublic : bool;
  likes : list ObjectId;
  views : Z;
  readTime : Z;
  seo : option Seo;
  comments : list ObjectId;
  createdAt : Z
}.

Definition categories : list string :=
  ["Technology"; "Lifestyle"; "Travel"; "Food"; "Health"; "Business";
   "Education"; "Entertainment"; "Other"].

Definition statuses : list string := ["draft"; "published"; "archived"].

(** Virtuals. *)
Definition likeCount (b : doc) : Z := Z.of_nat (List.length (likes b)).
Definition commentCount (b : doc) : Z := Z.of_nat (List.length (comments b)).

Definition set_readTime (r : Z) (b : doc) : doc :=
  mk (title b) (content b) (excerpt b) (author b) (tags b) (category b)
     (featuredImage b) (status b) (isPublic b) (likes b) (views b) r
     (seo b) (comments b) (createdAt b).

Definition set_excerpt (e : string) (b : doc) : doc :=
  mk (title b) (content b) e (author b) (tags b) (category b)
     (featuredImage b) (status b) (isPublic b) (likes b) (views b)
     (readTime b) (seo b) (comments b) (createdAt b).

Definition set_likes (l : list ObjectId) (b : doc) : doc :=
  mk (title b) (content b) (excerpt b) (author b) (tags b) (category b)
     (featuredImage b) (status b) (isPublic b) l (views b)
     (readTime b) (seo b) (comments b) (createdAt b).

Definition set_views (v : Z) (b : doc) : doc :=
  mk (title b) (content b) (excerpt b) (author b) (tags b) (category b)
     (featuredImage b) (status b) (isPublic b) (likes b) v
     (readTime b) (seo b) (comments b) (createdAt b).

Definition set_comments (l : list ObjectId) (b : doc) : doc :=
  mk (title b) (content b) (excerpt b) (author b) (tags b) (category b)
     (featuredImage b) (status b) (isPublic b) (likes b) (views b)
     (readTime b) (seo b) l (createdAt b).

Definition wordsPerMinute : Z := 200.

(** [calculateReadTime]: the document with [readTime] set. *)
Definition calculateReadTime (b : doc) : doc :=
  let wordCount := Z.of_nat (List.length (JS.split_ws (content b))) in
  set_readTime (JS.ceil_div wordCount wordsPerMinute) b.

(** [generateExcerpt]: the document with [excerpt] set. *)
Definition generateExcerpt (b : doc) : doc :=
  let plainText := JS.strip_tags (content b) in
  set_excerpt
    (if 300 <? JS.length plainText
     then JS.substring0 297 plainText +:+ "..."
     else plainText) b.

(** The [pre('save')] hook; [modified_content] is
    [this.isModified('content')]. *)
Definition pre_save (modified_content : bool) (b : doc) : doc :=
  if modified_content then generateExcerpt (calculateReadTime b) else b.

(** Schema validators: [required], [maxlength] and [enum]. *)
Definition valid_title (t : string) : bool :=
  negb (String.eqb t "") && (JS.length t <=? 200).
Definition valid_content (c : string) : bool := negb (String.eqb c "").
Definition valid_excerpt (e : string) : bool := JS.length e <=? 300.
Definition valid_tags (ts : list string) : bool :=
  forallb (fun t => JS.length t <=? 20) ts.
Definition valid_category (c : string) : bool := bool_decide (c ∈ categories).
Definition valid_status (s : string) : bool := bool_decide (s ∈ statuses).

(** Validation of a document that is saved, new or loaded: every path
    that has a validator, whether the path was modified or not. *)
Definition validate_new (b : doc) : bool :=
  valid_title (title b) && valid_content (content b)
  && valid_excerpt (excerpt b) && valid_tags (tags b)
  && valid_category (category b) && valid_status (status b).

(** [doc.save()] without the write: validation runs first, on every path
    of the document, then the [pre('save')] hook; [None] is a thrown
    validation error.  [old] is the document as loaded ([None] for a new
    one), against which [isModified('content')] is read. *)
Definition prepare_save (old : option doc) (new : doc) : option doc :=
  match old with
  | None =>
      if validate_new new then Some (pre_save true new) else None
  | Some o =>
      if validate_new new
      then Some (pre_save (bool_decide (content o ≠ content new)) new)
      else None
  end.

End Blog.

(** ** The User and Comment models *)

Module User.

(** Modelled from the spec: the User model file is not part of the
    sources at hand.  The spec gives a user a unique username and email,
    profile fields, a [role] that is [user] or [admin], and the
    [followers] and [following] reference arrays; the route handlers read
    [role], [followers] and [following] and sort on [createdAt]. *)
Record doc := mk {
  username : string;
  email : string;
  bio : string;
  role : string;
  followers : list ObjectId;
  following : list ObjectId;
  createdAt : Z
}.

Definition set_followers (l : list ObjectId) (u : doc) : doc :=
  mk (username u) (email u) (bio u) (role u) l (following u) (createdAt u).

Definition set_following (l : list ObjectId) (u : doc) : doc :=
  mk (username u) (email u) (bio u) (role u) (followers u) l (createdAt u).

End User.

Module Comment.

(** Modelled from the spec: the Comment model file is not part of the
    sources at hand.  The spec gives a comment its content, an author, a
    blog, an optional parent comment, a [likes] reference array, the
    soft-delete flag [isDeleted] and an edited flag with a timestamp; the
    route handlers also push to and populate a [replies] reference array
    and sort on [createdAt]. *)
Record doc := mk {
  content : string;
  author : ObjectId;
  blog : ObjectId;
  parentComment : option ObjectId;
  likes : list ObjectId;
  replies : list ObjectId;
  isDeleted : bool;
  isEdited : bool;
  editedAt : option Z;
  createdAt : Z
}.

Definition set_content (s : string) (c : doc) : doc :=
  mk s (author c) (blog c) (parentComment c) (likes c) (replies c)
     (isDeleted c) (isEdited c) (editedAt c) (createdAt c).

Definition set_likes (l : list ObjectId) (c : doc) : doc :=
  mk (content c) (author c) (blog c) (parentComment c) l (replies c)
     (isDeleted c) (isEdited c) (editedAt c) (createdAt c).

Definition set_replies (l : list ObjectId) (c : doc) : doc :=
  mk (content c) (author c) (blog c) (parentComment c) (likes c) l
     (isDeleted c) (isEdited c) (editedAt c) (createdAt c).

(** Modelled from the spec: [markAsEdited] records the edited state as a
    flag and a timestamp. *)
Definition markAsEdited (now : Z) (c : doc) : doc :=
  mk (content c) (author c) (blog c) (parentComment c) (likes c) (replies c)
     (isDeleted c) true (Some now) (createdAt c).

(** Modelled from the spec: [softDelete] sets the [isDeleted] flag and
    keeps the document. *)
Definition softDelete (c : doc) : doc :=
  mk (content c) (author c) (blog c) (parentComment c) (likes c) (replies c)
     true (isEdited c) (editedAt c) (createdAt c).

End Comment.

(** ** The database, queries and responses *)

Record Db := mkDb {
  db_users : gmap N User.doc;
  db_blogs : gmap N Blog.doc;
  db_comments : gmap N Comment.doc
}.

Definition with_users (m : gmap N User.doc) (db : Db) : Db :=
  mkDb m (db_blogs db) (db_comments db).
Definition with_blogs (m : gmap N Blog.doc) (db : Db) : Db :=
  mkDb (db_users db) m (db_comments db).
Definition with_comments (m : gmap N Comment.doc) (db : Db) : Db :=
  mkDb (db_users db) (db_blogs db) m.

Module Query.

(** [Model.find(filter)]: the documents of a collection that match. *)
Definition find {A} (p : A → bool) (m : gmap N A) : list (N * A) :=
  List.filter (λ kv, p kv.2) (map_to_list m).

(** [Model.countDocuments(filter)]. *)
Definition countDocuments {A} (p : A → bool) (m : gmap N A) : Z :=
  Z.of_nat (List.length (find p m)).

(** [.sort({ key: -1 })] and [.sort({ key: 1 })]. *)
Definition sort_desc {A} (key : A → Z) (l : list (N * A)) : list (N * A) :=
  @merge_sort _ (λ x y, key y.2 ≤ key x.2) (λ x y, decide (key y.2 ≤ key x.2)) l.
Definition sort_asc {A} (key : A → Z) (l : list (N * A)) : list (N * A) :=
  @merge_sort _ (λ x y, key x.2 ≤ key y.2) (λ x y, decide (key x.2 ≤ key y.2)) l.

(** [.skip(skip).limit(limit)]: the server refuses a negative skip (the
    query throws); the driver sends a negative limit as its absolute
    value. *)
Definition skip_limit {A} (skip limit : Z) (l : list A) : option (list A) :=
  if skip <? 0 then None
  else Some (take (Z.to_nat (Z.abs limit)) (drop (Z.to_nat skip) l)).

(** [parseInt(q) || d]: [q] is the parsed query parameter, [None] when it
    is absent or not a number. *)
Definition parse_or (q : option Z) (d : Z) : Z :=
  match q with
  | Some n => if n =? 0 then d else n
  | None => d
  end.

End Query.

Record Pagination := mkPagination {
  currentPage : Z;
  totalPages : Z;
  totalItems : Z;
  hasNext : bool;
  hasPrev : bool
}.

(** The [pagination] object every list handler builds. *)
Definition pagination (page limit total : Z) : Pagination :=
  {| currentPage := page;
     totalPages := JS.ceil_div total limit;
     totalItems := total;
     hasNext := page * limit <? total;
     hasPrev := 1 <? page |}.

(** A top-level comment with its populated replies. *)
Record CommentView := mkCommentView {
  cv_id : ObjectId;
  cv_comment : Comment.doc;
  cv_replies : list (ObjectId * Comment.doc)
}.

Inductive Body :=
| Message (message : string)
| Errors (errors : list string)
| LikeResult (message : string) (likeCount : Z) (isLiked : bool)
| FollowResult (message : string) (isFollowing : bool)
| BlogResult (message : option string) (blog : option (ObjectId * Blog.doc))
| BlogList (blogs : list (ObjectId * Blog.doc)) (p : Pagination)
| CommentResult (message : string) (comment : option (ObjectId * Comment.doc))
| CommentList (comments : list CommentView) (p : Pagination)
| UserCommentList (comments : list (ObjectId * Comment.doc)) (p : Pagination)
| UserList (users : list (ObjectId * User.doc)) (p : Pagination).

Record Response := mkResponse {
  res_status : Z;
  res_body : Body
}.

Definition json (b : Body) : Response := mkResponse 200 b.
Definition server_error : Response := mkResponse 500 (Message "Server error").

(** Modelled from the spec: the authentication middleware is not part of
    the sources at hand.  The spec gives bearer-token authentication; [token]
    is the user id the request's token stands for, and the middleware loads
    that user's document into [req.user]. *)
Definition load_user (db : Db) (token : option ObjectId) : option (ObjectId * User.doc) :=
  uid ← token; u ← db_users db !! uid; Some (uid, u).

Definition optionalAuth := load_user.

(** Modelled from the spec: the spec says that the routes are
    authenticated and says nothing of the answer to a request without a
    valid token; it is taken to be a 401 that comes before the handler and
    writes nothing. *)
Definition unauthorized : Response := mkResponse 401 (Message "Not authorized").

(** [auth]: the handler runs only for an authenticated user. *)
Definition auth (db : Db) (token : option ObjectId)
    (handler : ObjectId → User.doc → Response * Db) : Response * Db :=
  match load_user db token with
  | Some (uid, u) => handler uid u
  | None => (unauthorized, db)
  end.

Definition status_json (code : Z) (b : Body) : Response := mkResponse code b.

(** The like toggle, written the same way in the blog and the comment
    handler: [indexOf], then [splice] when the id is found and [push] when it
    is not. *)
Definition toggle_like (likes : list ObjectId) (uid : ObjectId) : list ObjectId :=
  let likeIndex := JS.indexOf likes uid in
  if -1 <? likeIndex then JS.splice1 likeIndex likes else JS.push likes uid.

(** ** The comment routes *)

Module CommentRoutes.

(** The filter [{ blog, parentComment: null, isDeleted: false }]. *)
Definition top_level_of (blogId : ObjectId) (c : Comment.doc) : bool :=
  bool_decide (Comment.blog c = blogId)
  && bool_decide (Comment.parentComment c = None)
  && negb (Comment.isDeleted c).

(** [populate({ path: 'replies', match: { isDeleted: false } })]: the
    replies that exist and match; the others are dropped. *)
Definition populate_replies (db : Db) (c : Comment.doc) : list (ObjectId * Comment.doc) :=
  omap (λ rid,
          match db_comments db !! rid with
          | Some r => if Comment.isDeleted r then None else Some (rid, r)
          | None => None
          end) (Comment.replies c).

(** GET /api/comments/blog/:blogId.  The [isLiked] marks that the handler
    adds for a signed-in reader are not part of the model. *)
Definition get_blog_comments (db : Db) (blogId : ObjectId)
    (qpage qlimit : option Z) : Response * Db :=
  let page := Query.parse_or qpage 1 in
  let limit := Query.parse_or qlimit 20 in
  let skip := (page - 1) * limit in
  match Query.skip_limit skip limit
          (Query.sort_desc Comment.createdAt
             (Query.find (top_level_of blogId) (db_comments db))) with
  | None => (server_error, db)
  | Some comments =>
      let total := Query.countDocuments (top_level_of blogId) (db_comments db) in
      (json (CommentList
               (map (λ kc, mkCommentView kc.1 kc.2 (populate_replies db kc.2)) comments)
               (pagination page limit total)), db)
  end.

(** [body('content').notEmpty().isLength({ max: 1000 })]; an absent field
    is checked as the empty string. *)
Definition validate_content (content : option string) : list string :=
  let v := default "" content in
  ((if String.eqb v "" then ["Comment content is required"] else [])
   ++ (if 1000 <? JS.length v then ["Comment must be less than 1000 characters"] else []))%list.

Record PostBody := mkPostBody {
  pb_content : option string;
  pb_blogId : option ObjectId;
  pb_parentCommentId : option ObjectId
}.

(** POST /api/comments.  [fresh] is the [_id] of the new document and
    [now] its creation time. *)
Definition post_comment (db : Db) (token : option ObjectId)
    (fresh : ObjectId) (now : Z) (body : PostBody) : Response * Db :=
  auth db token (λ uid user,
    let errors :=
      (validate_content (pb_content body)
       ++ (if pb_blogId body is None then ["Blog ID is required"] else []))%list in
    match errors, pb_content body, pb_blogId body with
    | [], Some content, Some blogId =>
        match db_blogs db !! blogId with
        | None => (status_json 404 (Message "Blog not found"), db)
        | Some blog =>
            let parent_missing :=
              match pb_parentCommentId body with
              | Some parentCommentId =>
                  bool_decide (db_comments db !! parentCommentId = None)
              | None => false
              end in
            if parent_missing
            then (status_json 404 (Message "Parent comment not found"), db)
            else
              let comment :=
                Comment.mk content uid blogId (pb_parentCommentId body)
                           [] [] false false None now in
              let db1 := with_comments (<[fresh := comment]> (db_comments db)) db in
              let db2 :=
                match pb_parentCommentId body with
                | Some parentCommentId =>
                    with_comments
                      (alter (λ c, Comment.set_replies (JS.push (Comment.replies c) fresh) c)
                             parentCommentId (db_comments db1)) db1
                | None => db1
                end in
              let db3 :=
                with_blogs
                  (alter (λ b, Blog.set_comments (JS.push (Blog.comments b) fresh) b)
                         blogId (db_blogs db2)) db2 in
              (status_json 201
                 (CommentResult "Comment added successfully"
                    (pair fresh <$> db_comments db3 !! fresh)), db3)
        end
    | _, _, _ => (status_json 400 (Errors errors), db)
    end).

(** PUT /api/comments/:id. *)
Definition put_comment (db : Db) (token : option ObjectId) (now : Z)
    (id : ObjectId) (content : option string) : Response * Db :=
  auth db token (λ uid user,
    match validate_content content with
    | [] =>
        match db_comments db !! id with
        | None => (status_json 404 (Message "Comment not found"), db)
        | Some comment =>
            if bool_decide (Comment.author comment ≠ uid)
            then (status_json 403 (Message "Not authorized to update this comment"), db)
            else
              let comment' :=
                Comment.markAsEdited now
                  (Comment.set_content (default "" content) comment) in
              let db' := with_comments (<[id := comment']> (db_comments db)) db in
              (json (CommentResult "Comment updated successfully"
                       (pair id <$> db_comments db' !! id)), db')
        end
    | errors => (status_json 400 (Errors errors), db)
    end).

(** DELETE /api/comments/:id. *)
Definition delete_comment (db : Db) (token : option ObjectId)
    (id : ObjectId) : Response * Db :=
  auth db token (λ uid user,
    match db_comments db !! id with
    | None => (status_json 404 (Message "Comment not found"), db)
    | Some comment =>
        if bool_decide (Comment.author comment ≠ uid)
           && negb (String.eqb (User.role user) "admin")
        then (status_json 403 (Message "Not authorized to delete this comment"), db)
        else
          (json (Message "Comment deleted successfully"),
           with_comments (<[id := Comment.softDelete comment]> (db_comments db)) db)
    end).

(** POST /api/comments/:id/like. *)
Definition like_comment (db : Db) (token : option ObjectId)
    (id : ObjectId) : Response * Db :=
  auth db token (λ uid user,
    match db_comments db !! id with
    | None => (status_json 404 (Message "Comment not found"), db)
    | Some comment =>
        let likeIndex := JS.indexOf (Comment.likes comment) uid in
        let comment' := Comment.set_likes (toggle_like (Comment.likes comment) uid) comment in
        (json (LikeResult
                 (if -1 <? likeIndex then "Comment unliked" else "Comment liked")
                 (Z.of_nat (List.length (Comment.likes comment')))
                 (likeIndex =? -1)),
         with_comments (<[id := comment']> (db_comments db)) db)
    end).

(** The filter [{ author, isDeleted: false }]. *)
Definition by_author (userId : ObjectId) (c : Comment.doc) : bool :=
  bool_decide (Comment.author c = userId) && negb (Comment.isDeleted c).

(** GET /api/comments/user/:userId. *)
Definition get_user_comments (db : Db) (userId : ObjectId)
    (qpage qlimit : option Z) : Response * Db :=
  let page := Query.parse_or qpage 1 in
  let limit := Query.parse_or qlimit 20 in
  let skip := (page - 1) * limit in
  match Query.skip_limit skip limit
          (Query.sort_desc Comment.createdAt
             (Query.find (by_author userId) (db_comments db))) with
  | None => (server_error, db)
  | Some comments =>
      let total := Query.countDocuments (by_author userId) (db_comments db) in
      (json (UserCommentList comments (pagination page limit total)), db)
  end.

End CommentRoutes.

(** ** The user routes *)

Module UserRoutes.

(** The [switch (sort)] of GET /api/users. *)
Definition apply_sort (sort : option string)
    (l : list (ObjectId * User.doc)) : list (ObjectId * User.doc) :=
  let s := default "newest" sort in
  if String.eqb s "newest" then Query.sort_desc User.createdAt l
  else if String.eqb s "oldest" then Query.sort_asc User.createdAt l
  else if String.eqb s "username" then
    @merge_sort _ (λ x y, String.leb (User.username x.2) (User.username y.2) = true)
                (λ x y, decide (String.leb (User.username x.2) (User.username y.2) = true)) l
  else Query.sort_desc User.createdAt l.

(** GET /api/users.  [user_match] stands for the case-insensitive regular
    expression search on the name fields; an absent or empty [search] puts
    no condition. *)
Definition get_users (user_match : string → User.doc → bool) (db : Db)
    (qpage qlimit : option Z) (search sort : option string) : Response * Db :=
  let page := Query.parse_or qpage 1 in
  let limit := Query.parse_or qlimit 20 in
  let skip := (page - 1) * limit in
  let filter (u : User.doc) :=
    match search with
    | Some v => if String.eqb v "" then true else user_match v u
    | None => true
    end in
  match Query.skip_limit skip limit
          (apply_sort sort (Query.find filter (db_users db))) with
  | None => (server_error, db)
  | Some users =>
      let total := Query.countDocuments filter (db_users db) in
      (json (UserList users (pagination page limit total)), db)
  end.

(** [populate({ path, options: { skip, limit, sort: { createdAt: -1 } } })]
    on an array of user ids: the query [{ _id: { $in: ids } }] with these
    options; its result takes the place of the ids in the loaded document. *)
Definition populate_page (db : Db) (ids : list ObjectId) (skip limit : Z) :
    option (list (ObjectId * User.doc)) :=
  Query.skip_limit skip limit
    (Query.sort_desc User.createdAt
       (List.filter (λ kv, bool_decide (kv.1 ∈ ids)) (map_to_list (db_users db)))).

(** GET /api/users/:id/followers: [total] is the length of [user.followers]
    after the populate. *)
Definition get_followers (db : Db) (id : ObjectId)
    (qpage qlimit : option Z) : Response * Db :=
  let page := Query.parse_or qpage 1 in
  let limit := Query.parse_or qlimit 20 in
  let skip := (page - 1) * limit in
  match db_users db !! id with
  | None => (status_json 404 (Message "User not found"), db)
  | Some user =>
      match populate_page db (User.followers user) skip limit with
      | None => (server_error, db)
      | Some followers =>
          let total := Z.of_nat (List.length followers) in
          (json (UserList followers (pagination page limit total)), db)
      end
  end.

(** GET /api/users/:id/following. *)
Definition get_following (db : Db) (id : ObjectId)
    (qpage qlimit : option Z) : Response * Db :=
  let page := Query.parse_or qpage 1 in
  let limit := Query.parse_or qlimit 20 in
  let skip := (page - 1) * limit in
  match db_users db !! id with
  | None => (status_json 404 (Message "User not found"), db)
  | Some user =>
      match populate_page db (User.following user) skip limit with
      | None => (server_error, db)
      | Some following =>
          let total := Z.of_nat (List.length following) in
          (json (UserList following (pagination page limit total)), db)
      end
  end.

(** POST /api/users/:id/follow.  Both documents are saved; [req.user] is
    the requester's own document and [userToFollow] another one, since the
    handler has refused a request on oneself. *)
Definition follow (db : Db) (token : option ObjectId)
    (id : ObjectId) : Response * Db :=
  auth db token (λ uid user,
    match db_users db !! id with
    | None => (status_json 404 (Message "User not found"), db)
    | Some userToFollow =>
        if bool_decide (id = uid)
        then (status_json 400 (Message "You cannot follow yourself"), db)
        else
          let isFollowing := JS.includes (User.following user) id in
          let user' :=
            if isFollowing
            then User.set_following
                   (List.filter (λ x, bool_decide (x ≠ id)) (User.following user)) user
            else User.set_following (JS.push (User.following user) id) user in
          let userToFollow' :=
            if isFollowing
            then User.set_followers
                   (List.filter (λ x, bool_decide (x ≠ uid)) (User.followers userToFollow))
                   userToFollow
            else User.set_followers (JS.push (User.followers userToFollow) uid)
                   userToFollow in
          (json (FollowResult
                   (if isFollowing then "User unfollowed" else "User followed")
                   (negb isFollowing)),
           with_users (<[id := userToFollow']> (<[uid := user']> (db_users db))) db)
    end).

End UserRoutes.

(** ** The blog routes *)

Module BlogRoutes.

(** A query or body string that JavaScript takes as true: present and not
    empty. *)
Definition truthy (s : option string) : option string :=
  match s with
  | Some v => if String.eqb v "" then None else Some v
  | None => None
  end.

Record ListQuery := mkListQuery {
  q_page : option Z;
  q_limit : option Z;
  q_category : option string;
  q_tag : option string;
  q_search : option string;
  q_author : option ObjectId;
  q_sort : option string
}.

(** The filter of GET /api/blogs: [status: 'published'], [isPublic: true]
    and the optional criteria.  The tag of the query is cast as the elements
    of [tags] are, so the [trim] of the schema is applied to it before it is
    compared.  [text_match] stands for the full-text index of the
    database. *)
Definition list_filter (text_match : string → Blog.doc → bool)
    (q : ListQuery) (b : Blog.doc) : bool :=
  String.eqb (Blog.status b) "published"
  && Blog.isPublic b
  && match truthy (q_category q) with
     | Some c => String.eqb (Blog.category b) c
     | None => true
     end
  && match truthy (q_tag q) with
     | Some t => bool_decide (JS.trim t ∈ Blog.tags b)
     | None => true
     end
  && match q_author q with
     | Some a => bool_decide (Blog.author b = a)
     | None => true
     end
  && match truthy (q_search q) with
     | Some s => text_match s b
     | None => true
     end.

(** The [switch (sort)]; [likeCount] is a virtual, so sorting on it finds
    no stored field and every document has the same key.  Among documents
    with equal keys the database promises no order; the lists here keep the
    order of the collection there, which is one of the orders the database
    may give. *)
Definition apply_sort (sort : option string)
    (l : list (ObjectId * Blog.doc)) : list (ObjectId * Blog.doc) :=
  let s := default "newest" sort in
  if String.eqb s "newest" then Query.sort_desc Blog.createdAt l
  else if String.eqb s "oldest" then Query.sort_asc Blog.createdAt l
  else if String.eqb s "popular" then Query.sort_desc Blog.views l
  else if String.eqb s "likes" then l
  else Query.sort_desc Blog.createdAt l.

(** GET /api/blogs. *)
Definition get_blogs (text_match : string → Blog.doc → bool) (db : Db)
    (q : ListQuery) : Response * Db :=
  let page := Query.parse_or (q_page q) 1 in
  let limit := Query.parse_or (q_limit q) 10 in
  let skip := (page - 1) * limit in
  let filter := list_filter text_match q in
  match Query.skip_limit skip limit
          (apply_sort (q_sort q) (Query.find filter (db_blogs db))) with
  | None => (server_error, db)
  | Some blogs =>
      let total := Query.countDocuments filter (db_blogs db) in
      (json (BlogList blogs (pagination page limit total)), db)
  end.

(** GET /api/blogs/:id.  [populate('author')] puts the author's document,
    or [null] when there is none, in [blog.author]; reading
    [blog.author._id] then throws. *)
Definition get_blog (db : Db) (token : option ObjectId)
    (id : ObjectId) : Response * Db :=
  let req_user := optionalAuth db token in
  match db_blogs db !! id with
  | None => (status_json 404 (Message "Blog not found"), db)
  | Some blog =>
      let populated_author := db_users db !! Blog.author blog in
      let not_found := (status_json 404 (Message "Blog not found"), db) in
      let found :=
        let blog' := Blog.set_views (Blog.views blog + 1) blog in
        match Blog.prepare_save (Some blog) blog' with
        | None => (server_error, db)
        | Some saved =>
            (json (BlogResult None (Some (id, saved))),
             with_blogs (<[id := saved]> (db_blogs db)) db)
        end in
      if negb (String.eqb (Blog.status blog) "published") || negb (Blog.isPublic blog)
      then
        match req_user with
        | None => not_found
        | Some (uid, user) =>
            match populated_author with
            | None => (server_error, db)
            | Some _ =>
                if bool_decide (uid ≠ Blog.author blog)
                   && negb (String.eqb (User.role user) "admin")
                then not_found
                else found
            end
        end
      else found
  end.

Record BlogBody := mkBlogBody {
  bb_title : option string;
  bb_content : option string;
  bb_excerpt : option string;
  bb_tags : option (list string);
  bb_category : option string;
  bb_featuredImage : option string;
  bb_status : option string;
  bb_isPublic : option bool;
  bb_seo : option Blog.Seo
}.

(** The validators of POST /api/blogs. *)
Definition validate_post (body : BlogBody) : list string :=
  let t := default "" (bb_title body) in
  ((if String.eqb t "" then ["Title is required"] else [])
   ++ (if 200 <? JS.length t then ["Title must be less than 200 characters"] else [])
   ++ (if String.eqb (default "" (bb_content body)) "" then ["Content is required"] else [])
   ++ (if bool_decide (default "" (bb_category body) ∈ Blog.categories) then []
       else ["Invalid category"]))%list.

(** The validators of PUT /api/blogs/:id; both fields are [optional()]. *)
Definition validate_put (body : BlogBody) : list string :=
  ((match bb_title body with
    | Some t => if 200 <? JS.length t
                then ["Title must be less than 200 characters"] else []
    | None => []
    end)
   ++ (match bb_category body with
       | Some c => if bool_decide (c ∈ Blog.categories) then [] else ["Invalid category"]
       | None => []
       end))%list.

(** [new Blog({ ... })] with the schema's setters ([trim]) and defaults. *)
Definition new_blog (uid : ObjectId) (now : Z) (body : BlogBody) : Blog.doc :=
  Blog.mk (JS.trim (default "" (bb_title body)))
          (default "" (bb_content body))
          (default "" (bb_excerpt body))
          uid
          (map JS.trim (default [] (bb_tags body)))
          (default "" (bb_category body))
          (default "" (bb_featuredImage body))
          (default "draft" (truthy (bb_status body)))
          (default true (bb_isPublic body))
          [] 0 0 (bb_seo body) [] now.

(** POST /api/blogs. *)
Definition post_blog (db : Db) (token : option ObjectId)
    (fresh : ObjectId) (now : Z) (body : BlogBody) : Response * Db :=
  auth db token (λ uid user,
    match validate_post body with
    | [] =>
        match Blog.prepare_save None (new_blog uid now body) with
        | None => (server_error, db)
        | Some saved =>
            let db' := with_blogs (<[fresh := saved]> (db_blogs db)) db in
            (status_json 201
               (BlogResult (Some "Blog created successfully")
                  (pair fresh <$> db_blogs db' !! fresh)), db')
        end
    | errors => (status_json 400 (Errors errors), db)
    end).

(** The [updateFields.forEach] loop: every field present in the body is
    assigned. *)
Definition assign_fields (body : BlogBody) (b : Blog.doc) : Blog.doc :=
  Blog.mk (default (Blog.title b) (JS.trim <$> bb_title body))
          (default (Blog.content b) (bb_content body))
          (default (Blog.excerpt b) (bb_excerpt body))
          (Blog.author b)
          (default (Blog.tags b) (map JS.trim <$> bb_tags body))
          (default (Blog.category b) (bb_category body))
          (default (Blog.featuredImage b) (bb_featuredImage body))
          (default (Blog.status b) (bb_status body))
          (default (Blog.isPublic b) (bb_isPublic body))
          (Blog.likes b) (Blog.views b) (Blog.readTime b)
          (match bb_seo body with Some s => Some s | None => Blog.seo b end)
          (Blog.comments b) (Blog.createdAt b).

(** PUT /api/blogs/:id. *)
Definition put_blog (db : Db) (token : option ObjectId)
    (id : ObjectId) (body : BlogBody) : Response * Db :=
  auth db token (λ uid user,
    match validate_put body with
    | [] =>
        match db_blogs db !! id with
        | None => (status_json 404 (Message "Blog not found"), db)
        | Some blog =>
            if bool_decide (Blog.author blog ≠ uid)
               && negb (String.eqb (User.role user) "admin")
            then (status_json 403 (Message "Not authorized to update this blog"), db)
            else
              match Blog.prepare_save (Some blog) (assign_fields body blog) with
              | None => (server_error, db)
              | Some saved =>
                  let db' := with_blogs (<[id := saved]> (db_blogs db)) db in
                  (json (BlogResult (Some "Blog updated successfully")
                           (pair id <$> db_blogs db' !! id)), db')
              end
        end
    | errors => (status_json 400 (Errors errors), db)
    end).

(** DELETE /api/blogs/:id. *)
Definition delete_blog (db : Db) (token : option ObjectId)
    (id : ObjectId) : Response * Db :=
  auth db token (λ uid user,
    match db_blogs db !! id with
    | None => (status_json 404 (Message "Blog not found"), db)
    | Some blog =>
        if bool_decide (Blog.author blog ≠ uid)
           && negb (String.eqb (User.role user) "admin")
        then (status_json 403 (Message "Not authorized to delete this blog"), db)
        else (json (Message "Blog deleted successfully"),
              with_blogs (delete id (db_blogs db)) db)
    end).

(** POST /api/blogs/:id/like. *)
Definition like_blog (db : Db) (token : option ObjectId)
    (id : ObjectId) : Response * Db :=
  auth db token (λ uid user,
    match db_blogs db !! id with
    | None => (status_json 404 (Message "Blog not found"), db)
    | Some blog =>
        let likeIndex := JS.indexOf (Blog.likes blog) uid in
        let blog' := Blog.set_likes (toggle_like (Blog.likes blog) uid) blog in
        match Blog.prepare_save (Some blog) blog' with
        | None => (server_error, db)
        | Some saved =>
            (json (LikeResult
                     (if -1 <? likeIndex then "Blog unliked" else "Blog liked")
                     (Blog.likeCount saved)
                     (likeIndex =? -1)),
             with_blogs (<[id := saved]> (db_blogs db)) db)
        end
    end).

(** DELETE /api/blogs/:id/like. *)
Definition unlike_blog (db : Db) (token : option ObjectId)
    (id : ObjectId) : Response * Db :=
  auth db token (λ uid user,
    match db_blogs db !! id with
    | None => (status_json 404 (Message "Blog not found"), db)
    | Some blog =>
        let likeIndex := JS.indexOf (Blog.likes blog) uid in
        if likeIndex =? -1
        then (status_json 400 (Message "Blog is not liked"), db)
        else
          let blog' := Blog.set_likes (JS.splice1 likeIndex (Blog.likes blog)) blog in
          match Blog.prepare_save (Some blog) blog' with
          | None => (server_error, db)
          | Some saved =>
              (json (LikeResult "Blog unliked" (Blog.likeCount saved) false),
               with_blogs (<[id := saved]> (db_blogs db)) db)
          end
    end).

(** The filter of GET /api/blogs/user/:userId; the owner also sees the
    blogs that are not published or not public. *)
Definition user_filter (req_user : option (ObjectId * User.doc))
    (userId : ObjectId) (b : Blog.doc) : bool :=
  bool_decide (Blog.author b = userId)
  && match req_user with
     | Some (uid, _) =>
         if bool_decide (uid = userId) then true
         else String.eqb (Blog.status b) "published" && Blog.isPublic b
     | None => String.eqb (Blog.status b) "published" && Blog.isPublic b
     end.

(** GET /api/blogs/user/:userId.  The handler tells the owner by
    comparing the requester's id, as [toString] writes it, with the path
    parameter as the request wrote it; [userId] is a path parameter written
    that way. *)
Definition get_user_blogs (db : Db) (token : option ObjectId)
    (userId : ObjectId) (qpage qlimit : option Z) : Response * Db :=
  let page := Query.parse_or qpage 1 in
  let limit := Query.parse_or qlimit 10 in
  let skip := (page - 1) * limit in
  let filter := user_filter (optionalAuth db token) userId in
  match Query.skip_limit skip limit
          (Query.sort_desc Blog.createdAt (Query.find filter (db_blogs db))) with
  | None => (server_error, db)
  | Some blogs =>
      let total := Query.countDocuments filter (db_blogs db) in
      (json (BlogList blogs (pagination page limit total)), db)
  end.

End BlogRoutes.

(** ** The word count as the specification words it *)

Module Spec.

(** The number of whitespace-separated tokens of [s]: a token is a
    maximal run of code units none of which is white space.  [in_token]
    tells that the previous code unit belongs to a token. *)
Fixpoint token_count_from (in_token : bool) (s : string) : nat :=
  match s with
  | EmptyString => 0
  | String c s' =>
      if JS.is_space c then token_count_from false s'
      else ((if in_token then 0 else 1) + token_count_from true s')%nat
  end.

Definition token_count (s : string) : nat := token_count_from false s.

(** The read time the specification gives: tokens over 200, rounded up. *)
Definition readTime (s : string) : Z :=
  JS.ceil_div (Z.of_nat (token_count s)) 200.

Definition starts_with_token (s : string) : bool :=
  match s with
  | EmptyString => false
  | String c _ => negb (JS.is_space c)
  end.

Fixpoint ends_with_space (s : string) : bool :=
  match s with
  | EmptyString => false
  | String c EmptyString => JS.is_space c
  | String _ s' => ends_with_space s'
  end.

End Spec.

(** ** Invariants of the database *)

(** No [likes] array, of a blog or of a comment, holds an id twice. *)
Definition likes_unique (db : Db) : Prop :=
  map_Forall (λ _ b, NoDup (Blog.likes b)) (db_blogs db)
  ∧ map_Forall (λ _ c, NoDup (Comment.likes c)) (db_comments db).

(** What the spec asks of a blog shown to anyone but its owner. *)
Definition publicly_visible (b : Blog.doc) : bool :=
  String.eqb (Blog.status b) "published" && Blog.isPublic b.

(** The requester is the author of the resource or an admin. *)
Definition may_modify (uid : ObjectId) (u : User.doc) (author : ObjectId) : Prop :=
  uid = author ∨ User.role u = "admin".

(** A handler guarded by an ownership check: whoever is allowed is not
    answered 403, whoever is not allowed is answered 403 and the database is
    left as it was, and only who is allowed is answered 200. *)
Definition guarded (allowed : Prop) (db : Db) (out : Response * Db) : Prop :=
  (allowed → res_status out.1 ≠ 403)
  ∧ (¬ allowed → res_status out.1 = 403 ∧ out.2 = db)
  ∧ (res_status out.1 = 200 → allowed).

(** The comments after an accepted POST /api/comments. *)
Definition comments_after_post (db : Db) (fresh : ObjectId) (c : Comment.doc) :
    gmap N Comment.doc :=
  match Comment.parentComment c with
  | Some p =>
      alter (λ c', Comment.set_replies (JS.push (Comment.replies c') fresh) c') p
            (<[fresh := c]> (db_comments db))
  | None => <[fresh := c]> (db_comments db)
  end.

(** Every stored reply names a stored comment as its parent. *)
Definition parent_stored (db : Db) (c : Comment.doc) : Prop :=
  match Comment.parentComment c with
  | Some p => is_Some (db_comments db !! p)
  | None => True
  end.

#[global] Instance parent_stored_dec db c : Decision (parent_stored db c).
Proof. unfold parent_stored. destruct (Comment.parentComment c); apply _. Defined.

Definition parents_exist (db : Db) : Prop :=
  map_Forall (λ _ c, parent_stored db c) (db_comments db).

(** The ids that a comment listing shows: the top-level comments and
    their replies. *)
Definition listed_ids (r : Response) : list ObjectId :=
  match res_body r with
  | CommentList views _ =>
      flat_map (λ v, cv_id v :: map fst (cv_replies v)) views
  | UserCommentList comments _ => map fst comments
  | _ => []
  end.

(** The [pagination] object of a list response. *)
Definition pagination_of (r : Response) : option Pagination :=
  match res_body r with
  | BlogList _ p | CommentList _ p | UserCommentList _ p | UserList _ p => Some p
  | _ => None
  end.

(** What C9 asks of a list response for the query [page], [limit] when
    [total] documents match. *)
Definition pagination_ok (page limit total : Z) (r : Response) : Prop :=
  ∃ p, res_status r = 200
       ∧ pagination_of r = Some p
       ∧ currentPage p = page
       ∧ totalItems p = total
       ∧ (totalPages p - 1) * limit < total ≤ totalPages p * limit
       ∧ hasNext p = bool_decide (page * limit < total)
       ∧ hasPrev p = bool_decide (1 < page)
       ∧ (hasNext p = true ↔ currentPage p < totalPages p).

(** The follower and following arrays of [u] and [v] agree on whether [u]
    follows [v]. *)
Definition follow_consistent (u v : ObjectId) (ud vd : User.doc) : Prop :=
  v ∈ User.following ud ↔ u ∈ User.followers vd.

(** ** A small database to run the handlers on *)

Module Sample.
Local Open Scope N_scope.

(** ann follows cat; bob is an admin; ann, bob and cat follow dan. *)
Definition ann : User.doc := User.mk "ann" "ann@example.org" "" "user" [] [3; 4] 10%Z.
Definition bob : User.doc := User.mk "bob" "bob@example.org" "" "admin" [] [4] 20%Z.
Definition cat : User.doc := User.mk "cat" "cat@example.org" "" "user" [1] [4] 30%Z.
Definition dan : User.doc := User.mk "dan" "dan@example.org" "" "user" [1; 2; 3] [] 40%Z.

Definition draft : Blog.doc :=
  Blog.mk "Draft" "<p>work in progress</p>" "work in progress" 1 []
          "Other" "" "draft" true [1; 2] 0%Z 1%Z None [] 100%Z.
Definition post : Blog.doc :=
  Blog.mk "Post" "<p>hello world</p>" "hello world" 1 ["intro"]
          "Technology" "" "published" true [] 7%Z 1%Z None [20; 21; 22] 200%Z.
Definition travel : Blog.doc :=
  Blog.mk "Travel" "<p>on the road</p>" "on the road" 3 []
          "Travel" "" "published" true [3] 2%Z 1%Z None [23] 300%Z.

(** Comment 20 is on [post] and has the reply 21; 22 is soft-deleted;
    23 is on [travel]. *)
Definition c20 : Comment.doc :=
  Comment.mk "first" 3 11 None [1; 3] [21; 24] false false None 210%Z.
Definition c21 : Comment.doc :=
  Comment.mk "thanks" 1 11 (Some 20) [] [] false false None 220%Z.
Definition c22 : Comment.doc :=
  Comment.mk "oops" 3 11 None [] [] true false None 230%Z.
Definition c23 : Comment.doc :=
  Comment.mk "nice trip" 1 12 None [] [] false false None 310%Z.
Definition c24 : Comment.doc :=
  Comment.mk "removed reply" 3 11 (Some 20) [] [] true false None 240%Z.

(** [n] words, each followed by a space. *)
Fixpoint words (n : nat) : string :=
  match n with
  | O => ""
  | S n' => "word " +:+ words n'
  end.

Definition blank_body : BlogRoutes.BlogBody :=
  BlogRoutes.mkBlogBody (Some "Blank") (Some " ") None None (Some "Other")
                        None None None None.

Definition essay_body : BlogRoutes.BlogBody :=
  BlogRoutes.mkBlogBody (Some "Essay") (Some (words 200)) None None (Some "Other")
                        None None None None.

Definition db : Db :=
  mkDb (<[1 := ann]> (<[2 := bob]> (<[3 := cat]> (<[4 := dan]> ∅))))
       (<[10 := draft]> (<[11 := post]> (<[12 := travel]> ∅)))
       (<[20 := c20]> (<[21 := c21]> (<[22 := c22]> (<[23 := c23]> (<[24 := c24]> ∅))))).

End Sample.

(** ** Predicates for the properties of the model and of the handlers *)

(** [true] when some [<] of [s] has a [>] after it: such a pair is what
    the regular expression [/<[^>]*>/] matches. *)
Fixpoint has_tag (s : string) : bool :=
  match s with
  | EmptyString => false
  | String c s' => (Ascii.eqb c "<" && JS.contains_gt s') || has_tag s'
  end.

(** [b'] has the paths that neither a like nor a view writes as [b] has
    them. *)
Definition same_article (b b' : Blog.doc) : Prop :=
  Blog.title b' = Blog.title b ∧ Blog.content b' = Blog.content b
  ∧ Blog.excerpt b' = Blog.excerpt b ∧ Blog.author b' = Blog.author b
  ∧ Blog.tags b' = Blog.tags b ∧ Blog.category b' = Blog.category b
  ∧ Blog.featuredImage b' = Blog.featuredImage b
  ∧ Blog.status b' = Blog.status b ∧ Blog.isPublic b' = Blog.isPublic b
  ∧ Blog.readTime b' = Blog.readTime b ∧ Blog.seo b' = Blog.seo b
  ∧ Blog.comments b' = Blog.comments b ∧ Blog.createdAt b' = Blog.createdAt b.

(** The response is a 200 that carries the blog [id] as [b] is stored, with
    one view more. *)
Definition shows_blog (id : ObjectId) (b : Blog.doc) (r : Response) : Prop :=
  res_status r = 200
  ∧ ∃ shown, res_body r = BlogResult None (Some (id, shown))
             ∧ Blog.views shown = Blog.views b + 1
             ∧ Blog.likes shown = Blog.likes b
             ∧ same_article b shown.

(** The key on which the [switch (sort)] has the database sort: ['likes']
    names no stored field, so every document has the same key there. *)
Definition sort_key (sort : option string) (b : Blog.doc) : Z :=
  let s := default "newest" sort in
  if String.eqb s "popular" then Blog.views b
  else if String.eqb s "likes" then 0
  else Blog.createdAt b.

(** Only ['oldest'] sorts in ascending order. *)
Definition sort_ascending (sort : option string) : bool :=
  String.eqb (default "newest" sort) "oldest".

Definition sort_before (sort : option string) (x y : ObjectId * Blog.doc) : Prop :=
  if sort_ascending sort then sort_key sort x.2 ≤ sort_key sort y.2
  else sort_key sort y.2 ≤ sort_key sort x.2.

(** [l] is in an order that the sort allows. *)
Definition in_sort_order (sort : option string) (l : list (ObjectId * Blog.doc)) : Prop :=
  Sorted (sort_before sort) l.

(** No two of the blogs have the same sort key: the sort then allows one
    order only. *)
Definition sort_keys_distinct (sort : option string)
    (l : list (ObjectId * Blog.doc)) : Prop :=
  NoDup (map (λ x, sort_key sort x.2) l).

(** Every stored blog passes the validators of the schema. *)
Definition blogs_valid (db : Db) : Prop :=
  map_Forall (λ _ b, Blog.validate_new b = true) (db_blogs db).

(** [excerpt] and [readTime] are the ones the model's methods derive from
    the stored [content]. *)
Definition derived_fields (b : Blog.doc) : Prop :=
  Blog.excerpt b = Blog.excerpt (Blog.generateExcerpt b)
  ∧ Blog.readTime b = Blog.readTime (Blog.calculateReadTime b).

(** The blogs of a list response. *)
Definition listed_blogs (r : Response) : list (ObjectId * Blog.doc) :=
  match res_body r with
  | BlogList blogs _ => blogs
  | _ => []
  end.


(** The query [q] asked for another page, or with another page size. *)
Definition with_page (page : option Z) (q : BlogRoutes.ListQuery) : BlogRoutes.ListQuery :=
  BlogRoutes.mkListQuery page (BlogRoutes.q_limit q) (BlogRoutes.q_category q)
    (BlogRoutes.q_tag q) (BlogRoutes.q_search q) (BlogRoutes.q_author q)
    (BlogRoutes.q_sort q).

Definition with_limit (limit : option Z) (q : BlogRoutes.ListQuery) : BlogRoutes.ListQuery :=
  BlogRoutes.mkListQuery (BlogRoutes.q_page q) limit (BlogRoutes.q_category q)
    (BlogRoutes.q_tag q) (BlogRoutes.q_search q) (BlogRoutes.q_author q)
    (BlogRoutes.q_sort q).

(** The query [q] with its empty strings left out. *)
Definition without_empty (q : BlogRoutes.ListQuery) : BlogRoutes.ListQuery :=
  BlogRoutes.mkListQuery (BlogRoutes.q_page q) (BlogRoutes.q_limit q)
    (BlogRoutes.truthy (BlogRoutes.q_category q)) (BlogRoutes.truthy (BlogRoutes.q_tag q))
    (BlogRoutes.truthy (BlogRoutes.q_search q)) (BlogRoutes.q_author q)
    (BlogRoutes.q_sort q).

(** The blogs of the pages 1 to [n] of GET /api/blogs for the query [q],
    one page after the other. *)
Definition blog_pages (text_match : string → Blog.doc → bool) (db : Db)
    (q : BlogRoutes.ListQuery) (n : nat) : list (ObjectId * Blog.doc) :=
  List.concat (map (λ p, listed_blogs
                      (BlogRoutes.get_blogs text_match db
                         (with_page (Some (Z.of_nat p)) q)).1)
              (seq 1 n)).

(** Across all stored users, [y] is in the [following] of [x] exactly when
    [x] is in the [followers] of [y]. *)
Definition follow_graph (db : Db) : Prop :=
  map_Forall (λ x xd,
    map_Forall (λ y yd, y ∈ User.following xd ↔ x ∈ User.followers yd) (db_users db))
    (db_users db).

(** No [following] or [followers] array holds an id twice. *)
Definition follow_unique (db : Db) : Prop :=
  map_Forall (λ _ xd, NoDup (User.following xd) ∧ NoDup (User.followers xd)) (db_users db).

(** ** The profile, category and tag handlers *)

Module UserProfileRoute.

(** The answer of GET /api/users/:id: the user's document with the
    populated arrays and the computed fields. *)
Record Profile := mkProfile {
  pr_user : User.doc;
  pr_followers : list (ObjectId * User.doc);
  pr_following : list (ObjectId * User.doc);
  blogCount : Z;
  isFollowing : bool;
  followerCount : Z;
  followingCount : Z
}.

(** [populate('followers', ...)]: each id gives way to the document it
    names; an id that names no document is dropped. *)
Definition populate (db : Db) (ids : list ObjectId) : list (ObjectId * User.doc) :=
  omap (λ i, pair i <$> db_users db !! i) ids.

(** GET /api/users/:id: the status and, for 200, the profile. *)
Definition get_user (db : Db) (token : option ObjectId) (id : ObjectId) :
    Z * option Profile :=
  match db_users db !! id with
  | None => (404, None)
  | Some user =>
      let followers := populate db (User.followers user) in
      let following := populate db (User.following user) in
      let blogCount :=
        Query.countDocuments
          (λ b, bool_decide (Blog.author b = id)
                && String.eqb (Blog.status b) "published" && Blog.isPublic b)
          (db_blogs db) in
      let isFollowing :=
        match optionalAuth db token with
        | Some (uid, _) => existsb (λ follower, bool_decide (follower.1 = uid)) followers
        | None => false
        end in
      (200, Some (mkProfile user followers following blogCount isFollowing
                            (Z.of_nat (List.length followers))
                            (Z.of_nat (List.length following))))
  end.

End UserProfileRoute.

Module BlogMeta.

(** [Blog.distinct(path)]: the values of the path over all the blogs, each
    once. *)
Definition distinct (values : list string) : list string := remove_dups values.

(** GET /api/blogs/categories. *)
Definition get_categories (db : Db) : list string :=
  distinct (map (λ kv, Blog.category kv.2) (map_to_list (db_blogs db))).

(** GET /api/blogs/tags: [distinct] on an array path takes the elements of
    the arrays. *)
Definition get_tags (db : Db) : list string :=
  distinct (flat_map (λ kv, Blog.tags kv.2) (map_to_list (db_blogs db))).

End BlogMeta.

(** ** The GET routes of the blog router, in their order *)

Module BlogRouter.

(** A piece of a route path: a literal, or a named parameter such as
    [:id]. *)
Inductive Piece := lit (s : string) | param.

(** The handlers that the router registers for GET. *)
Inductive Handler := blog_list | blog_by_id | user_blogs | categories | tags.

(** [router.get(path, ...)], in the order in which the file registers
    them: ['/'], ['/:id'], ['/user/:userId'], ['/categories'], ['/tags']. *)
Definition get_routes : list (list Piece * Handler) :=
  [([], blog_list); ([param], blog_by_id); ([lit "user"; param], user_blogs);
   ([lit "categories"], categories); ([lit "tags"], tags)].

(** Routing does not tell the case of letters apart. *)
Definition lower_ascii (c : ascii) : ascii :=
  let n := N_of_ascii c in
  if ((65 <=? n) && (n <=? 90))%N then ascii_of_N (n + 32) else c.

Fixpoint lower (s : string) : string :=
  match s with
  | EmptyString => EmptyString
  | String c s' => String (lower_ascii c) (lower s')
  end.

(** A route path against the segments of a request path, which are the
    pieces between its slashes: the values of the parameters when the route
    matches.  A parameter takes one segment that is not empty. *)
Fixpoint match_path (route : list Piece) (path : list string) : option (list string) :=
  match route, path with
  | [], [] => Some []
  | lit s :: route', seg :: path' =>
      if String.eqb (lower s) (lower seg) then match_path route' path' else None
  | param :: route', seg :: path' =>
      if String.eqb seg "" then None else cons seg <$> match_path route' path'
  | _, _ => None
  end.

(** The first route that matches takes the request: every handler here
    answers, and none passes the request on. *)
Fixpoint first_match (routes : list (list Piece * Handler)) (path : list string) :
    option (Handler * list string) :=
  match routes with
  | [] => None
  | (route, h) :: routes' =>
      match match_path route path with
      | Some params => Some (h, params)
      | None => first_match routes' path
      end
  end.

Definition dispatch (path : list string) : option (Handler * list string) :=
  first_match get_routes path.

(** A string of 24 hexadecimal digits as an id. *)
Definition hex_digit (c : ascii) : option N :=
  let n := N_of_ascii c in
  if ((48 <=? n) && (n <=? 57))%N then Some (n - 48)%N
  else if ((97 <=? n) && (n <=? 102))%N then Some (n - 87)%N
  else if ((65 <=? n) && (n <=? 70))%N then Some (n - 55)%N
  else None.

Fixpoint hex_value (s : string) (acc : N) : option N :=
  match s with
  | EmptyString => Some acc
  | String c s' =>
      match hex_digit c with
      | Some d => hex_value s' (16 * acc + d)%N
      | None => None
      end
  end.

Definition hexObjectId (s : string) : option ObjectId :=
  if (String.length s =? 24)%nat then hex_value s 0%N else None.

(** [toString] writes an id as 24 hexadecimal digits in lower case; a path
    parameter that casts to an id is written so when it has 24 characters,
    none of them in upper case. *)
Definition written_as_id (s : string) : bool :=
  (String.length s =? 24)%nat && String.eqb (lower s) s.

(** A GET request to the router: the answer of the handler that takes it,
    which is a response or, from the last two handlers, a list of strings;
    [None] when no route matches.  [castObjectId] is the cast of a path
    parameter to an id, whose failure the handlers catch and answer with 500.
    A requester whose id is not written in the path as [toString] writes it
    is not told from a stranger by the handler of ['/user/:userId'], which has
    no other use of the requester in this model. *)
Definition get (castObjectId : string → option ObjectId)
    (text_match : string → Blog.doc → bool) (db : Db) (token : option ObjectId)
    (q : BlogRoutes.ListQuery) (path : list string) :
    option (Response * Db + list string) :=
  match dispatch path with
  | Some (blog_list, _) => Some (inl (BlogRoutes.get_blogs text_match db q))
  | Some (blog_by_id, [id]) =>
      Some (inl (match castObjectId id with
                 | Some id => BlogRoutes.get_blog db token id
                 | None => (server_error, db)
                 end))
  | Some (user_blogs, [userId]) =>
      Some (inl (match castObjectId userId with
                 | Some id =>
                     BlogRoutes.get_user_blogs db
                       (if written_as_id userId then token else None) id
                       (BlogRoutes.q_page q) (BlogRoutes.q_limit q)
                 | None => (server_error, db)
                 end))
  | Some (categories, _) => Some (inr (BlogMeta.get_categories db))
  | Some (tags, _) => Some (inr (BlogMeta.get_tags db))
  | _ => None
  end.

End BlogRouter.

(** ** The blog slice of the client store
    ([frontend/src/store/slices/blogSlice.js]) *)

Module BlogSlice.

(** A blog object as the client holds it: the fields the reducers read or
    write, and the rest of the document.  [likeCount] and [isLiked] are absent
    from objects the server has sent without them. *)
Record Item := mkItem {
  _id : ObjectId;
  likeCount : option Z;
  isLiked : option bool;
  data : Blog.doc
}.

Record State := mkState {
  blogs : list Item;
  currentBlog : option Item;
  userBlogs : list Item;
  categories : list string;
  tags : list string;
  pagination : Pagination;
  loading : bool;
  error : option string;
  message : option string
}.

Definition initialState : State :=
  mkState [] None [] [] [] (mkPagination 1 0 0 false false) false None None.

(** The actions of the slice: its own reducers and the three outcomes of
    each thunk, with their payloads. *)
Inductive Action :=
| clearError | clearMessage | clearCurrentBlog | clearUserBlogs
| fetchBlogs_pending
| fetchBlogs_fulfilled (blogs : list Item) (pagination : Pagination)
| fetchBlogs_rejected (payload : string)
| fetchBlogById_pending
| fetchBlogById_fulfilled (blog : Item)
| fetchBlogById_rejected (payload : string)
| createBlog_pending
| createBlog_fulfilled (blog : Item)
| createBlog_rejected (payload : string)
| updateBlog_pending
| updateBlog_fulfilled (blog : Item)
| updateBlog_rejected (payload : string)
| deleteBlog_pending
| deleteBlog_fulfilled (blogId : ObjectId)
| deleteBlog_rejected (payload : string)
| likeBlog_pending
| likeBlog_fulfilled (blogId : ObjectId) (likeCount : option Z) (isLiked : option bool)
| likeBlog_rejected (payload : string)
| unlikeBlog_pending
| unlikeBlog_fulfilled (blogId : ObjectId) (likeCount : option Z) (isLiked : option bool)
| unlikeBlog_rejected (payload : string)
| fetchUserBlogs_pending
| fetchUserBlogs_fulfilled (blogs : list Item) (pagination : Pagination)
| fetchUserBlogs_rejected (payload : string)
| fetchCategories_fulfilled (categories : list string)
| fetchTags_fulfilled (tags : list string).

(** [arr.findIndex(x => x._id === id)]: the first index, or [-1]. *)
Fixpoint findIndex (id : ObjectId) (l : list Item) : Z :=
  match l with
  | [] => -1
  | x :: l' =>
      if decide (_id x = id) then 0
      else let i := findIndex id l' in if decide (i = -1) then -1 else i + 1
  end.

Definition set_blogs (l : list Item) (s : State) : State :=
  mkState l (currentBlog s) (userBlogs s) (categories s) (tags s) (pagination s)
          (loading s) (error s) (message s).
Definition set_currentBlog (c : option Item) (s : State) : State :=
  mkState (blogs s) c (userBlogs s) (categories s) (tags s) (pagination s)
          (loading s) (error s) (message s).
Definition set_userBlogs (l : list Item) (s : State) : State :=
  mkState (blogs s) (currentBlog s) l (categories s) (tags s) (pagination s)
          (loading s) (error s) (message s).
Definition set_pagination (p : Pagination) (s : State) : State :=
  mkState (blogs s) (currentBlog s) (userBlogs s) (categories s) (tags s) p
          (loading s) (error s) (message s).
Definition set_loading (b : bool) (s : State) : State :=
  mkState (blogs s) (currentBlog s) (userBlogs s) (categories s) (tags s) (pagination s)
          b (error s) (message s).
Definition set_error (e : option string) (s : State) : State :=
  mkState (blogs s) (currentBlog s) (userBlogs s) (categories s) (tags s) (pagination s)
          (loading s) e (message s).
Definition set_message (m : option string) (s : State) : State :=
  mkState (blogs s) (currentBlog s) (userBlogs s) (categories s) (tags s) (pagination s)
          (loading s) (error s) m.

(** [pending]: [loading = true; error = null]. *)
Definition pending (s : State) : State := set_error None (set_loading true s).
(** [rejected]: [loading = false; error = action.payload]. *)
Definition rejected (payload : string) (s : State) : State :=
  set_error (Some payload) (set_loading false s).

Definition set_like (likeCount : option Z) (isLiked : option bool) (x : Item) : Item :=
  mkItem (_id x) likeCount isLiked (data x).

(** The [likeBlog.fulfilled] and [unlikeBlog.fulfilled] cases, which are
    written alike. *)
Definition like_fulfilled (blogId : ObjectId) (likeCount : option Z)
    (isLiked : option bool) (s : State) : State :=
  let blogIndex := findIndex blogId (blogs s) in
  let s1 :=
    if decide (blogIndex = -1) then s
    else set_blogs (alter (set_like likeCount isLiked) (Z.to_nat blogIndex) (blogs s)) s in
  match currentBlog s1 with
  | Some c =>
      if decide (_id c = blogId)
      then set_currentBlog (Some (set_like likeCount isLiked c)) s1
      else s1
  | None => s1
  end.

Definition reducer (s : State) (a : Action) : State :=
  match a with
  | clearError => set_error None s
  | clearMessage => set_message None s
  | clearCurrentBlog => set_currentBlog None s
  | clearUserBlogs => set_userBlogs [] s
  | fetchBlogs_pending => pending s
  | fetchBlogs_fulfilled bs p =>
      set_pagination p (set_blogs bs (set_loading false s))
  | fetchBlogs_rejected e => rejected e s
  | fetchBlogById_pending => pending s
  | fetchBlogById_fulfilled b => set_currentBlog (Some b) (set_loading false s)
  | fetchBlogById_rejected e => rejected e s
  | createBlog_pending => pending s
  | createBlog_fulfilled b =>
      set_message (Some "Blog created successfully")
        (set_blogs (b :: blogs s) (set_loading false s))
  | createBlog_rejected e => rejected e s
  | updateBlog_pending => pending s
  | updateBlog_fulfilled b =>
      let s0 := set_loading false s in
      let index := findIndex (_id b) (blogs s0) in
      let s1 :=
        if decide (index = -1) then s0
        else set_blogs (<[Z.to_nat index := b]> (blogs s0)) s0 in
      let s2 :=
        match currentBlog s1 with
        | Some c => if decide (_id c = _id b) then set_currentBlog (Some b) s1 else s1
        | None => s1
        end in
      set_message (Some "Blog updated successfully") s2
  | updateBlog_rejected e => rejected e s
  | deleteBlog_pending => pending s
  | deleteBlog_fulfilled id =>
      let s1 :=
        set_blogs (List.filter (λ blog, bool_decide (_id blog ≠ id)) (blogs s))
                  (set_loading false s) in
      let s2 :=
        match currentBlog s1 with
        | Some c => if decide (_id c = id) then set_currentBlog None s1 else s1
        | None => s1
        end in
      set_message (Some "Blog deleted successfully") s2
  | deleteBlog_rejected e => rejected e s
  | likeBlog_pending => s
  | likeBlog_fulfilled id n il => like_fulfilled id n il s
  | likeBlog_rejected e => set_error (Some e) s
  | unlikeBlog_pending => s
  | unlikeBlog_fulfilled id n il => like_fulfilled id n il s
  | unlikeBlog_rejected e => set_error (Some e) s
  | fetchUserBlogs_pending => pending s
  | fetchUserBlogs_fulfilled bs p =>
      set_pagination p (set_userBlogs bs (set_loading false s))
  | fetchUserBlogs_rejected e => rejected e s
  | fetchCategories_fulfilled cs =>
      mkState (blogs s) (currentBlog s) (userBlogs s) cs (tags s) (pagination s)
              (loading s) (error s) (message s)
  | fetchTags_fulfilled ts =>
      mkState (blogs s) (currentBlog s) (userBlogs s) (categories s) ts (pagination s)
              (loading s) (error s) (message s)
  end.

(** The [likeBlog] thunk on the answer of the server.  A 2xx answer is
    [fulfilled] with [{ blogId, ...response.data }], whose [likeCount] and
    [isLiked] are absent when the body has none; any other answer is
    [rejected] with [response.data.message || 'Failed to like blog']. *)
Definition likeBlog_outcome (blogId : ObjectId) (r : Response) : Action :=
  if (200 <=? res_status r) && (res_status r <? 300)
  then match res_body r with
       | LikeResult _ n il => likeBlog_fulfilled blogId (Some n) (Some il)
       | _ => likeBlog_fulfilled blogId None None
       end
  else match res_body r with
       | Message m | LikeResult m _ _ | FollowResult m _ | CommentResult m _ =>
           likeBlog_rejected (if String.eqb m "" then "Failed to like blog" else m)
       | BlogResult (Some m) _ =>
           likeBlog_rejected (if String.eqb m "" then "Failed to like blog" else m)
       | _ => likeBlog_rejected "Failed to like blog"
       end.

End BlogSlice.

(** * Properties *)

Local Open Scope list_scope.

(** ** Arrays of ids *)

Section arrays.
Implicit Types (l : list ObjectId) (x y : ObjectId).

Lemma indexOf_lower l x : -1 ≤ JS.indexOf l x.
Proof.
  induction l as [|y l IH]; simpl; [lia|].
  destruct (decide (y = x)); [lia|].
  destruct (decide (JS.indexOf l x = -1)); lia.
Qed.

Lemma indexOf_absent l x : JS.indexOf l x = -1 ↔ x ∉ l.
Proof.
  induction l as [|y l IH]; simpl.
  - split; [intros _; apply not_elem_of_nil | done].
  - rewrite not_elem_of_cons. destruct (decide (y = x)) as [->|Hne].
    + split; [lia | intros [? _]; done].
    + pose proof (indexOf_lower l x).
      destruct (decide (JS.indexOf l x = -1)) as [E|E].
      * split; [intros _; split; [done | by apply IH] | done].
      * split; [lia | intros [_ H']; apply IH in H'; done].
Qed.

(** A found index points at the first occurrence. *)
Lemma indexOf_found l x :
  x ∈ l →
  ∃ l1 l2, l = l1 ++ x :: l2 ∧ (x ∉ l1)
           ∧ JS.indexOf l x = Z.of_nat (List.length l1).
Proof.
  induction l as [|y l IH]; [by intros ?%elem_of_nil|].
  intros Hin. simpl. destruct (decide (y = x)) as [->|Hne].
  - exists [], l. split_and!; [done | apply not_elem_of_nil | done].
  - apply elem_of_cons in Hin as [->|Hin]; [done|].
    destruct (IH Hin) as (l1 & l2 & -> & Hl1 & Hi).
    exists (y :: l1), l2. split_and!; [done | | ].
    + apply not_elem_of_cons; split; [congruence | done].
    + rewrite Hi. destruct (decide (Z.of_nat (List.length l1) = -1)); [lia|].
      simpl List.length. lia.
Qed.

Lemma splice1_middle l1 l2 x :
  JS.splice1 (Z.of_nat (List.length l1)) (l1 ++ x :: l2) = l1 ++ l2.
Proof.
  unfold JS.splice1. rewrite Nat2Z.id.
  induction l1 as [|y l1 IH]; simpl; [done | by rewrite IH].
Qed.

Lemma includes_elem_of l x : JS.includes l x = bool_decide (x ∈ l).
Proof.
  unfold JS.includes. apply bool_decide_ext.
  rewrite indexOf_absent. split; [apply dec_stable | auto].
Qed.

Lemma toggle_like_absent l x : x ∉ l → toggle_like l x = l ++ [x].
Proof.
  intros H. unfold toggle_like. apply indexOf_absent in H as ->. done.
Qed.

Lemma toggle_like_present l x :
  x ∈ l →
  ∃ l1 l2, l = l1 ++ x :: l2 ∧ (x ∉ l1)
           ∧ JS.indexOf l x = Z.of_nat (List.length l1)
           ∧ toggle_like l x = l1 ++ l2.
Proof.
  intros H. destruct (indexOf_found l x H) as (l1 & l2 & -> & Hl1 & Hi).
  exists l1, l2. split_and!; [done..|].
  unfold toggle_like. rewrite Hi.
  destruct (Z.ltb_spec (-1) (Z.of_nat (List.length l1))); [|lia].
  apply splice1_middle.
Qed.

Lemma toggle_like_NoDup l x : NoDup l → NoDup (toggle_like l x).
Proof.
  intros Hnd. destruct (decide (x ∈ l)) as [Hin|Hin].
  - destruct (toggle_like_present l x Hin) as (l1 & l2 & -> & _ & _ & ->).
    apply NoDup_app in Hnd as (H1 & H2 & H3).
    apply NoDup_cons in H3 as [_ H3].
    apply NoDup_app. split_and!; [done | | done].
    intros y Hy Hy2. apply (H2 y Hy). by apply elem_of_cons; right.
  - rewrite toggle_like_absent by done.
    apply NoDup_app. split_and!; [done | | apply NoDup_singleton].
    intros y Hy ->%list_elem_of_singleton. done.
Qed.

(** Like, then unlike: the array is the original one. *)
Lemma toggle_like_twice_absent l x :
  x ∉ l → toggle_like (toggle_like l x) x = l.
Proof.
  intros H. rewrite (toggle_like_absent l x H).
  assert (Hin : x ∈ l ++ [x]) by (apply elem_of_app; right; by apply list_elem_of_singleton).
  destruct (toggle_like_present _ _ Hin) as (l1 & l2 & E & Hl1 & _ & ->).
  assert (l1 = l ∧ l2 = []) as [-> ->]; [|by rewrite app_nil_r].
  clear Hin. revert l1 E Hl1 H. induction l as [|y l IH]; intros l1 E Hl1 H.
  - destruct l1 as [|z l1]; simpl in E; simplify_eq; [done|].
    destruct l1; discriminate.
  - apply not_elem_of_cons in H as [Hxy H].
    destruct l1 as [|z l1]; simpl in E; simplify_eq.
    apply not_elem_of_cons in Hl1 as [_ Hl1].
    destruct (IH l1 ltac:(done) Hl1 H) as [-> ->]. done.
Qed.

(** Unlike, then like: the id moves to the end of the array. *)
Lemma toggle_like_twice_present l x :
  NoDup l → x ∈ l →
  ∃ l1 l2, l = l1 ++ x :: l2 ∧ toggle_like (toggle_like l x) x = l1 ++ l2 ++ [x].
Proof.
  intros Hnd Hin.
  destruct (toggle_like_present l x Hin) as (l1 & l2 & -> & Hl1 & _ & ->).
  exists l1, l2. split; [done|].
  rewrite toggle_like_absent, <-app_assoc; [done|].
  apply NoDup_app in Hnd as (_ & _ & H3). apply NoDup_cons in H3 as [H3 _].
  intros [?|?]%elem_of_app; done.
Qed.

Lemma toggle_like_twice_Permutation l x :
  NoDup l → toggle_like (toggle_like l x) x ≡ₚ l.
Proof.
  intros Hnd. destruct (decide (x ∈ l)) as [Hin|Hin].
  - destruct (toggle_like_twice_present l x Hnd Hin) as (l1 & l2 & -> & ->).
    apply Permutation_app_head. symmetry. apply Permutation_cons_append.
  - by rewrite toggle_like_twice_absent.
Qed.

End arrays.

(** ** Saving a blog that passes the schema, with a path changed that has
    no validator *)

Lemma prepare_save_likes b l :
  Blog.validate_new b = true →
  Blog.prepare_save (Some b) (Blog.set_likes l b) = Some (Blog.set_likes l b).
Proof.
  intros Hv. unfold Blog.prepare_save.
  change (Blog.validate_new (Blog.set_likes l b)) with (Blog.validate_new b).
  rewrite Hv. cbn [Blog.content Blog.set_likes].
  rewrite bool_decide_eq_false_2; [done | by intros H; apply H].
Qed.

Lemma prepare_save_views b v :
  Blog.validate_new b = true →
  Blog.prepare_save (Some b) (Blog.set_views v b) = Some (Blog.set_views v b).
Proof.
  intros Hv. unfold Blog.prepare_save.
  change (Blog.validate_new (Blog.set_views v b)) with (Blog.validate_new b).
  rewrite Hv. cbn [Blog.content Blog.set_views].
  rewrite bool_decide_eq_false_2; [done | by intros H; apply H].
Qed.

(** A blog that fails the schema cannot be saved, whatever path without a
    validator has changed. *)
Lemma prepare_save_likes_invalid b l :
  Blog.validate_new b = false →
  Blog.prepare_save (Some b) (Blog.set_likes l b) = None.
Proof.
  intros Hv. unfold Blog.prepare_save.
  change (Blog.validate_new (Blog.set_likes l b)) with (Blog.validate_new b).
  by rewrite Hv.
Qed.


Lemma set_likes_id b : Blog.set_likes (Blog.likes b) b = b.
Proof. by destruct b. Qed.

Lemma comment_set_likes_id c : Comment.set_likes (Comment.likes c) c = c.
Proof. by destruct c. Qed.

(** ** What the like handlers do for a signed-in user on an existing document *)

Lemma like_blog_run db token uid u id b :
  load_user db token = Some (uid, u) →
  db_blogs db !! id = Some b →
  Blog.validate_new b = true →
  BlogRoutes.like_blog db token id =
    (json (LikeResult
             (if -1 <? JS.indexOf (Blog.likes b) uid then "Blog unliked" else "Blog liked")
             (Z.of_nat (List.length (toggle_like (Blog.likes b) uid)))
             (JS.indexOf (Blog.likes b) uid =? -1)),
     with_blogs (<[id := Blog.set_likes (toggle_like (Blog.likes b) uid) b]> (db_blogs db)) db).
Proof.
  intros Hu Hb Hv. unfold BlogRoutes.like_blog, auth. rewrite Hu, Hb.
  cbv zeta. by rewrite prepare_save_likes.
Qed.

Lemma like_blog_invalid db token uid u id b :
  load_user db token = Some (uid, u) →
  db_blogs db !! id = Some b →
  Blog.validate_new b = false →
  BlogRoutes.like_blog db token id = (server_error, db).
Proof.
  intros Hu Hb Hv. unfold BlogRoutes.like_blog, auth. rewrite Hu, Hb.
  cbv zeta. by rewrite prepare_save_likes_invalid.
Qed.

Lemma like_comment_run db token uid u id c :
  load_user db token = Some (uid, u) →
  db_comments db !! id = Some c →
  CommentRoutes.like_comment db token id =
    (json (LikeResult
             (if -1 <? JS.indexOf (Comment.likes c) uid then "Comment unliked" else "Comment liked")
             (Z.of_nat (List.length (toggle_like (Comment.likes c) uid)))
             (JS.indexOf (Comment.likes c) uid =? -1)),
     with_comments (<[id := Comment.set_likes (toggle_like (Comment.likes c) uid) c]> (db_comments db)) db).
Proof.
  intros Hu Hc. unfold CommentRoutes.like_comment, auth. by rewrite Hu, Hc.
Qed.

Lemma load_user_with_blogs db m token :
  load_user (with_blogs m db) token = load_user db token.
Proof. done. Qed.

Lemma load_user_with_comments db m token :
  load_user (with_comments m db) token = load_user db token.
Proof. done. Qed.

Lemma with_blogs_id db : with_blogs (db_blogs db) db = db.
Proof. by destruct db. Qed.

Lemma with_comments_id db : with_comments (db_comments db) db = db.
Proof. by destruct db. Qed.

(** ** C5: the like toggles keep the [likes] arrays free of duplicates *)

(** C5.  In a database where no [likes] array of a blog or of a comment
    holds an id twice, the same is true after POST /api/blogs/:id/like and
    after POST /api/comments/:id/like, whoever calls them and on whatever
    id: the toggle pushes an id only when [indexOf] has not found it and
    removes the found occurrence otherwise. *)
Theorem like_toggle_keeps_likes_unique db token id :
  likes_unique db →
  likes_unique (BlogRoutes.like_blog db token id).2
  ∧ likes_unique (CommentRoutes.like_comment db token id).2.
Proof.
  intros [Hb Hc]. split.
  - destruct (load_user db token) as [[uid u]|] eqn:Hu.
    + destruct (db_blogs db !! id) as [b|] eqn:Hl.
      * destruct (Blog.validate_new b) eqn:Hv;
          [|by rewrite (like_blog_invalid _ _ _ _ _ _ Hu Hl Hv)].
        rewrite (like_blog_run _ _ _ _ _ _ Hu Hl Hv). split; [|done].
        apply map_Forall_insert_2; [|done]. simpl.
        apply toggle_like_NoDup. by apply (Hb id b).
      * unfold BlogRoutes.like_blog, auth. rewrite Hu, Hl. by split.
    + unfold BlogRoutes.like_blog, auth. rewrite Hu. by split.
  - destruct (load_user db token) as [[uid u]|] eqn:Hu.
    + destruct (db_comments db !! id) as [c|] eqn:Hl.
      * rewrite (like_comment_run _ _ _ _ _ _ Hu Hl). split; [done|].
        apply map_Forall_insert_2; [|done]. simpl.
        apply toggle_like_NoDup. by apply (Hc id c).
      * unfold CommentRoutes.like_comment, auth. rewrite Hu, Hl. by split.
    + unfold CommentRoutes.like_comment, auth. rewrite Hu. by split.
Qed.

Lemma sample_likes_unique : likes_unique Sample.db.
Proof.
  split; apply (bool_decide_unpack _); vm_compute; exact I.
Defined.

Lemma like_toggle_keeps_likes_unique_witness :
  likes_unique (BlogRoutes.like_blog Sample.db (Some 3%N) 10%N).2
  ∧ likes_unique (CommentRoutes.like_comment Sample.db (Some 3%N) 20%N).2.
Proof.
  split.
  - apply (like_toggle_keeps_likes_unique Sample.db (Some 3%N) 10%N).
    exact sample_likes_unique.
  - apply (like_toggle_keeps_likes_unique Sample.db (Some 3%N) 20%N).
    exact sample_likes_unique.
Defined.

(** ** C1: two like toggles in a row *)

(** C1, as stated, fails: ann has liked the draft, whose [likes] array is
    [1; 2]; after her two toggles the array is [2; 1]. *)
Lemma like_toggle_twice_reorders :
  Blog.likes <$> db_blogs Sample.db !! 10%N = Some [1; 2]%N
  ∧ Blog.likes <$>
      db_blogs (BlogRoutes.like_blog
                  (BlogRoutes.like_blog Sample.db (Some 1%N) 10%N).2 (Some 1%N) 10%N).2
        !! 10%N = Some [2; 1]%N
  ∧ db_blogs (BlogRoutes.like_blog
                (BlogRoutes.like_blog Sample.db (Some 1%N) 10%N).2 (Some 1%N) 10%N).2
      !! 10%N ≠ db_blogs Sample.db !! 10%N.
Proof.
  split_and!; [by vm_compute | by vm_compute |].
  intros H. apply (f_equal (fmap Blog.likes)) in H. vm_compute in H. discriminate.
Qed.

Lemma likes_set_likes l b : Blog.likes (Blog.set_likes l b) = l.
Proof. done. Qed.

Lemma comment_likes_set_likes l c : Comment.likes (Comment.set_likes l c) = l.
Proof. done. Qed.

Lemma blog_set_likes_twice l l' b :
  Blog.set_likes l' (Blog.set_likes l b) = Blog.set_likes l' b.
Proof. done. Qed.

Lemma comment_set_likes_twice l l' c :
  Comment.set_likes l' (Comment.set_likes l c) = Comment.set_likes l' c.
Proof. done. Qed.

(** C1, amended.  For a signed-in user and an existing blog whose [likes]
    array holds no id twice, two calls of POST /api/blogs/:id/like in a row
    leave a [likes] array with the same members as the original one, hence
    the same [likeCount]; when the user had not liked the blog (like, then
    unlike) the array is the original one, order included; and when the blog
    passes the schema, so that it can be saved, the second response carries
    that [likeCount].  The same holds for POST /api/comments/:id/like. *)
Theorem like_toggle_twice db token uid u id :
  load_user db token = Some (uid, u) →
  (∀ b, db_blogs db !! id = Some b → NoDup (Blog.likes b) →
     let out1 := BlogRoutes.like_blog db token id in
     let out2 := BlogRoutes.like_blog out1.2 token id in
     ∃ b', db_blogs out2.2 !! id = Some b'
           ∧ Blog.likes b' ≡ₚ Blog.likes b
           ∧ Blog.likeCount b' = Blog.likeCount b
           ∧ (uid ∉ Blog.likes b → Blog.likes b' = Blog.likes b)
           ∧ (Blog.validate_new b = true →
              ∃ m il, out2.1 = json (LikeResult m (Blog.likeCount b) il)))
  ∧ (∀ c, db_comments db !! id = Some c → NoDup (Comment.likes c) →
     let out1 := CommentRoutes.like_comment db token id in
     let out2 := CommentRoutes.like_comment out1.2 token id in
     ∃ c', db_comments out2.2 !! id = Some c'
           ∧ Comment.likes c' ≡ₚ Comment.likes c
           ∧ List.length (Comment.likes c') = List.length (Comment.likes c)
           ∧ (uid ∉ Comment.likes c → Comment.likes c' = Comment.likes c)
           ∧ (∃ m il, out2.1 = json (LikeResult m (Z.of_nat (List.length (Comment.likes c))) il))).
Proof.
  intros Hu. split.
  - intros b Hb Hnd out1 out2. subst out1 out2.
    destruct (Blog.validate_new b) eqn:Hv.
    + rewrite (like_blog_run _ _ _ _ _ _ Hu Hb Hv). cbn [snd].
      erewrite like_blog_run; [|exact Hu|apply lookup_insert_eq|exact Hv].
      cbn [fst snd db_blogs with_blogs Blog.likes Blog.set_likes].
      pose proof (toggle_like_twice_Permutation (Blog.likes b) uid Hnd) as HP.
      pose proof (Permutation_length HP) as HL.
      eexists. split; [apply lookup_insert_eq|].
      rewrite !likes_set_likes. unfold Blog.likeCount. rewrite !likes_set_likes.
      split; [exact HP|]. split; [by rewrite HL|].
      split; [apply toggle_like_twice_absent|].
      intros _. do 2 eexists. by rewrite HL.
    + rewrite (like_blog_invalid _ _ _ _ _ _ Hu Hb Hv). cbn [snd].
      rewrite (like_blog_invalid _ _ _ _ _ _ Hu Hb Hv). cbn [snd].
      exists b. split_and!; done.
  - intros c Hc Hnd out1 out2. subst out1 out2.
    rewrite (like_comment_run _ _ _ _ _ _ Hu Hc). cbn [snd].
    erewrite like_comment_run; [|exact Hu|apply lookup_insert_eq].
    cbn [fst snd db_comments with_comments Comment.likes Comment.set_likes].
    pose proof (toggle_like_twice_Permutation (Comment.likes c) uid Hnd) as HP.
    pose proof (Permutation_length HP) as HL.
    eexists. split; [apply lookup_insert_eq|].
    rewrite !comment_likes_set_likes.
    split; [exact HP|]. split; [exact HL|].
    split; [apply toggle_like_twice_absent|].
    do 2 eexists. by rewrite HL.
Qed.

Lemma like_toggle_twice_witness :
  (∃ b', db_blogs (BlogRoutes.like_blog
                     (BlogRoutes.like_blog Sample.db (Some 1%N) 10%N).2 (Some 1%N) 10%N).2
           !! 10%N = Some b'
         ∧ Blog.likes b' ≡ₚ [1; 2]%N ∧ Blog.likeCount b' = 2)
  ∧ (∃ c', db_comments (CommentRoutes.like_comment
                          (CommentRoutes.like_comment Sample.db (Some 2%N) 20%N).2
                          (Some 2%N) 20%N).2 !! 20%N = Some c'
           ∧ Comment.likes c' = [1; 3]%N).
Proof.
  split.
  - assert (Hu : load_user Sample.db (Some 1%N) = Some (1%N, Sample.ann))
      by (vm_compute; reflexivity).
    assert (Hb : db_blogs Sample.db !! 10%N = Some Sample.draft)
      by (vm_compute; reflexivity).
    assert (Hnd : NoDup (Blog.likes Sample.draft))
      by (apply (bool_decide_unpack _); vm_compute; exact I).
    destruct (proj1 (like_toggle_twice Sample.db (Some 1%N) 1%N Sample.ann 10%N Hu)
                Sample.draft Hb Hnd)
      as (b' & E & HP & HL & _ & _).
    exists b'. split; [exact E|]. split; [exact HP | exact HL].
  - assert (Hu : load_user Sample.db (Some 2%N) = Some (2%N, Sample.bob))
      by (vm_compute; reflexivity).
    assert (Hc : db_comments Sample.db !! 20%N = Some Sample.c20)
      by (vm_compute; reflexivity).
    assert (Hnd : NoDup (Comment.likes Sample.c20))
      by (apply (bool_decide_unpack _); vm_compute; exact I).
    destruct (proj2 (like_toggle_twice Sample.db (Some 2%N) 2%N Sample.bob 20%N Hu)
                Sample.c20 Hc Hnd)
      as (c' & E & _ & _ & H & _).
    exists c'. split; [exact E|]. apply H.
    apply (bool_decide_unpack _). vm_compute. exact I.
Defined.

(** ** C10: DELETE /api/blogs/:id/like *)

(** C10.  For a signed-in user and an existing blog: when the user's id
    is not in the [likes] array the handler answers 400 with the message
    'Blog is not liked' and changes nothing; when it is there and the blog
    passes the schema, so that it can be saved, the handler answers 200 with
    the new [likeCount] and [isLiked = false], and the stored [likes] are the
    former ones without the first occurrence of the id, every other entry in
    its place. *)
Theorem unlike_blog_spec db token uid u id b :
  load_user db token = Some (uid, u) →
  db_blogs db !! id = Some b →
  (uid ∉ Blog.likes b →
     BlogRoutes.unlike_blog db token id
     = (status_json 400 (Message "Blog is not liked"), db))
  ∧ (uid ∈ Blog.likes b → Blog.validate_new b = true →
     ∃ l1 l2 b', Blog.likes b = l1 ++ uid :: l2 ∧ (uid ∉ l1)
       ∧ (BlogRoutes.unlike_blog db token id).1
         = status_json 200
             (LikeResult "Blog unliked" (Z.of_nat (List.length (l1 ++ l2))) false)
       ∧ db_blogs (BlogRoutes.unlike_blog db token id).2 !! id = Some b'
       ∧ Blog.likes b' = l1 ++ l2).
Proof.
  intros Hu Hb. unfold BlogRoutes.unlike_blog, auth. rewrite Hu, Hb. cbv zeta. split.
  - intros Hni. apply indexOf_absent in Hni as ->. done.
  - intros Hin Hv. destruct (indexOf_found _ _ Hin) as (l1 & l2 & E & Hl1 & Hi).
    exists l1, l2, (Blog.set_likes (l1 ++ l2) b). split; [done|]. split; [done|].
    rewrite Hi. destruct (Z.eqb_spec (Z.of_nat (List.length l1)) (-1)); [lia|].
    rewrite E, splice1_middle, (prepare_save_likes _ _ Hv).
    cbn [fst snd db_blogs with_blogs]. split; [done|].
    split; [apply lookup_insert_eq | done].
Qed.

Lemma unlike_blog_spec_witness :
  BlogRoutes.unlike_blog Sample.db (Some 3%N) 10%N
  = (status_json 400 (Message "Blog is not liked"), Sample.db)
  ∧ ∃ l1 l2 b', Blog.likes Sample.draft = l1 ++ 2%N :: l2 ∧ (2%N ∉ l1)
      ∧ (BlogRoutes.unlike_blog Sample.db (Some 2%N) 10%N).1
        = status_json 200
            (LikeResult "Blog unliked" (Z.of_nat (List.length (l1 ++ l2))) false)
      ∧ db_blogs (BlogRoutes.unlike_blog Sample.db (Some 2%N) 10%N).2 !! 10%N = Some b'
      ∧ Blog.likes b' = l1 ++ l2.
Proof.
  split.
  - apply (unlike_blog_spec Sample.db (Some 3%N) 3%N Sample.cat 10%N Sample.draft);
      [vm_compute; reflexivity | vm_compute; reflexivity |].
    apply (bool_decide_unpack _). vm_compute. exact I.
  - apply (unlike_blog_spec Sample.db (Some 2%N) 2%N Sample.bob 10%N Sample.draft);
      [vm_compute; reflexivity | vm_compute; reflexivity | | vm_compute; reflexivity].
    apply (bool_decide_unpack _). vm_compute. exact I.
Defined.

(** A stored blog that fails the schema cannot be saved: the handler
    answers 500 and the [likes] stay as they are. *)
Lemma unlike_blog_invalid db token uid u id b :
  load_user db token = Some (uid, u) →
  db_blogs db !! id = Some b →
  uid ∈ Blog.likes b →
  Blog.validate_new b = false →
  BlogRoutes.unlike_blog db token id = (server_error, db).
Proof.
  intros Hu Hb Hin Hv. unfold BlogRoutes.unlike_blog, auth. rewrite Hu, Hb. cbv zeta.
  destruct (indexOf_found _ _ Hin) as (l1 & l2 & E & Hl1 & Hi).
  rewrite Hi. destruct (Z.eqb_spec (Z.of_nat (List.length l1)) (-1)); [lia|].
  by rewrite (prepare_save_likes_invalid _ _ Hv).
Qed.

(** ** Queries *)

Section queries.
Context {A : Type}.
Implicit Types (m : gmap N A) (p : A → bool) (l : list (ObjectId * A)).

Lemma find_elem p m k v :
  (k, v) ∈ Query.find p m ↔ m !! k = Some v ∧ p v = true.
Proof.
  unfold Query.find. rewrite list_elem_of_In, filter_In, <-list_elem_of_In.
  rewrite elem_of_map_to_list. done.
Qed.

Lemma sort_desc_elem (key : A → Z) l x : x ∈ Query.sort_desc key l ↔ x ∈ l.
Proof. unfold Query.sort_desc. by rewrite merge_sort_Permutation. Qed.

Lemma sort_asc_elem (key : A → Z) l x : x ∈ Query.sort_asc key l ↔ x ∈ l.
Proof. unfold Query.sort_asc. by rewrite merge_sort_Permutation. Qed.

Lemma skip_limit_elem {B} skip limit (xs ys : list B) x :
  Query.skip_limit skip limit xs = Some ys → x ∈ ys → x ∈ xs.
Proof.
  unfold Query.skip_limit. destruct (skip <? 0); [done|].
  intros [= <-] H. by apply subseteq_take, subseteq_drop in H.
Qed.

Lemma skip_limit_nonneg {B} skip limit (xs : list B) :
  0 ≤ skip → is_Some (Query.skip_limit skip limit xs).
Proof.
  intros H. unfold Query.skip_limit.
  destruct (Z.ltb_spec skip 0); [lia | eauto].
Qed.

End queries.

Lemma apply_sort_elem sort l x : x ∈ BlogRoutes.apply_sort sort l ↔ x ∈ l.
Proof.
  unfold BlogRoutes.apply_sort.
  repeat case_match; auto using sort_desc_elem, sort_asc_elem.
Qed.

(** ** C2: who sees a blog *)

(** C2, as stated, fails: bob is an admin and not the author of the draft,
    and GET /api/blogs/:id gives him the draft. *)
Lemma admin_reads_draft :
  db_blogs Sample.db !! 10%N = Some Sample.draft
  ∧ Blog.status Sample.draft = "draft"
  ∧ Blog.author Sample.draft ≠ 2%N
  ∧ ∃ shown, (BlogRoutes.get_blog Sample.db (Some 2%N) 10%N).1
             = json (BlogResult None (Some (10%N, shown)))
             ∧ Blog.status shown = "draft".
Proof.
  split_and!; [by vm_compute | done | done |].
  exists (Blog.set_views 1 Sample.draft). split; by vm_compute.
Qed.

Lemma shows_blog_set_views id b :
  shows_blog id b (json (BlogResult None (Some (id, Blog.set_views (Blog.views b + 1) b)))).
Proof.
  split; [done|]. eexists. split; [done|].
  unfold same_article. split_and!; done.
Qed.

(** What GET /api/blogs/:id decides for a stored blog whose author's
    document exists: to show it, which takes a save, or to answer 404. *)
Lemma get_blog_stored db token id blog :
  db_blogs db !! id = Some blog →
  is_Some (db_users db !! Blog.author blog) →
  BlogRoutes.get_blog db token id =
    if publicly_visible blog
       || match load_user db token with
          | Some (uid, u) =>
              bool_decide (uid = Blog.author blog) || String.eqb (User.role u) "admin"
          | None => false
          end
    then match Blog.prepare_save (Some blog) (Blog.set_views (Blog.views blog + 1) blog) with
         | Some saved =>
             (json (BlogResult None (Some (id, saved))),
              with_blogs (<[id := saved]> (db_blogs db)) db)
         | None => (server_error, db)
         end
    else (status_json 404 (Message "Blog not found"), db).
Proof.
  intros Hb [a Ha].
  unfold BlogRoutes.get_blog, optionalAuth, publicly_visible. rewrite Hb, Ha.
  cbv zeta.
  destruct (String.eqb (Blog.status blog) "published"), (Blog.isPublic blog);
    simpl; try done;
    (destruct (load_user db token) as [[uid u]|]; [|done];
     destruct (decide (uid = Blog.author blog)) as [E|E];
     [by rewrite bool_decide_eq_false_2, (bool_decide_eq_true_2 _ E) by (by intros ?)
     |rewrite (bool_decide_eq_true_2 _ E), (bool_decide_eq_false_2 _ E);
      by destruct (String.eqb (User.role u) "admin")]).
Qed.

(** C2, amended.  For a stored blog whose author's user document exists: a
    requester who is not signed in, or is neither the blog's author nor an
    admin, is answered 404 by GET /api/blogs/:id, the database untouched,
    unless the status of the blog is 'published' and [isPublic] is true, and
    is then given the blog, with one view more; the author and an admin are
    given the blog whatever its status and [isPublic].  The blog is given
    when it passes the schema, so that the counted view can be saved.  Every
    blog that GET /api/blogs returns is a stored blog with status
    'published' and [isPublic] true. *)
Theorem blog_visibility text_match db :
  (∀ token id blog,
     db_blogs db !! id = Some blog →
     is_Some (db_users db !! Blog.author blog) →
     ((∀ uid u, load_user db token = Some (uid, u) →
                uid ≠ Blog.author blog ∧ User.role u ≠ "admin") →
      if publicly_visible blog
      then Blog.validate_new blog = true →
           shows_blog id blog (BlogRoutes.get_blog db token id).1
      else BlogRoutes.get_blog db token id
           = (status_json 404 (Message "Blog not found"), db))
     ∧ (∀ uid u, load_user db token = Some (uid, u) →
                 may_modify uid u (Blog.author blog) →
                 Blog.validate_new blog = true →
                 shows_blog id blog (BlogRoutes.get_blog db token id).1))
  ∧ (∀ q blogs p,
       (BlogRoutes.get_blogs text_match db q).1 = json (BlogList blogs p) →
       ∀ id blog, (id, blog) ∈ blogs →
         db_blogs db !! id = Some blog ∧ publicly_visible blog = true).
Proof.
  split.
  - intros token id blog Hb Ha.
    rewrite (get_blog_stored _ _ _ _ Hb Ha). split.
    + intros Hreq. destruct (publicly_visible blog).
      { intros Hv. rewrite (prepare_save_views _ _ Hv). apply shows_blog_set_views. }
      destruct (load_user db token) as [[uid u]|]; [|done].
      destruct (Hreq uid u eq_refl) as [Hne Hrole].
      rewrite (bool_decide_eq_false_2 _ Hne).
      by destruct (String.eqb_spec (User.role u) "admin").
    + intros uid u -> Hmay Hv.
      assert (bool_decide (uid = Blog.author blog) || String.eqb (User.role u) "admin" = true)
        as ->.
      { destruct Hmay as [-> | ->]; [by rewrite bool_decide_eq_true_2 | apply orb_true_r]. }
      rewrite orb_true_r, (prepare_save_views _ _ Hv). apply shows_blog_set_views.
  - intros q blogs p Hres id blog Hin.
    unfold BlogRoutes.get_blogs in Hres. cbv zeta in Hres.
    destruct (Query.skip_limit _ _ _) as [found|] eqn:Hs; [|done].
    simpl in Hres. injection Hres as <- _.
    apply (skip_limit_elem _ _ _ _ _ Hs), apply_sort_elem, find_elem in Hin as [Hl Hf].
    split; [done|]. unfold BlogRoutes.list_filter in Hf. unfold publicly_visible.
    do 4 (apply andb_prop in Hf as [Hf _]). done.
Qed.

Lemma blog_visibility_witness :
  BlogRoutes.get_blog Sample.db (Some 3%N) 10%N
  = (status_json 404 (Message "Blog not found"), Sample.db)
  ∧ shows_blog 11%N Sample.post (BlogRoutes.get_blog Sample.db None 11%N).1
  ∧ shows_blog 10%N Sample.draft (BlogRoutes.get_blog Sample.db (Some 1%N) 10%N).1
  ∧ (db_blogs Sample.db !! 12%N = Some Sample.travel
     ∧ publicly_visible Sample.travel = true).
Proof.
  pose proof (blog_visibility (λ _ _, true) Sample.db) as [Hdetail Hlist].
  split; [|split; [|split]].
  - apply (Hdetail (Some 3%N) 10%N Sample.draft);
      [by vm_compute | by vm_compute; eauto |].
    intros uid u Hu. vm_compute in Hu. injection Hu as <- <-. done.
  - apply (Hdetail None 11%N Sample.post);
      [by vm_compute | by vm_compute; eauto | | by vm_compute].
    intros uid u Hu. vm_compute in Hu. discriminate.
  - apply (Hdetail (Some 1%N) 10%N Sample.draft) with (uid := 1%N) (u := Sample.ann);
      [by vm_compute | by vm_compute; eauto | by vm_compute | by left | by vm_compute].
  - eapply (Hlist (BlogRoutes.mkListQuery None None None None None None None)).
    + vm_compute. reflexivity.
    + constructor.
Defined.

(** ** C3: who may update or delete *)

Lemma denied_true uid u a :
  bool_decide (a ≠ uid) && negb (String.eqb (User.role u) "admin") = true →
  ¬ may_modify uid u a.
Proof.
  intros [H1 H2]%andb_prop [->|Hr].
  - by apply bool_decide_eq_true in H1.
  - rewrite Hr in H2. done.
Qed.

Lemma denied_false uid u a :
  bool_decide (a ≠ uid) && negb (String.eqb (User.role u) "admin") = false →
  may_modify uid u a.
Proof.
  intros [H|H]%andb_false_iff.
  - left. apply bool_decide_eq_false in H. by destruct (decide (a = uid)).
  - right. destruct (String.eqb_spec (User.role u) "admin"); done.
Qed.

Lemma guarded_denied (allowed : Prop) db m :
  ¬ allowed → guarded allowed db (status_json 403 (Message m), db).
Proof. intros H. split_and!; done. Qed.

Lemma guarded_allowed (allowed : Prop) db out :
  allowed → res_status out.1 ≠ 403 → guarded allowed db out.
Proof. intros H ?. split_and!; done. Qed.

(** C3, as stated, fails: bob is an admin, and PUT /api/comments/:id on
    cat's comment answers him 403. *)
Lemma admin_cannot_edit_comment :
  User.role Sample.bob = "admin"
  ∧ db_comments Sample.db !! 20%N = Some Sample.c20
  ∧ CommentRoutes.put_comment Sample.db (Some 2%N) 400 20%N (Some "edited")
    = (status_json 403 (Message "Not authorized to update this comment"), Sample.db).
Proof. split_and!; [done | by vm_compute | by vm_compute]. Qed.

(** C3, amended.  For a signed-in requester, an existing resource and a
    body that passes the route's validators: PUT /api/blogs/:id,
    DELETE /api/blogs/:id and DELETE /api/comments/:id answer 403 and leave
    the database unchanged when the requester is neither the author nor an
    admin, do not answer 403 when the requester is the author or an admin,
    and answer 200 only to the author or an admin.  PUT /api/comments/:id
    does the same with the author alone: an admin who is not the author is
    answered 403. *)
Theorem update_delete_authorization db token uid u :
  load_user db token = Some (uid, u) →
  (∀ id blog body,
     db_blogs db !! id = Some blog → BlogRoutes.validate_put body = [] →
     guarded (may_modify uid u (Blog.author blog)) db
             (BlogRoutes.put_blog db token id body))
  ∧ (∀ id blog,
       db_blogs db !! id = Some blog →
       guarded (may_modify uid u (Blog.author blog)) db
               (BlogRoutes.delete_blog db token id))
  ∧ (∀ id comment,
       db_comments db !! id = Some comment →
       guarded (may_modify uid u (Comment.author comment)) db
               (CommentRoutes.delete_comment db token id))
  ∧ (∀ now id comment content,
       db_comments db !! id = Some comment →
       CommentRoutes.validate_content content = [] →
       guarded (uid = Comment.author comment) db
               (CommentRoutes.put_comment db token now id content)).
Proof.
  intros Hu. split_and!.
  - intros id blog body Hb Hv.
    unfold BlogRoutes.put_blog, auth. rewrite Hu, Hv, Hb.
    destruct (bool_decide _ && _) eqn:E.
    + by apply guarded_denied, denied_true.
    + apply guarded_allowed; [by apply denied_false|].
      destruct (Blog.prepare_save _ _); done.
  - intros id blog Hb.
    unfold BlogRoutes.delete_blog, auth. rewrite Hu, Hb.
    destruct (bool_decide _ && _) eqn:E.
    + by apply guarded_denied, denied_true.
    + apply guarded_allowed; [by apply denied_false | done].
  - intros id comment Hc.
    unfold CommentRoutes.delete_comment, auth. rewrite Hu, Hc.
    destruct (bool_decide _ && _) eqn:E.
    + by apply guarded_denied, denied_true.
    + apply guarded_allowed; [by apply denied_false | done].
  - intros now id comment content Hc Hv.
    unfold CommentRoutes.put_comment, auth. rewrite Hu, Hv, Hc.
    case_bool_decide as E.
    + apply guarded_denied. congruence.
    + apply guarded_allowed; [|done].
      by destruct (decide (Comment.author comment = uid)).
Qed.

Lemma update_delete_authorization_witness :
  guarded (may_modify 3%N Sample.cat (Blog.author Sample.draft)) Sample.db
          (BlogRoutes.put_blog Sample.db (Some 3%N) 10%N
             (BlogRoutes.mkBlogBody (Some "Mine now") None None None None None None None None))
  ∧ guarded (may_modify 2%N Sample.bob (Blog.author Sample.draft)) Sample.db
            (BlogRoutes.delete_blog Sample.db (Some 2%N) 10%N)
  ∧ guarded (may_modify 1%N Sample.ann (Comment.author Sample.c20)) Sample.db
            (CommentRoutes.delete_comment Sample.db (Some 1%N) 20%N)
  ∧ guarded (3%N = Comment.author Sample.c20) Sample.db
            (CommentRoutes.put_comment Sample.db (Some 3%N) 400 20%N (Some "edited")).
Proof.
  split_and!.
  - apply (update_delete_authorization Sample.db (Some 3%N) 3%N Sample.cat);
      by vm_compute.
  - apply (update_delete_authorization Sample.db (Some 2%N) 2%N Sample.bob);
      by vm_compute.
  - apply (update_delete_authorization Sample.db (Some 1%N) 1%N Sample.ann);
      by vm_compute.
  - apply (update_delete_authorization Sample.db (Some 3%N) 3%N Sample.cat);
      by vm_compute.
Defined.

(** ** C4: the parent of a reply *)

(** C4, as stated, fails: comment 23 is on the blog 12, and ann's reply to
    it is accepted with [blogId] 11; the new comment is on blog 11 and its
    parent on blog 12. *)
Lemma reply_across_blogs :
  res_status (CommentRoutes.post_comment Sample.db (Some 1%N) 30%N 500
                (CommentRoutes.mkPostBody (Some "me too") (Some 11%N) (Some 23%N))).1 = 201
  ∧ Comment.blog <$> db_comments Sample.db !! 23%N = Some 12%N
  ∧ db_comments (CommentRoutes.post_comment Sample.db (Some 1%N) 30%N 500
                   (CommentRoutes.mkPostBody (Some "me too") (Some 11%N) (Some 23%N))).2
      !! 30%N
    = Some (Comment.mk "me too" 1%N 11%N (Some 23%N) [] [] false false None 500).
Proof. split_and!; by vm_compute. Qed.

(** POST /api/comments either refuses and changes nothing, or has found the
    blog and, for a reply, the parent, and stores the new comment. *)
Lemma post_comment_cases db token fresh now body :
  let out := CommentRoutes.post_comment db token fresh now body in
  (res_status out.1 ∈ [400; 401; 404] ∧ out.2 = db)
  ∨ (∃ uid u content blogId blog,
       load_user db token = Some (uid, u)
       ∧ CommentRoutes.pb_content body = Some content
       ∧ CommentRoutes.pb_blogId body = Some blogId
       ∧ db_blogs db !! blogId = Some blog
       ∧ (∀ p, CommentRoutes.pb_parentCommentId body = Some p →
               is_Some (db_comments db !! p))
       ∧ res_status out.1 = 201
       ∧ db_comments out.2
         = comments_after_post db fresh
             (Comment.mk content uid blogId (CommentRoutes.pb_parentCommentId body)
                         [] [] false false None now)).
Proof.
  unfold CommentRoutes.post_comment, auth. cbv zeta.
  destruct (load_user db token) as [[uid u]|] eqn:Hu;
    [|left; split; [set_solver | done]].
  destruct (_ ++ _) as [|e errors] eqn:He;
    [|left; split; [repeat case_match; set_solver | by repeat case_match]].
  destruct (CommentRoutes.pb_content body) as [content|] eqn:Hc;
    [|left; split; [set_solver | done]].
  destruct (CommentRoutes.pb_blogId body) as [blogId|] eqn:Hb;
    [|left; split; [set_solver | done]].
  destruct (db_blogs db !! blogId) as [blog|] eqn:Hblog;
    [|left; split; [set_solver | done]].
  destruct (CommentRoutes.pb_parentCommentId body) as [p|] eqn:Hp.
  - case_bool_decide as Hpar; [left; split; [set_solver | done]|].
    right. exists uid, u, content, blogId, blog. split_and!; try done.
    intros ? [= <-]. by apply not_eq_None_Some.
  - right. exists uid, u, content, blogId, blog. split_and!; done.
Qed.

Lemma comments_after_post_is_Some db fresh c q :
  is_Some (db_comments db !! q) →
  is_Some (comments_after_post db fresh c !! q).
Proof.
  intros Hq. unfold comments_after_post.
  assert (is_Some (<[fresh := c]> (db_comments db) !! q)) as Hi.
  { rewrite lookup_insert. case_decide; eauto. }
  destruct (Comment.parentComment c); [|done].
  rewrite lookup_alter. case_decide; [subst; by apply fmap_is_Some | done].
Qed.

Lemma comments_after_post_lookup db fresh c q c' :
  db_comments db !! fresh = None →
  parent_stored db c →
  comments_after_post db fresh c !! q = Some c' →
  Comment.parentComment c' = Comment.parentComment c ∧ q = fresh
  ∨ ∃ c0, db_comments db !! q = Some c0
          ∧ Comment.parentComment c' = Comment.parentComment c0.
Proof.
  intros Hfresh Hpar. unfold comments_after_post, parent_stored in *.
  destruct (Comment.parentComment c) as [p|] eqn:Hp.
  - rewrite lookup_alter. case_decide as E.
    + subst q. rewrite lookup_insert_ne by (intros ->; rewrite Hfresh in Hpar; by destruct Hpar).
      destruct (db_comments db !! p) as [c0|]; [|done].
      intros [= <-]. right. by exists c0.
    + rewrite lookup_insert. case_decide as E'.
      * intros [= <-]. by left.
      * intros H. right. by exists c'.
  - rewrite lookup_insert. case_decide as E'.
    + intros [= <-]. left. by rewrite Hp.
    + intros H. right. by exists c'.
Qed.

(** C4, amended.  POST /api/comments with a [parentCommentId] succeeds
    (status 201) only if that parent exists as a comment, on whatever blog;
    when no comment has that id the request is rejected (400, 401 or 404)
    without creating a comment.  Hence, [fresh] being an unused id, if every
    stored reply names a stored comment as its parent before the call, the
    same is true after it. *)
Theorem reply_parent_checked db token fresh now body :
  let out := CommentRoutes.post_comment db token fresh now body in
  (∀ p, CommentRoutes.pb_parentCommentId body = Some p →
        res_status out.1 = 201 → is_Some (db_comments db !! p))
  ∧ (∀ p, CommentRoutes.pb_parentCommentId body = Some p →
          db_comments db !! p = None →
          res_status out.1 ∈ [400; 401; 404] ∧ out.2 = db)
  ∧ (db_comments db !! fresh = None → parents_exist db → parents_exist out.2).
Proof.
  intros out.
  pose proof (post_comment_cases db token fresh now body) as H.
  cbv zeta in H. fold out in H.
  destruct H as [[Hs Hdb]|(uid & u & content & blogId & blog & Hu & Hc & Hb & Hblog & Hpar & Hs & Hcs)].
  - split_and!.
    + intros p _ E. rewrite E in Hs.
      do 3 (apply elem_of_cons in Hs as [Hs|Hs]; [done|]). by apply elem_of_nil in Hs.
    + done.
    + intros _ Hinv. by rewrite Hdb.
  - split_and!.
    + intros p Hp _. by apply Hpar.
    + intros p Hp Hnone. destruct (Hpar p Hp) as [? ?]. congruence.
    + intros Hfresh Hinv. unfold parents_exist. rewrite Hcs.
      apply map_Forall_lookup. intros q c' Hq.
      assert (Hnew : parent_stored db
                (Comment.mk content uid blogId
                   (CommentRoutes.pb_parentCommentId body) [] [] false false None now)).
      { unfold parent_stored. simpl.
        destruct (CommentRoutes.pb_parentCommentId body); [by apply Hpar | done]. }
      assert (Hold : parent_stored db c').
      { destruct (comments_after_post_lookup _ _ _ _ _ Hfresh Hnew Hq)
          as [[E _]|(c0 & Hc0 & E)]; unfold parent_stored; rewrite E.
        - exact Hnew.
        - exact (Hinv q c0 Hc0). }
      unfold parent_stored in *. destruct (Comment.parentComment c'); [|done].
      rewrite Hcs. by apply comments_after_post_is_Some.
Qed.

Lemma sample_parents_exist : parents_exist Sample.db.
Proof. apply (bool_decide_unpack _). vm_compute. exact I. Defined.

Lemma reply_parent_checked_witness :
  is_Some (db_comments Sample.db !! 20%N)
  ∧ (CommentRoutes.post_comment Sample.db (Some 1%N) 30%N 500
       (CommentRoutes.mkPostBody (Some "lost") (Some 11%N) (Some 99%N))).2 = Sample.db
  ∧ parents_exist
      (CommentRoutes.post_comment Sample.db (Some 1%N) 30%N 500
         (CommentRoutes.mkPostBody (Some "welcome") (Some 11%N) (Some 20%N))).2.
Proof.
  split; [|split].
  - apply (proj1 (reply_parent_checked Sample.db (Some 1%N) 30%N 500
                    (CommentRoutes.mkPostBody (Some "welcome") (Some 11%N) (Some 20%N)))
             20%N); by vm_compute.
  - apply (proj1 (proj2 (reply_parent_checked Sample.db (Some 1%N) 30%N 500
                    (CommentRoutes.mkPostBody (Some "lost") (Some 11%N) (Some 99%N))))
             99%N); by vm_compute.
  - apply (proj2 (proj2 (reply_parent_checked Sample.db (Some 1%N) 30%N 500
                    (CommentRoutes.mkPostBody (Some "welcome") (Some 11%N) (Some 20%N)))));
      [by vm_compute | exact sample_parents_exist].
Defined.

(** ** C7: soft-deleted comments and the listings *)

Lemma populate_replies_elem db c rid r :
  (rid, r) ∈ CommentRoutes.populate_replies db c →
  db_comments db !! rid = Some r ∧ Comment.isDeleted r = false.
Proof.
  unfold CommentRoutes.populate_replies. rewrite list_elem_of_omap.
  intros (rid' & _ & H).
  destruct (db_comments db !! rid') as [r'|] eqn:E; [|done].
  destruct (Comment.isDeleted r') eqn:D; [done|]. by simplify_eq.
Qed.

(** Whatever the listing of a blog's comments shows is stored and not
    soft-deleted. *)
Lemma blog_comments_listed db blogId qpage qlimit x :
  x ∈ listed_ids (CommentRoutes.get_blog_comments db blogId qpage qlimit).1 →
  ∃ c, db_comments db !! x = Some c ∧ Comment.isDeleted c = false.
Proof.
  unfold CommentRoutes.get_blog_comments. cbv zeta.
  destruct (Query.skip_limit _ _ _) as [found|] eqn:Hs; simpl;
    [|by intros ?%elem_of_nil].
  unfold listed_ids. simpl.
  rewrite list_elem_of_In, in_flat_map. intros (v & Hv & Hx).
  apply in_map_iff in Hv as ([k c] & <- & Hkc). simpl in Hx.
  apply list_elem_of_In in Hkc.
  apply (skip_limit_elem _ _ _ _ _ Hs), sort_desc_elem, find_elem in Hkc as [Hl Hf].
  destruct Hx as [<-|Hx].
  - exists c. split; [done|].
    unfold CommentRoutes.top_level_of in Hf.
    apply andb_prop in Hf as [_ Hf]. by destruct (Comment.isDeleted c).
  - apply in_map_iff in Hx as ([rid r] & <- & Hr). apply list_elem_of_In in Hr.
    exists r. by apply populate_replies_elem in Hr.
Qed.

Lemma user_comments_listed db userId qpage qlimit x :
  x ∈ listed_ids (CommentRoutes.get_user_comments db userId qpage qlimit).1 →
  ∃ c, db_comments db !! x = Some c ∧ Comment.isDeleted c = false.
Proof.
  unfold CommentRoutes.get_user_comments. cbv zeta.
  destruct (Query.skip_limit _ _ _) as [found|] eqn:Hs; simpl;
    [|by intros ?%elem_of_nil].
  unfold listed_ids. simpl.
  rewrite list_elem_of_In, in_map_iff. intros ([k c] & <- & Hkc).
  apply list_elem_of_In in Hkc.
  apply (skip_limit_elem _ _ _ _ _ Hs), sort_desc_elem, find_elem in Hkc as [Hl Hf].
  exists c. split; [done|].
  unfold CommentRoutes.by_author in Hf.
  apply andb_prop in Hf as [_ Hf]. by destruct (Comment.isDeleted c).
Qed.

(** C7.  A stored comment with [isDeleted = true] is in no listing:
    GET /api/comments/blog/:blogId shows it neither as a top-level comment
    nor as a reply, and GET /api/comments/user/:userId does not show it,
    whatever the blog, the user and the page asked for. *)
Theorem deleted_comments_not_listed db id c :
  db_comments db !! id = Some c →
  Comment.isDeleted c = true →
  (∀ blogId qpage qlimit,
     id ∉ listed_ids (CommentRoutes.get_blog_comments db blogId qpage qlimit).1)
  ∧ (∀ userId qpage qlimit,
       id ∉ listed_ids (CommentRoutes.get_user_comments db userId qpage qlimit).1).
Proof.
  intros Hc Hd. split.
  - intros blogId qpage qlimit (c' & Hc' & Hd')%blog_comments_listed. congruence.
  - intros userId qpage qlimit (c' & Hc' & Hd')%user_comments_listed. congruence.
Qed.

Lemma deleted_comments_not_listed_witness :
  ((22%N ∉ listed_ids (CommentRoutes.get_blog_comments Sample.db 11%N None None).1)
   ∧ (22%N ∉ listed_ids (CommentRoutes.get_user_comments Sample.db 3%N None None).1))
  ∧ (24%N ∉ listed_ids (CommentRoutes.get_blog_comments Sample.db 11%N None None).1)
  ∧ listed_ids (CommentRoutes.get_blog_comments Sample.db 11%N None None).1 = [20; 21]%N.
Proof.
  split; [split | split].
  - apply (deleted_comments_not_listed Sample.db 22%N Sample.c22); by vm_compute.
  - apply (deleted_comments_not_listed Sample.db 22%N Sample.c22); by vm_compute.
  - apply (deleted_comments_not_listed Sample.db 24%N Sample.c24); by vm_compute.
  - by vm_compute.
Defined.

(** DELETE /api/comments/:id, called by the author or an admin, keeps the
    comment in the store with [isDeleted = true]; from then on the listings
    leave it out. *)
Lemma soft_delete_hides_comment db token uid u id c :
  load_user db token = Some (uid, u) →
  db_comments db !! id = Some c →
  may_modify uid u (Comment.author c) →
  db_comments (CommentRoutes.delete_comment db token id).2 !! id
  = Some (Comment.softDelete c)
  ∧ (∀ blogId qpage qlimit,
       id ∉ listed_ids
              (CommentRoutes.get_blog_comments
                 (CommentRoutes.delete_comment db token id).2 blogId qpage qlimit).1)
  ∧ (∀ userId qpage qlimit,
       id ∉ listed_ids
              (CommentRoutes.get_user_comments
                 (CommentRoutes.delete_comment db token id).2 userId qpage qlimit).1).
Proof.
  intros Hu Hc Hallowed.
  assert (Hdb' : db_comments (CommentRoutes.delete_comment db token id).2 !! id
                 = Some (Comment.softDelete c)).
  { unfold CommentRoutes.delete_comment, auth. rewrite Hu, Hc.
    destruct (bool_decide _ && _) eqn:E; [by apply denied_true in E|].
    simpl. apply lookup_insert_eq. }
  split; [done|]. split.
  - intros blogId qpage qlimit (c' & Hc' & Hd')%blog_comments_listed.
    rewrite Hdb' in Hc'. by simplify_eq.
  - intros userId qpage qlimit (c' & Hc' & Hd')%user_comments_listed.
    rewrite Hdb' in Hc'. by simplify_eq.
Qed.

(** ** C8: follow and unfollow *)

Lemma not_in_filter_ne (l : list ObjectId) x :
  x ∉ List.filter (λ y, bool_decide (y ≠ x)) l.
Proof.
  rewrite list_elem_of_In, filter_In. intros [_ H].
  by apply bool_decide_eq_true in H.
Qed.

(** C8.  Let [u] be signed in and [v] be another stored user, their arrays
    agreeing on whether [u] follows [v].  POST /api/users/:id/follow by [u]
    on [v] saves both documents; if [u] did not follow [v] it appends [v]
    to [u.following] and [u] to [v.followers], and if [u] did it removes
    [v] from [u.following] and [u] from [v.followers].  Both memberships are
    toggled, the arrays agree again, and the response's [isFollowing] is the
    membership of [v] in [u.following] after the call. *)
Theorem follow_toggles_both_sides db token u ud v vd :
  load_user db token = Some (u, ud) →
  db_users db !! v = Some vd →
  u ≠ v →
  follow_consistent u v ud vd →
  let out := UserRoutes.follow db token v in
  ∃ ud' vd',
    db_users out.2 !! u = Some ud' ∧ db_users out.2 !! v = Some vd'
    ∧ (v ∉ User.following ud →
         User.following ud' = User.following ud ++ [v]
         ∧ User.followers vd' = User.followers vd ++ [u])
    ∧ (v ∈ User.following ud →
         User.following ud' = List.filter (λ x, bool_decide (x ≠ v)) (User.following ud)
         ∧ User.followers vd' = List.filter (λ x, bool_decide (x ≠ u)) (User.followers vd))
    ∧ (v ∈ User.following ud' ↔ v ∉ User.following ud)
    ∧ (u ∈ User.followers vd' ↔ u ∉ User.followers vd)
    ∧ follow_consistent u v ud' vd'
    ∧ ∃ m, out.1 = json (FollowResult m (bool_decide (v ∈ User.following ud'))).
Proof.
  intros Hu Hv Hne Hcons out. subst out.
  unfold UserRoutes.follow, auth. rewrite Hu, Hv.
  rewrite (bool_decide_eq_false_2 (v = u)) by congruence.
  cbv zeta. rewrite includes_elem_of. unfold follow_consistent in *.
  case_bool_decide as Hf.
  - assert (Hf' : u ∈ User.followers vd) by (by apply Hcons).
    eexists _, _. cbn [fst snd db_users with_users].
    split; [by rewrite lookup_insert_ne, lookup_insert_eq by congruence|].
    split; [by rewrite lookup_insert_eq|].
    pose proof (not_in_filter_ne (User.following ud) v).
    pose proof (not_in_filter_ne (User.followers vd) u).
    split_and!; simpl; try done; try tauto.
    eexists. by rewrite bool_decide_eq_false_2.
  - assert (Hf' : u ∉ User.followers vd) by (by rewrite <-Hcons).
    eexists _, _. cbn [fst snd db_users with_users].
    split; [by rewrite lookup_insert_ne, lookup_insert_eq by congruence|].
    split; [by rewrite lookup_insert_eq|].
    assert (v ∈ JS.push (User.following ud) v)
      by (apply elem_of_app; right; by apply list_elem_of_singleton).
    assert (u ∈ JS.push (User.followers vd) u)
      by (apply elem_of_app; right; by apply list_elem_of_singleton).
    split_and!; simpl; try done; try tauto.
    eexists. by rewrite bool_decide_eq_true_2.
Qed.

Lemma follow_toggles_both_sides_witness :
  (∃ m, (UserRoutes.follow Sample.db (Some 1%N) 3%N).1 = json (FollowResult m false))
  ∧ (∃ m, (UserRoutes.follow Sample.db (Some 3%N) 2%N).1 = json (FollowResult m true)).
Proof.
  split.
  - destruct (follow_toggles_both_sides Sample.db (Some 1%N) 1%N Sample.ann 3%N Sample.cat)
      as (ud' & vd' & _ & _ & _ & _ & Hf & _ & _ & m & Hm);
      [by vm_compute | by vm_compute | done
       | split; intros _; apply (bool_decide_unpack _); by vm_compute |].
    exists m. rewrite Hm. do 2 f_equal. apply bool_decide_eq_false_2.
    intros H. apply Hf in H. apply H. apply (bool_decide_unpack _). by vm_compute.
  - destruct (follow_toggles_both_sides Sample.db (Some 3%N) 3%N Sample.cat 2%N Sample.bob)
      as (ud' & vd' & _ & _ & _ & _ & Hf & _ & _ & m & Hm);
      [by vm_compute | by vm_compute | done
       | split; intros H; exfalso; revert H; apply (bool_decide_unpack _); by vm_compute |].
    exists m. rewrite Hm. do 2 f_equal. apply bool_decide_eq_true_2.
    apply Hf. apply (bool_decide_unpack _). by vm_compute.
Defined.

(** ** C9: the pagination object *)

Lemma ceil_div_bounds total limit :
  0 < limit →
  (JS.ceil_div total limit - 1) * limit < total ≤ JS.ceil_div total limit * limit.
Proof.
  intros Hl. unfold JS.ceil_div.
  pose proof (Z.div_mod (- total) limit ltac:(lia)) as Hdm.
  pose proof (Z.mod_pos_bound (- total) limit Hl) as Hm.
  nia.
Qed.

Lemma pagination_props page limit total :
  0 < page → 0 < limit →
  let p := pagination page limit total in
  currentPage p = page
  ∧ totalItems p = total
  ∧ (totalPages p - 1) * limit < total ≤ totalPages p * limit
  ∧ hasNext p = bool_decide (page * limit < total)
  ∧ hasPrev p = bool_decide (1 < page)
  ∧ (hasNext p = true ↔ currentPage p < totalPages p).
Proof.
  intros Hp Hl p. subst p. unfold pagination.
  cbn [currentPage totalPages totalItems hasNext hasPrev].
  pose proof (ceil_div_bounds total limit Hl) as Hb.
  split; [done|]. split; [done|]. split; [done|]. split; [|split].
  - symmetry. destruct (Z.ltb_spec (page * limit) total);
      [apply bool_decide_eq_true_2 | apply bool_decide_eq_false_2]; lia.
  - symmetry. destruct (Z.ltb_spec 1 page);
      [apply bool_decide_eq_true_2 | apply bool_decide_eq_false_2]; lia.
  - rewrite Z.ltb_lt. split; intros H; nia.
Qed.

Lemma parse_or_positive n d : 0 < n → Query.parse_or (Some n) d = n.
Proof.
  intros H. unfold Query.parse_or. destruct (Z.eqb_spec n 0); [lia | done].
Qed.

Lemma skip_limit_page {B} page limit (xs : list B) :
  0 < page → 0 < limit →
  is_Some (Query.skip_limit ((page - 1) * limit) limit xs).
Proof. intros. apply skip_limit_nonneg. nia. Qed.

(** The handlers that count the matching documents with [countDocuments]
    build the pagination object that C9 describes.  For positive [page] and
    [limit], the list handlers of the blog and comment routes and
    GET /api/users answer 200 with a pagination object in which
    [currentPage] is [page], the total is the number of matching documents,
    [totalPages] is the ceiling of total / limit (the integer [k] with
    [(k - 1) * limit < total <= k * limit]), [hasNext] is
    [page * limit < total] and [hasPrev] is [1 < page]; [hasNext] is true
    exactly when [currentPage < totalPages]. *)
Lemma list_pagination text_match user_match db page limit :
  0 < page → 0 < limit →
  (∀ blogId,
     pagination_ok page limit
       (Query.countDocuments (CommentRoutes.top_level_of blogId) (db_comments db))
       (CommentRoutes.get_blog_comments db blogId (Some page) (Some limit)).1)
  ∧ (∀ userId,
       pagination_ok page limit
         (Query.countDocuments (CommentRoutes.by_author userId) (db_comments db))
         (CommentRoutes.get_user_comments db userId (Some page) (Some limit)).1)
  ∧ (∀ q,
       BlogRoutes.q_page q = Some page → BlogRoutes.q_limit q = Some limit →
       pagination_ok page limit
         (Query.countDocuments (BlogRoutes.list_filter text_match q) (db_blogs db))
         (BlogRoutes.get_blogs text_match db q).1)
  ∧ (∀ token userId,
       pagination_ok page limit
         (Query.countDocuments
            (BlogRoutes.user_filter (optionalAuth db token) userId) (db_blogs db))
         (BlogRoutes.get_user_blogs db token userId (Some page) (Some limit)).1)
  ∧ (∀ sort,
       pagination_ok page limit (Z.of_nat (size (db_users db)))
         (UserRoutes.get_users user_match db (Some page) (Some limit) None sort).1).
Proof.
  intros Hp Hl. split_and!.
  - intros blogId. unfold CommentRoutes.get_blog_comments. cbv zeta.
    rewrite !parse_or_positive by done.
    destruct (skip_limit_page page limit
                (Query.sort_desc Comment.createdAt
                   (Query.find (CommentRoutes.top_level_of blogId) (db_comments db)))
                Hp Hl) as [found ->].
    eexists. split; [done|]. split; [done|]. by apply pagination_props.
  - intros userId. unfold CommentRoutes.get_user_comments. cbv zeta.
    rewrite !parse_or_positive by done.
    destruct (skip_limit_page page limit
                (Query.sort_desc Comment.createdAt
                   (Query.find (CommentRoutes.by_author userId) (db_comments db)))
                Hp Hl) as [found ->].
    eexists. split; [done|]. split; [done|]. by apply pagination_props.
  - intros q Hqp Hql. unfold BlogRoutes.get_blogs. cbv zeta. rewrite Hqp, Hql.
    rewrite !parse_or_positive by done.
    destruct (skip_limit_page page limit
                (BlogRoutes.apply_sort (BlogRoutes.q_sort q)
                   (Query.find (BlogRoutes.list_filter text_match q) (db_blogs db)))
                Hp Hl) as [found ->].
    eexists. split; [done|]. split; [done|]. by apply pagination_props.
  - intros token userId. unfold BlogRoutes.get_user_blogs. cbv zeta.
    rewrite !parse_or_positive by done.
    destruct (skip_limit_page page limit
                (Query.sort_desc Blog.createdAt
                   (Query.find (BlogRoutes.user_filter (optionalAuth db token) userId)
                      (db_blogs db)))
                Hp Hl) as [found ->].
    eexists. split; [done|]. split; [done|]. by apply pagination_props.
  - intros sort. unfold UserRoutes.get_users. cbv zeta.
    rewrite !parse_or_positive by done.
    destruct (skip_limit_page page limit
                (UserRoutes.apply_sort sort (Query.find (λ _, true) (db_users db)))
                Hp Hl) as [found ->].
    eexists. split; [done|]. split; [done|].
    assert (Query.countDocuments (λ _ : User.doc, true) (db_users db)
            = Z.of_nat (size (db_users db))) as <-.
    { unfold Query.countDocuments, Query.find.
      rewrite forallb_filter_id by (by apply forallb_forall).
      by rewrite length_map_to_list. }
    by apply pagination_props.
Qed.

Lemma list_pagination_example :
  pagination_ok 2 1
    (Query.countDocuments (BlogRoutes.user_filter (optionalAuth Sample.db (Some 1%N)) 1%N)
       (db_blogs Sample.db))
    (BlogRoutes.get_user_blogs Sample.db (Some 1%N) 1%N (Some 2) (Some 1)).1
  ∧ pagination_ok 1 20
      (Query.countDocuments (CommentRoutes.top_level_of 11%N) (db_comments Sample.db))
      (CommentRoutes.get_blog_comments Sample.db 11%N (Some 1) (Some 20)).1.
Proof.
  split.
  - apply (list_pagination (λ _ _, true) (λ _ _, true) Sample.db 2 1); lia.
  - apply (list_pagination (λ _ _, true) (λ _ _, true) Sample.db 1 20); lia.
Defined.

(** C9 at GET /api/users/:id/followers.  dan has three followers; the
    request for page 1 with limit 2 is answered with the two followers of the
    page and a pagination object whose total is 2, whose [totalPages] is 1
    and whose [hasNext] is false, where three matching documents give
    [totalPages = 2] and [hasNext = true]: the handler takes the total from
    the array that the populate has already cut to the page.
    GET /api/users/:id/following is written the same way. *)
Theorem followers_pagination_counts_page :
  List.length (User.followers Sample.dan) = 3%nat
  ∧ (UserRoutes.get_followers Sample.db 4%N (Some 1) (Some 2)).1
    = json (UserList [(3%N, Sample.cat); (2%N, Sample.bob)]
                     (mkPagination 1 1 2 false false))
  ∧ pagination 1 2 3 = mkPagination 1 2 3 true false
  ∧ ¬ pagination_ok 1 2 3 (UserRoutes.get_followers Sample.db 4%N (Some 1) (Some 2)).1
  ∧ (UserRoutes.get_following Sample.db 1%N (Some 1) (Some 1)).1
    = json (UserList [(4%N, Sample.dan)] (mkPagination 1 1 1 false false)).
Proof.
  split_and!; try by vm_compute.
  intros (p & _ & Hp & _ & Ht & _). vm_compute in Hp.
  injection Hp as <-. discriminate Ht.
Qed.

(** ** C6: the [pre('save')] hook *)

Lemma split_ws_from_length cur s :
  List.length (JS.split_ws_from cur true s)
  = (Spec.token_count_from false s
     + (if String.eqb s "" then 1 else if Spec.ends_with_space s then 1 else 0))%nat
  ∧ List.length (JS.split_ws_from cur false s)
    = (1 + Spec.token_count_from true s
       + (if Spec.ends_with_space s then 1 else 0))%nat.
Proof.
  revert cur. induction s as [|c s IH]; intros cur; [done|].
  cbn [JS.split_ws_from Spec.token_count_from Spec.ends_with_space].
  destruct (IH cur) as [IHt _]. destruct (IH "") as [IHt' _].
  destruct (IH (cur +:+ String c "")) as [_ IHf].
  change (String.eqb (String c s) "") with false. cbv iota.
  assert (He : (if Spec.ends_with_space (String c s) then 1 else 0)%nat
               = (if String.eqb s "" then if JS.is_space c then 1 else 0
                  else if Spec.ends_with_space s then 1 else 0)%nat)
    by (by destruct s).
  cbn [Spec.ends_with_space] in He. rewrite He. clear He.
  destruct (JS.is_space c) eqn:Hc; split; cbn [List.length];
    rewrite ?IHt, ?IHt', ?IHf; destruct (String.eqb s "") eqn:Es;
    try lia;
    apply String.eqb_eq in Es; subst s; simpl; lia.
Qed.

(** The pieces that [split(/\s+/)] gives are the tokens, one empty piece
    when the string is empty or starts with white space, and one empty piece
    when it ends with white space. *)
Lemma split_ws_length s :
  List.length (JS.split_ws s)
  = (Spec.token_count s
     + (if Spec.starts_with_token s then 0 else 1)
     + (if Spec.ends_with_space s then 1 else 0))%nat.
Proof.
  unfold JS.split_ws, Spec.token_count.
  rewrite (proj2 (split_ws_from_length "" s)).
  destruct s as [|c s]; [done|].
  cbn [Spec.token_count_from Spec.starts_with_token].
  destruct (JS.is_space c); simpl; lia.
Qed.

(** What the hook does: nothing when [content] is not modified; otherwise
    [excerpt] is the content without its tags, cut to 297 code units and
    ['...'] when longer than 300, and [readTime] is the number of pieces of
    [split(/\s+/)] over 200, rounded up, which is the read time of the
    specification when the content starts with a token and does not end
    with white space. *)
Lemma pre_save_spec b :
  Blog.pre_save false b = b
  ∧ Blog.excerpt (Blog.pre_save true b)
    = (if 300 <? JS.length (JS.strip_tags (Blog.content b))
       then JS.substring0 297 (JS.strip_tags (Blog.content b)) +:+ "..."
       else JS.strip_tags (Blog.content b))
  ∧ Blog.readTime (Blog.pre_save true b)
    = JS.ceil_div (Z.of_nat (List.length (JS.split_ws (Blog.content b)))) 200
  ∧ (Spec.starts_with_token (Blog.content b) = true →
     Spec.ends_with_space (Blog.content b) = false →
     Blog.readTime (Blog.pre_save true b) = Spec.readTime (Blog.content b)).
Proof.
  split_and!; try done.
  intros Hs He. unfold Spec.readTime. simpl.
  rewrite split_ws_length, Hs, He. do 2 f_equal. lia.
Qed.

(** C6 at two contents that POST /api/blogs accepts.  For the content made
    of one space there is no token, and the stored [readTime] is 1, not 0;
    for 200 words followed by a space there are 200 tokens, and the stored
    [readTime] is 2, not 1. *)
Theorem readTime_counts_empty_pieces :
  (res_status (BlogRoutes.post_blog Sample.db (Some 1%N) 40%N 600 Sample.blank_body).1 = 201
   ∧ Blog.readTime <$>
       db_blogs (BlogRoutes.post_blog Sample.db (Some 1%N) 40%N 600 Sample.blank_body).2
         !! 40%N = Some 1
   ∧ Spec.token_count " " = 0%nat
   ∧ Spec.readTime " " = 0)
  ∧ (res_status (BlogRoutes.post_blog Sample.db (Some 1%N) 40%N 600 Sample.essay_body).1 = 201
     ∧ Blog.readTime <$>
         db_blogs (BlogRoutes.post_blog Sample.db (Some 1%N) 40%N 600 Sample.essay_body).2
           !! 40%N = Some 2
     ∧ Spec.token_count (Sample.words 200) = 200%nat
     ∧ Spec.readTime (Sample.words 200) = 1).
Proof. split_and!; by vm_compute. Qed.

(** * Further properties of the model and of the handlers *)

(** ** Strings *)

Lemma string_length_app (s1 s2 : string) :
  String.length (s1 +:+ s2) = (String.length s1 + String.length s2)%nat.
Proof. induction s1 as [|c s1 IH]; simpl; [done | by rewrite IH]. Qed.

Lemma string_length_substring0 n (s : string) :
  String.length (String.substring 0 n s) = Nat.min n (String.length s).
Proof.
  revert n. induction s as [|c s IH]; intros [|n]; simpl; try done.
  by rewrite IH.
Qed.

Lemma contains_gt_strip_tags inside s :
  JS.contains_gt (JS.strip_tags_from inside s) = true → JS.contains_gt s = true.
Proof.
  revert inside. induction s as [|c s IH]; intros inside; simpl; [by destruct inside|].
  destruct (Ascii.eqb c ">") eqn:Ec; [done|].
  destruct inside; [apply IH|].
  destruct (Ascii.eqb c "<" && JS.contains_gt s); [apply IH|].
  simpl. rewrite Ec. apply IH.
Qed.

Lemma has_tag_strip_tags inside s :
  has_tag (JS.strip_tags_from inside s) = false.
Proof.
  revert inside. induction s as [|c s IH]; intros inside; simpl; [by destruct inside|].
  destruct inside; [by destruct (Ascii.eqb c ">")|].
  destruct (Ascii.eqb c "<" && JS.contains_gt s) eqn:E; [apply IH|].
  simpl. rewrite IH, orb_false_r.
  apply andb_false_iff in E as [E|E]; [by rewrite E|].
  apply andb_false_iff. right.
  destruct (JS.contains_gt (JS.strip_tags_from false s)) eqn:G; [|done].
  apply contains_gt_strip_tags in G. congruence.
Qed.

Lemma strip_tags_no_tag s : has_tag s = false → JS.strip_tags_from false s = s.
Proof.
  induction s as [|c s IH]; simpl; [done|].
  intros [E H]%orb_false_iff. rewrite E. f_equal. by apply IH.
Qed.

(** X1.  What [content.replace(/<[^>]*>/g, '')] returns holds no [<] that is
    followed by a [>], so that stripping it again changes nothing; a text
    that holds no such pair is returned as it is. *)
Theorem strip_tags_idempotent s :
  has_tag (JS.strip_tags s) = false
  ∧ JS.strip_tags (JS.strip_tags s) = JS.strip_tags s
  ∧ (has_tag s = false → JS.strip_tags s = s).
Proof.
  unfold JS.strip_tags. split_and!.
  - apply has_tag_strip_tags.
  - apply strip_tags_no_tag, has_tag_strip_tags.
  - apply strip_tags_no_tag.
Qed.

Lemma strip_tags_idempotent_witness : JS.strip_tags "a < b" = "a < b".
Proof. apply (strip_tags_idempotent "a < b"). reflexivity. Defined.

(** ** The derived fields of a blog *)

Lemma generateExcerpt_length b :
  JS.length (Blog.excerpt (Blog.generateExcerpt b)) ≤ 300.
Proof.
  unfold Blog.generateExcerpt, JS.length, JS.substring0. simpl.
  destruct (Z.ltb_spec 300 (Z.of_nat (String.length (JS.strip_tags (Blog.content b)))));
    [|done].
  rewrite string_length_app, string_length_substring0.
  change (String.length "...") with 3%nat. lia.
Qed.

(** X2.  Whatever the content, the excerpt that [generateExcerpt] writes is
    at most 300 code units long, the [maxlength] of the schema; it is exactly
    300 long, and ends with ['...'], when the content without its tags is
    longer than that. *)
Theorem generateExcerpt_fits_schema b :
  Blog.valid_excerpt (Blog.excerpt (Blog.generateExcerpt b)) = true
  ∧ (300 < JS.length (JS.strip_tags (Blog.content b)) →
     JS.length (Blog.excerpt (Blog.generateExcerpt b)) = 300
     ∧ ∃ head, Blog.excerpt (Blog.generateExcerpt b) = head +:+ "..."
               ∧ JS.length head = 297).
Proof.
  split.
  - unfold Blog.valid_excerpt. apply Z.leb_le, generateExcerpt_length.
  - intros H. unfold Blog.generateExcerpt, JS.substring0. simpl.
    destruct (Z.ltb_spec 300 (JS.length (JS.strip_tags (Blog.content b)))); [|lia].
    unfold JS.length in *.
    assert (String.length (String.substring 0 297 (JS.strip_tags (Blog.content b))) = 297%nat)
      as Hl by (rewrite string_length_substring0; lia).
    split.
    + rewrite string_length_app, Hl. done.
    + eexists. split; [done|]. by rewrite Hl.
Qed.

Lemma generateExcerpt_fits_schema_witness :
  JS.length (Blog.excerpt
               (Blog.generateExcerpt
                  (Blog.mk "Essay" (Sample.words 200) "" 1%N [] "Other" "" "draft"
                           true [] 0 0 None [] 0))) = 300.
Proof.
  apply (generateExcerpt_fits_schema
           (Blog.mk "Essay" (Sample.words 200) "" 1%N [] "Other" "" "draft"
                    true [] 0 0 None [] 0)).
  by vm_compute.
Defined.

(** X3.  [calculateReadTime] never gives less than one minute, and never
    less than the number of tokens of the content over 200: the pieces it
    counts are the tokens and at most two empty pieces. *)
Theorem calculateReadTime_bounds b :
  1 ≤ Blog.readTime (Blog.calculateReadTime b)
  ∧ Z.of_nat (Spec.token_count (Blog.content b))
    ≤ 200 * Blog.readTime (Blog.calculateReadTime b)
  ∧ 200 * Blog.readTime (Blog.calculateReadTime b)
    < Z.of_nat (Spec.token_count (Blog.content b)) + 202.
Proof.
  unfold Blog.calculateReadTime, Blog.wordsPerMinute. simpl.
  pose proof (split_ws_length (Blog.content b)) as Hl.
  pose proof (ceil_div_bounds (Z.of_nat (List.length (JS.split_ws (Blog.content b)))) 200
                ltac:(lia)) as Hb.
  assert (1 ≤ List.length (JS.split_ws (Blog.content b)))%nat.
  { rewrite Hl. unfold Spec.token_count.
    destruct (Blog.content b) as [|c s];
      cbn [Spec.token_count_from Spec.starts_with_token]; [lia|].
    destruct (JS.is_space c); cbn [negb]; lia. }
  unfold JS.ceil_div in *.
  destruct (Spec.starts_with_token (Blog.content b)),
           (Spec.ends_with_space (Blog.content b)); lia.
Qed.

(** ** Saved blogs and the schema *)

Lemma validate_new_iff b :
  Blog.validate_new b = true ↔
  Blog.valid_title (Blog.title b) = true
  ∧ Blog.valid_content (Blog.content b) = true
  ∧ Blog.valid_excerpt (Blog.excerpt b) = true
  ∧ Blog.valid_tags (Blog.tags b) = true
  ∧ Blog.valid_category (Blog.category b) = true
  ∧ Blog.valid_status (Blog.status b) = true.
Proof. unfold Blog.validate_new. rewrite !andb_true_iff. tauto. Qed.

Lemma validate_new_pre_save m b :
  Blog.validate_new b = true → Blog.validate_new (Blog.pre_save m b) = true.
Proof.
  destruct m; [|done]. rewrite !validate_new_iff.
  intros (Ht & Hc & _ & Hg & Hy & Hs).
  split_and!; try done.
  unfold Blog.valid_excerpt. apply Z.leb_le, generateExcerpt_length.
Qed.

Lemma prepare_save_valid old new saved :
  Blog.prepare_save old new = Some saved →
  Blog.validate_new saved = true.
Proof.
  destruct old as [o|]; unfold Blog.prepare_save;
    destruct (Blog.validate_new new) eqn:E; try done; intros [= <-].
  - exact (validate_new_pre_save _ new E).
  - exact (validate_new_pre_save true new E).
Qed.

(** Every handler of the blog routes leaves the blogs as they are, deletes
    one, or stores what [save] has validated. *)
Lemma blogs_valid_insert db id saved :
  blogs_valid db → Blog.validate_new saved = true →
  blogs_valid (with_blogs (<[id := saved]> (db_blogs db)) db).
Proof. intros H Hs. by apply map_Forall_insert_2. Qed.

Lemma blogs_valid_delete db id :
  blogs_valid db → blogs_valid (with_blogs (delete id (db_blogs db)) db).
Proof. intros H. by apply map_Forall_delete. Qed.

(** X4.  If every stored blog passes the validators of the schema, so does
    every stored blog after each request to the blog routes that writes:
    create, update, delete, like, unlike and the fetch that counts a view.
    In particular the excerpt that the hook writes after validation still
    fits the schema. *)
Theorem blog_handlers_keep_schema db token fresh now id body :
  blogs_valid db →
  blogs_valid (BlogRoutes.post_blog db token fresh now body).2
  ∧ blogs_valid (BlogRoutes.put_blog db token id body).2
  ∧ blogs_valid (BlogRoutes.delete_blog db token id).2
  ∧ blogs_valid (BlogRoutes.like_blog db token id).2
  ∧ blogs_valid (BlogRoutes.unlike_blog db token id).2
  ∧ blogs_valid (BlogRoutes.get_blog db token id).2.
Proof.
  intros Hv. split_and!.
  - unfold BlogRoutes.post_blog, auth.
    destruct (load_user db token) as [[uid u]|]; [|done].
    destruct (BlogRoutes.validate_post body); [|done].
    destruct (Blog.prepare_save None _) as [saved|] eqn:E; [|done].
    apply blogs_valid_insert; [done|]. by apply (prepare_save_valid _ _ _ E).
  - unfold BlogRoutes.put_blog, auth.
    destruct (load_user db token) as [[uid u]|]; [|done].
    destruct (BlogRoutes.validate_put body); [|done].
    destruct (db_blogs db !! id) as [b|] eqn:Hb; [|done].
    destruct (bool_decide _ && _); [done|].
    destruct (Blog.prepare_save (Some b) _) as [saved|] eqn:E; [|done].
    apply blogs_valid_insert; [done|]. by apply (prepare_save_valid _ _ _ E).
  - unfold BlogRoutes.delete_blog, auth.
    destruct (load_user db token) as [[uid u]|]; [|done].
    destruct (db_blogs db !! id) as [b|] eqn:Hb; [|done].
    destruct (bool_decide _ && _); [done|]. by apply blogs_valid_delete.
  - unfold BlogRoutes.like_blog, auth.
    destruct (load_user db token) as [[uid u]|]; [|done].
    destruct (db_blogs db !! id) as [b|] eqn:Hb; [|done].
    cbv zeta. destruct (Blog.prepare_save (Some b) _) as [saved|] eqn:E; [|done].
    apply blogs_valid_insert; [done|]. by apply (prepare_save_valid _ _ _ E).
  - unfold BlogRoutes.unlike_blog, auth.
    destruct (load_user db token) as [[uid u]|]; [|done].
    destruct (db_blogs db !! id) as [b|] eqn:Hb; [|done].
    cbv zeta. destruct (_ =? _); [done|].
    destruct (Blog.prepare_save (Some b) _) as [saved|] eqn:E; [|done].
    apply blogs_valid_insert; [done|]. by apply (prepare_save_valid _ _ _ E).
  - unfold BlogRoutes.get_blog.
    destruct (db_blogs db !! id) as [b|] eqn:Hb; [|done].
    cbv zeta. rewrite (prepare_save_views _ _ (Hv id b Hb)).
    assert (Hs : blogs_valid
              (with_blogs (<[id := Blog.set_views (Blog.views b + 1) b]> (db_blogs db)) db)).
    { apply blogs_valid_insert; [done|]. exact (Hv id b Hb). }
    repeat case_match; done.
Qed.

Lemma sample_blogs_valid : blogs_valid Sample.db.
Proof. apply (bool_decide_unpack _). by vm_compute. Defined.

Lemma blog_handlers_keep_schema_witness :
  blogs_valid (BlogRoutes.post_blog Sample.db (Some 1%N) 40%N 600 Sample.essay_body).2
  ∧ blogs_valid (BlogRoutes.get_blog Sample.db None 11%N).2.
Proof.
  split.
  - apply (blog_handlers_keep_schema Sample.db (Some 1%N) 40%N 600 11%N Sample.essay_body).
    exact sample_blogs_valid.
  - apply (blog_handlers_keep_schema Sample.db None 40%N 600 11%N Sample.essay_body).
    exact sample_blogs_valid.
Defined.

(** ** The view counter *)



Lemma same_article_set_likes b l : same_article b (Blog.set_likes l b).
Proof. unfold same_article. split_and!; done. Qed.





(** ** Creating a blog *)

Lemma derived_fields_pre_save b : derived_fields (Blog.pre_save true b).
Proof. split; reflexivity. Qed.

Lemma validate_post_nil body :
  BlogRoutes.validate_post body = [] →
  ∃ t c, BlogRoutes.bb_title body = Some t ∧ t ≠ "" ∧ JS.length t ≤ 200
         ∧ BlogRoutes.bb_content body = Some c ∧ c ≠ ""
         ∧ default "" (BlogRoutes.bb_category body) ∈ Blog.categories.
Proof.
  unfold BlogRoutes.validate_post. cbv zeta. intros H.
  apply app_eq_nil in H as [H1 H]. apply app_eq_nil in H as [H2 H].
  apply app_eq_nil in H as [H3 H4].
  destruct (BlogRoutes.bb_title body) as [t|]; [|simpl in H1; discriminate].
  destruct (BlogRoutes.bb_content body) as [c|]; [|simpl in H3; discriminate].
  cbn [default from_option id] in *. exists t, c.
  destruct (String.eqb_spec t ""); [simpl in H1; discriminate|].
  destruct (String.eqb_spec c ""); [simpl in H3; discriminate|].
  destruct (Z.ltb_spec 200 (JS.length t)); [simpl in H2; discriminate|].
  case_bool_decide; [done | simpl in H4; discriminate].
Qed.

(** X7.  Whenever POST /api/blogs answers 201, the blog stored under the
    new id has the requester as author, the trimmed title and the content
    of the body, no likes, no views and no comments; its excerpt and read
    time are derived from the content, whatever excerpt the body carried; its
    status is 'draft' when the body gives none; and no other document has
    changed. *)
Theorem post_blog_created db token uid u fresh now body :
  load_user db token = Some (uid, u) →
  res_status (BlogRoutes.post_blog db token fresh now body).1 = 201 →
  ∃ b, db_blogs (BlogRoutes.post_blog db token fresh now body).2 !! fresh = Some b
       ∧ Blog.author b = uid
       ∧ Some (Blog.title b) = JS.trim <$> BlogRoutes.bb_title body
       ∧ Some (Blog.content b) = BlogRoutes.bb_content body
       ∧ Blog.likes b = [] ∧ Blog.views b = 0 ∧ Blog.comments b = []
       ∧ Blog.createdAt b = now
       ∧ derived_fields b
       ∧ (BlogRoutes.truthy (BlogRoutes.bb_status body) = None → Blog.status b = "draft")
       ∧ (∀ id, id ≠ fresh →
            db_blogs (BlogRoutes.post_blog db token fresh now body).2 !! id
            = db_blogs db !! id)
       ∧ db_users (BlogRoutes.post_blog db token fresh now body).2 = db_users db
       ∧ db_comments (BlogRoutes.post_blog db token fresh now body).2 = db_comments db.
Proof.
  intros Hu. unfold BlogRoutes.post_blog, auth. rewrite Hu.
  destruct (BlogRoutes.validate_post body) eqn:Hv; [|done].
  unfold Blog.prepare_save.
  destruct (Blog.validate_new _) eqn:Hn; [|done]. intros _.
  cbn [fst snd db_blogs db_users db_comments with_blogs].
  eexists. split; [apply lookup_insert_eq|].
  destruct (validate_post_nil body Hv) as (t & c & Ht & _ & _ & Hc & _ & _).
  assert (Et : Blog.title (Blog.pre_save true (BlogRoutes.new_blog uid now body))
               = JS.trim (default "" (BlogRoutes.bb_title body))) by reflexivity.
  assert (Ec : Blog.content (Blog.pre_save true (BlogRoutes.new_blog uid now body))
               = default "" (BlogRoutes.bb_content body)) by reflexivity.
  rewrite Et, Ec, Ht, Hc.
  split_and!; try reflexivity.
  - apply derived_fields_pre_save.
  - intros Hs.
    change (Blog.status (Blog.pre_save true (BlogRoutes.new_blog uid now body)))
      with (default "draft" (BlogRoutes.truthy (BlogRoutes.bb_status body))).
    by rewrite Hs.
  - intros id Hne. by rewrite lookup_insert_ne.
Qed.

Lemma post_blog_created_witness :
  Blog.status <$>
    db_blogs (BlogRoutes.post_blog Sample.db (Some 1%N) 40%N 600 Sample.essay_body).2
      !! 40%N = Some "draft".
Proof.
  destruct (post_blog_created Sample.db (Some 1%N) 1%N Sample.ann 40%N 600 Sample.essay_body)
    as (b & -> & _ & _ & _ & _ & _ & _ & _ & _ & Hs & _);
    [by vm_compute | by vm_compute |].
  simpl. f_equal. by apply Hs.
Defined.

(** X8.  For a signed-in user, POST /api/blogs refuses, and stores
    nothing: with 400 when the title is absent, empty or longer than 200,
    when the content is absent or empty, or when the category is not one of
    the nine; and with 500, although the validators of the route have
    passed, when the title is made of white space only or the status is not
    one of 'draft', 'published' and 'archived'. *)
Theorem post_blog_refused db token fresh now body :
  is_Some (load_user db token) →
  ((default "" (BlogRoutes.bb_title body) = ""
    ∨ 200 < JS.length (default "" (BlogRoutes.bb_title body))
    ∨ default "" (BlogRoutes.bb_content body) = ""
    ∨ default "" (BlogRoutes.bb_category body) ∉ Blog.categories) →
   res_status (BlogRoutes.post_blog db token fresh now body).1 = 400
   ∧ (BlogRoutes.post_blog db token fresh now body).2 = db)
  ∧ (BlogRoutes.validate_post body = [] →
     (JS.trim (default "" (BlogRoutes.bb_title body)) = ""
      ∨ default "draft" (BlogRoutes.truthy (BlogRoutes.bb_status body)) ∉ Blog.statuses) →
     BlogRoutes.post_blog db token fresh now body = (server_error, db)).
Proof.
  unfold BlogRoutes.post_blog, auth. intros [[uid u] ->]. split.
  - intros H.
    assert (BlogRoutes.validate_post body ≠ []) as Hne.
    { unfold BlogRoutes.validate_post. cbv zeta.
      destruct H as [H|[H|[H|H]]].
      - rewrite H. simpl. done.
      - destruct (String.eqb _ ""); [done|].
        destruct (Z.ltb_spec 200 (JS.length (default "" (BlogRoutes.bb_title body))));
          [done | lia].
      - rewrite H. destruct (String.eqb _ ""), (200 <? _); done.
      - rewrite (bool_decide_eq_false_2 _ H).
        destruct (String.eqb _ ""), (200 <? _), (String.eqb _ ""); done. }
    destruct (BlogRoutes.validate_post body); done.
  - intros -> H.
    unfold Blog.prepare_save.
    assert (Blog.validate_new (BlogRoutes.new_blog uid now body) = false) as ->; [|done].
    apply not_true_iff_false. rewrite validate_new_iff.
    intros (Ht & _ & _ & _ & _ & Hs). destruct H as [H|H].
    + unfold Blog.valid_title in Ht. cbn [BlogRoutes.new_blog Blog.title] in Ht.
      rewrite H in Ht. done.
    + unfold Blog.valid_status in Hs. cbn [BlogRoutes.new_blog Blog.status] in Hs.
      by apply bool_decide_eq_true in Hs.
Qed.

Lemma post_blog_refused_witness :
  BlogRoutes.post_blog Sample.db (Some 1%N) 40%N 600
    (BlogRoutes.mkBlogBody (Some "   ") (Some "text") None None (Some "Other")
                           None None None None)
  = (server_error, Sample.db)
  ∧ res_status
      (BlogRoutes.post_blog Sample.db (Some 1%N) 40%N 600
         (BlogRoutes.mkBlogBody (Some "Title") (Some "text") None None (Some "Sports")
                                None None None None)).1 = 400.
Proof.
  split.
  - apply (post_blog_refused Sample.db (Some 1%N) 40%N 600); [by vm_compute; eauto | by vm_compute |].
    left. by vm_compute.
  - apply (post_blog_refused Sample.db (Some 1%N) 40%N 600); [by vm_compute; eauto |].
    do 3 right. apply (bool_decide_unpack _). by vm_compute.
Defined.

(** ** Updating and deleting a blog *)

(** X9.  PUT /api/blogs/:id, whatever the requester and the body, never
    removes the blog and never changes its author, its likes, its views, its
    comments or its creation time; the other blogs, the users and the
    comments are untouched. *)
Theorem put_blog_keeps_ownership db token id body b :
  db_blogs db !! id = Some b →
  (∃ b', db_blogs (BlogRoutes.put_blog db token id body).2 !! id = Some b'
         ∧ Blog.author b' = Blog.author b
         ∧ Blog.likes b' = Blog.likes b
         ∧ Blog.views b' = Blog.views b
         ∧ Blog.comments b' = Blog.comments b
         ∧ Blog.createdAt b' = Blog.createdAt b)
  ∧ (∀ id', id' ≠ id →
       db_blogs (BlogRoutes.put_blog db token id body).2 !! id' = db_blogs db !! id')
  ∧ db_users (BlogRoutes.put_blog db token id body).2 = db_users db
  ∧ db_comments (BlogRoutes.put_blog db token id body).2 = db_comments db.
Proof.
  intros Hb. unfold BlogRoutes.put_blog, auth.
  assert (Hsame : (∃ b', db_blogs db !! id = Some b'
                         ∧ Blog.author b' = Blog.author b
                         ∧ Blog.likes b' = Blog.likes b
                         ∧ Blog.views b' = Blog.views b
                         ∧ Blog.comments b' = Blog.comments b
                         ∧ Blog.createdAt b' = Blog.createdAt b)
                  ∧ (∀ id', id' ≠ id → db_blogs db !! id' = db_blogs db !! id')
                  ∧ db_users db = db_users db ∧ db_comments db = db_comments db)
    by (split; [by exists b | done]).
  destruct (load_user db token) as [[uid u]|]; [|done].
  destruct (BlogRoutes.validate_put body); [|done].
  rewrite Hb. destruct (bool_decide _ && _); [done|].
  unfold Blog.prepare_save.
  destruct (Blog.validate_new _); [|done].
  cbn [fst snd db_blogs db_users db_comments with_blogs].
  split_and!; try done.
  - eexists. split; [apply lookup_insert_eq|]. by destruct (bool_decide _).
  - intros id' Hne. by rewrite lookup_insert_ne.
Qed.

Lemma put_blog_keeps_ownership_witness :
  ∃ b', db_blogs (BlogRoutes.put_blog Sample.db (Some 2%N) 10%N Sample.essay_body).2
          !! 10%N = Some b'
        ∧ Blog.author b' = 1%N ∧ Blog.likes b' = [1; 2]%N.
Proof.
  destruct (put_blog_keeps_ownership Sample.db (Some 2%N) 10%N Sample.essay_body
              Sample.draft) as [(b' & Hb' & Ha & Hl & _) _]; [by vm_compute|].
  exists b'. by rewrite Hb', Ha, Hl.
Defined.

(** X10.  After a PUT /api/blogs/:id answered 200: when the stored content
    has changed, the stored excerpt and read time are derived from the new
    content, whatever excerpt the body carried; when the content has not
    changed, the read time is the old one and the excerpt is the one of the
    body, or the old one when the body has none. *)
Theorem put_blog_derived_fields db token id body b :
  db_blogs db !! id = Some b →
  res_status (BlogRoutes.put_blog db token id body).1 = 200 →
  ∃ b', db_blogs (BlogRoutes.put_blog db token id body).2 !! id = Some b'
        ∧ Blog.content b' = default (Blog.content b) (BlogRoutes.bb_content body)
        ∧ (Blog.content b' ≠ Blog.content b → derived_fields b')
        ∧ (Blog.content b' = Blog.content b →
           Blog.readTime b' = Blog.readTime b
           ∧ Blog.excerpt b' = default (Blog.excerpt b) (BlogRoutes.bb_excerpt body)).
Proof.
  intros Hb. unfold BlogRoutes.put_blog, auth.
  destruct (load_user db token) as [[uid u]|]; [|done].
  destruct (BlogRoutes.validate_put body); [|done].
  rewrite Hb. destruct (bool_decide _ && _); [done|].
  unfold Blog.prepare_save.
  destruct (Blog.validate_new _); [|done]. intros _.
  cbn [fst snd db_blogs with_blogs].
  eexists. split; [apply lookup_insert_eq|].
  assert (Ec : Blog.content (BlogRoutes.assign_fields body b)
               = default (Blog.content b) (BlogRoutes.bb_content body)) by reflexivity.
  case_bool_decide as E.
  - split; [done|]. split; [intros _; apply derived_fields_pre_save|].
    intros E'. change (Blog.content (Blog.pre_save true (BlogRoutes.assign_fields body b)))
                 with (Blog.content (BlogRoutes.assign_fields body b)) in E'.
    congruence.
  - split; [done|]. split; [|done].
    intros E'. exfalso. apply E'. cbn [Blog.pre_save].
    by destruct (decide (Blog.content b = Blog.content (BlogRoutes.assign_fields body b))).
Qed.

Lemma put_blog_derived_fields_witness :
  ∃ b', db_blogs (BlogRoutes.put_blog Sample.db (Some 1%N) 10%N
                    (BlogRoutes.mkBlogBody None (Some "<b>new</b> text")
                       (Some "my own excerpt") None None None None None None)).2
          !! 10%N = Some b'
        ∧ Blog.excerpt b' = "new text".
Proof.
  destruct (put_blog_derived_fields Sample.db (Some 1%N) 10%N
              (BlogRoutes.mkBlogBody None (Some "<b>new</b> text")
                 (Some "my own excerpt") None None None None None None)
              Sample.draft) as (b' & Hb' & Hc & Hd & _);
    [by vm_compute | by vm_compute |].
  exists b'. split; [done|].
  destruct Hd as [He _]; [by rewrite Hc|].
  rewrite He. unfold Blog.generateExcerpt. simpl Blog.excerpt. by rewrite Hc.
Defined.

(** X11.  When the author or an admin deletes a blog, the blog is gone: a
    later fetch and a second delete answer 404.  Its comments stay in the
    comments collection, as does every other document. *)
Theorem delete_blog_removes db token uid u id b :
  load_user db token = Some (uid, u) →
  db_blogs db !! id = Some b →
  may_modify uid u (Blog.author b) →
  BlogRoutes.delete_blog db token id
  = (json (Message "Blog deleted successfully"),
     with_blogs (delete id (db_blogs db)) db)
  ∧ db_comments (BlogRoutes.delete_blog db token id).2 = db_comments db
  ∧ db_users (BlogRoutes.delete_blog db token id).2 = db_users db
  ∧ (∀ id', id' ≠ id →
       db_blogs (BlogRoutes.delete_blog db token id).2 !! id' = db_blogs db !! id')
  ∧ (∀ token',
       BlogRoutes.get_blog (BlogRoutes.delete_blog db token id).2 token' id
       = (status_json 404 (Message "Blog not found"),
          (BlogRoutes.delete_blog db token id).2))
  ∧ BlogRoutes.delete_blog (BlogRoutes.delete_blog db token id).2 token id
    = (status_json 404 (Message "Blog not found"),
       (BlogRoutes.delete_blog db token id).2).
Proof.
  intros Hu Hb Hallowed.
  assert (E : BlogRoutes.delete_blog db token id
              = (json (Message "Blog deleted successfully"),
                 with_blogs (delete id (db_blogs db)) db)).
  { unfold BlogRoutes.delete_blog, auth. rewrite Hu, Hb.
    destruct (bool_decide _ && _) eqn:D; [by apply denied_true in D | done]. }
  rewrite E. cbn [fst snd db_blogs db_users db_comments with_blogs].
  split_and!; try done.
  - intros id' Hne. by rewrite lookup_delete_ne.
  - intros token'. unfold BlogRoutes.get_blog.
    cbn [db_blogs with_blogs]. by rewrite lookup_delete_eq.
  - unfold BlogRoutes.delete_blog, auth.
    rewrite load_user_with_blogs, Hu. cbn [db_blogs with_blogs].
    by rewrite lookup_delete_eq.
Qed.

Lemma delete_blog_removes_witness :
  db_comments (BlogRoutes.delete_blog Sample.db (Some 1%N) 11%N).2 !! 20%N
  = Some Sample.c20
  ∧ res_status
      (BlogRoutes.get_blog (BlogRoutes.delete_blog Sample.db (Some 1%N) 11%N).2 None 11%N).1
    = 404.
Proof.
  destruct (delete_blog_removes Sample.db (Some 1%N) 1%N Sample.ann 11%N Sample.post)
    as (_ & Hc & _ & _ & Hg & _); [by vm_compute | by vm_compute | by left |].
  split; [by rewrite Hc | by rewrite (Hg None)].
Defined.

(** ** Likes *)

Lemma unlike_blog_present db token uid u id b l1 l2 :
  load_user db token = Some (uid, u) →
  db_blogs db !! id = Some b →
  Blog.validate_new b = true →
  Blog.likes b = l1 ++ uid :: l2 → uid ∉ l1 →
  BlogRoutes.unlike_blog db token id
  = (json (LikeResult "Blog unliked" (Z.of_nat (List.length (l1 ++ l2))) false),
     with_blogs (<[id := Blog.set_likes (l1 ++ l2) b]> (db_blogs db)) db).
Proof.
  intros Hu Hb Hv E Hl1. unfold BlogRoutes.unlike_blog, auth. rewrite Hu, Hb. cbv zeta.
  assert (Hin : uid ∈ Blog.likes b) by (rewrite E; apply elem_of_app; right; by left).
  destruct (indexOf_found _ _ Hin) as (k1 & k2 & E' & Hk1 & Hi).
  rewrite Hi. destruct (Z.eqb_spec (Z.of_nat (List.length k1)) (-1)); [lia|].
  rewrite E', splice1_middle, (prepare_save_likes _ _ Hv).
  assert (k1 = l1 ∧ k2 = l2) as [-> ->]; [|done].
  rewrite E in E'. clear -E' Hl1 Hk1.
  revert k1 E' Hk1. induction l1 as [|y l1 IH]; intros k1 E' Hk1.
  - destruct k1 as [|z k1]; simplify_eq/=; [done|].
    apply not_elem_of_cons in Hk1 as [? _]. done.
  - apply not_elem_of_cons in Hl1 as [Hne Hl1].
    destruct k1 as [|z k1]; simplify_eq/=.
    apply not_elem_of_cons in Hk1 as [_ Hk1].
    destruct (IH Hl1 k1 ltac:(done) Hk1) as [-> ->]. done.
Qed.

(** X12.  For a signed-in user and a stored blog that passes the schema
    and whose [likes] hold no id twice, the answer of
    POST /api/blogs/:id/like tells the [likes] it has stored: [isLiked] is
    true exactly when the user's id is in the stored [likes], [likeCount] is
    their number, the membership of the user has flipped and the membership
    of every other user is as before; the [views] and the other paths of the
    schema are as they were. *)
Theorem like_blog_answer db token uid u id b :
  load_user db token = Some (uid, u) →
  db_blogs db !! id = Some b →
  Blog.validate_new b = true →
  NoDup (Blog.likes b) →
  ∃ b' m,
    (BlogRoutes.like_blog db token id).1
    = json (LikeResult m (Blog.likeCount b') (bool_decide (uid ∈ Blog.likes b')))
    ∧ db_blogs (BlogRoutes.like_blog db token id).2 !! id = Some b'
    ∧ (uid ∈ Blog.likes b' ↔ uid ∉ Blog.likes b)
    ∧ (∀ x, x ≠ uid → x ∈ Blog.likes b' ↔ x ∈ Blog.likes b)
    ∧ Blog.views b' = Blog.views b
    ∧ same_article b b'.
Proof.
  intros Hu Hb Hv Hnd. rewrite (like_blog_run _ _ _ _ _ _ Hu Hb Hv).
  cbn [fst snd db_blogs with_blogs].
  exists (Blog.set_likes (toggle_like (Blog.likes b) uid) b).
  exists (if -1 <? JS.indexOf (Blog.likes b) uid then "Blog unliked" else "Blog liked").
  unfold Blog.likeCount. rewrite !likes_set_likes.
  assert (Hrest : Blog.views (Blog.set_likes (toggle_like (Blog.likes b) uid) b)
                  = Blog.views b
                  ∧ same_article b (Blog.set_likes (toggle_like (Blog.likes b) uid) b))
    by (split; [done | apply same_article_set_likes]).
  destruct (decide (uid ∈ Blog.likes b)) as [Hin|Hin].
  - destruct (toggle_like_present _ _ Hin) as (l1 & l2 & E & Hl1 & Hi & Ht).
    rewrite Ht in *.
    assert (Hout : uid ∉ l1 ++ l2).
    { rewrite E in Hnd. apply NoDup_app in Hnd as (_ & Hd & Hn).
      apply NoDup_cons in Hn as [Hn _].
      intros [?|?]%elem_of_app; done. }
    split; [|split; [|split; [|split]]].
    + rewrite (bool_decide_eq_false_2 _ Hout), Hi.
      destruct (Z.eqb_spec (Z.of_nat (List.length l1)) (-1)); [lia | done].
    + apply lookup_insert_eq.
    + tauto.
    + intros x Hx. rewrite E, !elem_of_app, elem_of_cons.
      split; [intros [?|?]; [by left | by right; right]
             | intros [?|[?|?]]; [by left | done | by right]].
    + exact Hrest.
  - rewrite (toggle_like_absent _ _ Hin) in *.
    assert (Hnow : uid ∈ Blog.likes b ++ [uid])
      by (apply elem_of_app; right; by apply list_elem_of_singleton).
    split; [|split; [|split; [|split]]].
    + rewrite (bool_decide_eq_true_2 _ Hnow).
      apply indexOf_absent in Hin. by rewrite Hin.
    + apply lookup_insert_eq.
    + tauto.
    + intros x Hx. rewrite elem_of_app, list_elem_of_singleton.
      split; [intros [?|?]; [done | done] | by left].
    + exact Hrest.
Qed.

Lemma like_blog_answer_witness :
  ∃ b' m,
    (BlogRoutes.like_blog Sample.db (Some 3%N) 10%N).1
    = json (LikeResult m (Blog.likeCount b') (bool_decide (3%N ∈ Blog.likes b')))
    ∧ db_blogs (BlogRoutes.like_blog Sample.db (Some 3%N) 10%N).2 !! 10%N = Some b'
    ∧ (3%N ∈ Blog.likes b' ↔ 3%N ∉ Blog.likes Sample.draft)
    ∧ (∀ x, x ≠ 3%N → x ∈ Blog.likes b' ↔ x ∈ Blog.likes Sample.draft)
    ∧ Blog.views b' = Blog.views Sample.draft
    ∧ same_article Sample.draft b'.
Proof.
  apply (like_blog_answer Sample.db (Some 3%N) 3%N Sample.cat 10%N Sample.draft);
    [by vm_compute | by vm_compute | by vm_compute
     | apply (bool_decide_unpack _); by vm_compute].
Defined.

(** X13.  Like, then unlike through DELETE: for a signed-in user who has
    not liked a stored blog that passes the schema,
    POST /api/blogs/:id/like followed by DELETE /api/blogs/:id/like is
    answered 'Blog unliked' with the original [likeCount] and leaves the
    [likes] of the blog as they were at first, order included; its [views]
    and the other paths of the schema, the other blogs, the users and the
    comments are as they were. *)
Theorem like_then_unlike db token uid u id b :
  load_user db token = Some (uid, u) →
  db_blogs db !! id = Some b →
  Blog.validate_new b = true →
  uid ∉ Blog.likes b →
  let out := BlogRoutes.unlike_blog (BlogRoutes.like_blog db token id).2 token id in
  out.1 = json (LikeResult "Blog unliked" (Blog.likeCount b) false)
  ∧ (∃ b', db_blogs out.2 !! id = Some b'
           ∧ Blog.likes b' = Blog.likes b
           ∧ Blog.views b' = Blog.views b
           ∧ same_article b b')
  ∧ (∀ id', id' ≠ id → db_blogs out.2 !! id' = db_blogs db !! id')
  ∧ db_users out.2 = db_users db
  ∧ db_comments out.2 = db_comments db.
Proof.
  intros Hu Hb Hv Hin out. subst out.
  rewrite (like_blog_run _ _ _ _ _ _ Hu Hb Hv). cbn [snd].
  rewrite (toggle_like_absent _ _ Hin).
  rewrite (unlike_blog_present
             (with_blogs (<[id := Blog.set_likes (Blog.likes b ++ [uid]) b]> (db_blogs db)) db)
             token uid u id (Blog.set_likes (Blog.likes b ++ [uid]) b) (Blog.likes b) []);
    [|done|apply lookup_insert_eq|exact Hv|done|done].
  rewrite app_nil_r. cbn [fst snd db_blogs db_users db_comments with_blogs].
  rewrite insert_insert_eq, blog_set_likes_twice.
  split; [done|]. split.
  - eexists. split; [apply lookup_insert_eq|]. split; [done|]. split; [done|].
    apply same_article_set_likes.
  - split; [|done]. intros id' Hne. by rewrite lookup_insert_ne.
Qed.

Lemma like_then_unlike_witness :
  ∃ b', db_blogs (BlogRoutes.unlike_blog (BlogRoutes.like_blog Sample.db (Some 3%N) 10%N).2
                    (Some 3%N) 10%N).2 !! 10%N = Some b'
        ∧ Blog.likes b' = [1; 2]%N.
Proof.
  destruct (like_then_unlike Sample.db (Some 3%N) 3%N Sample.cat 10%N Sample.draft)
    as (_ & (b' & E & Hl & _) & _);
    [by vm_compute | by vm_compute | by vm_compute
     | apply (bool_decide_unpack _); by vm_compute |].
  exists b'. split; [exact E | exact Hl].
Defined.

(** X14.  Unlike is not repeatable: after a DELETE /api/blogs/:id/like that
    has removed the id of a user from the [likes], which held no id twice, of
    a stored blog that passes the schema, the
    same request is answered 400 'Blog is not liked' and changes nothing,
    while POST /api/blogs/:id/like would like the blog again. *)
Theorem unlike_blog_twice db token uid u id b :
  load_user db token = Some (uid, u) →
  db_blogs db !! id = Some b →
  Blog.validate_new b = true →
  NoDup (Blog.likes b) →
  uid ∈ Blog.likes b →
  res_status (BlogRoutes.unlike_blog db token id).1 = 200
  ∧ BlogRoutes.unlike_blog (BlogRoutes.unlike_blog db token id).2 token id
    = (status_json 400 (Message "Blog is not liked"),
       (BlogRoutes.unlike_blog db token id).2)
  ∧ ∃ m n, (BlogRoutes.like_blog (BlogRoutes.unlike_blog db token id).2 token id).1
           = json (LikeResult m n true).
Proof.
  intros Hu Hb Hv Hnd Hin.
  destruct (indexOf_found _ _ Hin) as (l1 & l2 & E & Hl1 & Hi).
  rewrite (unlike_blog_present _ _ _ _ _ _ _ _ Hu Hb Hv E Hl1). cbn [fst snd].
  assert (Hout : uid ∉ l1 ++ l2).
  { rewrite E in Hnd. apply NoDup_app in Hnd as (_ & Hd & Hn).
    apply NoDup_cons in Hn as [Hn _]. intros [?|?]%elem_of_app; done. }
  split; [done|]. split.
  - unfold BlogRoutes.unlike_blog, auth. rewrite load_user_with_blogs, Hu.
    cbn [db_blogs with_blogs]. rewrite lookup_insert_eq. cbv zeta.
    rewrite likes_set_likes. apply indexOf_absent in Hout as ->. done.
  - erewrite like_blog_run;
      [|by rewrite load_user_with_blogs|apply lookup_insert_eq|exact Hv].
    rewrite likes_set_likes. apply indexOf_absent in Hout as ->. by do 2 eexists.
Qed.

Lemma unlike_blog_twice_witness :
  res_status
    (BlogRoutes.unlike_blog (BlogRoutes.unlike_blog Sample.db (Some 2%N) 10%N).2
       (Some 2%N) 10%N).1 = 400.
Proof.
  destruct (unlike_blog_twice Sample.db (Some 2%N) 2%N Sample.bob 10%N Sample.draft)
    as (_ & E & _);
    [by vm_compute | by vm_compute | by vm_compute
     | apply (bool_decide_unpack _); by vm_compute
     | apply (bool_decide_unpack _); by vm_compute |].
  by rewrite E.
Defined.

(** ** The blog listings *)

(** X15.  GET /api/blogs/user/:userId lists stored blogs of that author
    only, and a blog that is not published or not public only to the author
    in person: an admin gets no more than a stranger here. *)
Theorem user_blogs_listing db token userId qpage qlimit id b :
  (id, b) ∈ listed_blogs (BlogRoutes.get_user_blogs db token userId qpage qlimit).1 →
  db_blogs db !! id = Some b
  ∧ Blog.author b = userId
  ∧ (publicly_visible b = true ∨ ∃ u, load_user db token = Some (userId, u)).
Proof.
  unfold BlogRoutes.get_user_blogs. cbv zeta. intros H.
  assert (Hin : (id, b) ∈ Query.find
                   (BlogRoutes.user_filter (optionalAuth db token) userId) (db_blogs db)).
  { destruct (Query.skip_limit _ _ _) as [found|] eqn:Hs.
    - by apply (skip_limit_elem _ _ _ _ _ Hs), sort_desc_elem in H.
    - by apply elem_of_nil in H. }
  apply find_elem in Hin as [Hl Hf]. split; [done|].
  unfold BlogRoutes.user_filter, optionalAuth in Hf.
  apply andb_prop in Hf as [Ha Hf]. apply bool_decide_eq_true in Ha.
  split; [done|].
  destruct (load_user db token) as [[uid u]|]; [|by left].
  case_bool_decide; [right; subst; by exists u | by left].
Qed.

Lemma user_blogs_listing_witness :
  db_blogs Sample.db !! 10%N = Some Sample.draft
  ∧ Blog.author Sample.draft = 1%N
  ∧ (publicly_visible Sample.draft = true
     ∨ ∃ u, load_user Sample.db (Some 1%N) = Some (1%N, u)).
Proof.
  apply (user_blogs_listing Sample.db (Some 1%N) 1%N None None 10%N Sample.draft).
  vm_compute. apply elem_of_cons. right. apply elem_of_cons. by left.
Defined.

Lemma truthy_idem s : BlogRoutes.truthy (BlogRoutes.truthy s) = BlogRoutes.truthy s.
Proof.
  unfold BlogRoutes.truthy. destruct s as [v|]; [|done].
  destruct (String.eqb v "") eqn:E; [done | by rewrite E].
Qed.

(** X16.  Every blog that GET /api/blogs returns meets each criterion of
    the query that is present and not empty: it has that category, carries
    the tag of the query once this is trimmed as the tags of the schema are,
    is by that author, and matches the search; a criterion given as the empty
    string counts for nothing, the answer being the one for the query
    without it. *)
Theorem get_blogs_criteria text_match db q :
  (∀ id b, (id, b) ∈ listed_blogs (BlogRoutes.get_blogs text_match db q).1 →
     (∀ c, BlogRoutes.truthy (BlogRoutes.q_category q) = Some c → Blog.category b = c)
     ∧ (∀ t, BlogRoutes.truthy (BlogRoutes.q_tag q) = Some t →
          JS.trim t ∈ Blog.tags b)
     ∧ (∀ a, BlogRoutes.q_author q = Some a → Blog.author b = a)
     ∧ (∀ w, BlogRoutes.truthy (BlogRoutes.q_search q) = Some w → text_match w b = true))
  ∧ BlogRoutes.get_blogs text_match db (without_empty q)
    = BlogRoutes.get_blogs text_match db q.
Proof.
  split.
  - intros id b H. unfold BlogRoutes.get_blogs in H. cbv zeta in H.
    assert (Hin : (id, b) ∈ Query.find (BlogRoutes.list_filter text_match q) (db_blogs db)).
    { destruct (Query.skip_limit _ _ _) as [found|] eqn:Hs.
      - by apply (skip_limit_elem _ _ _ _ _ Hs), apply_sort_elem in H.
      - by apply elem_of_nil in H. }
    apply find_elem in Hin as [_ Hf]. unfold BlogRoutes.list_filter in Hf.
    rewrite !andb_true_iff in Hf. destruct Hf as ((((_ & Hc) & Ht) & Ha) & Hw).
    split_and!.
    + intros c E. rewrite E in Hc. by apply String.eqb_eq in Hc.
    + intros t E. rewrite E in Ht. by apply bool_decide_eq_true in Ht.
    + intros a E. rewrite E in Ha. by apply bool_decide_eq_true in Ha.
    + intros w E. by rewrite E in Hw.
  - assert (E : BlogRoutes.list_filter text_match (without_empty q)
                = BlogRoutes.list_filter text_match q).
    { unfold BlogRoutes.list_filter, without_empty.
      cbn [BlogRoutes.q_category BlogRoutes.q_tag BlogRoutes.q_search BlogRoutes.q_author].
      by rewrite !truthy_idem. }
    unfold BlogRoutes.get_blogs. cbv zeta. rewrite E. done.
Qed.

Lemma get_blogs_criteria_witness :
  Blog.category Sample.post = "Technology"
  ∧ JS.trim " intro " ∈ Blog.tags Sample.post.
Proof.
  destruct (proj1 (get_blogs_criteria (λ _ _, true) Sample.db
                     (BlogRoutes.mkListQuery None None (Some "Technology") (Some " intro ")
                        None None None))
              11%N Sample.post) as (Hc & Ht & _).
  - vm_compute. apply elem_of_cons. by left.
  - split; [by apply Hc | by apply Ht].
Defined.

(** ** Pages *)

Lemma get_blogs_page text_match db q p limit :
  BlogRoutes.q_limit q = Some limit → 0 < limit → (0 < p)%nat →
  listed_blogs (BlogRoutes.get_blogs text_match db (with_page (Some (Z.of_nat p)) q)).1
  = take (Z.to_nat limit)
         (drop ((p - 1) * Z.to_nat limit)
               (BlogRoutes.apply_sort (BlogRoutes.q_sort q)
                  (Query.find (BlogRoutes.list_filter text_match q) (db_blogs db)))).
Proof.
  intros Hl Hlim Hp. unfold BlogRoutes.get_blogs. cbv zeta.
  cbn [with_page BlogRoutes.q_page BlogRoutes.q_limit BlogRoutes.q_sort].
  rewrite Hl, !parse_or_positive by lia.
  change (BlogRoutes.list_filter text_match (with_page (Some (Z.of_nat p)) q))
    with (BlogRoutes.list_filter text_match q).
  unfold Query.skip_limit.
  destruct (Z.ltb_spec ((Z.of_nat p - 1) * limit) 0); [nia|].
  cbn [fst listed_blogs res_body json].
  rewrite Z.abs_eq by lia. do 2 f_equal.
  rewrite Z2Nat.inj_mul by lia. f_equal. lia.
Qed.

Lemma apply_sort_length sort l :
  List.length (BlogRoutes.apply_sort sort l) = List.length l.
Proof.
  unfold BlogRoutes.apply_sort, Query.sort_desc, Query.sort_asc.
  repeat case_match; try done; apply Permutation_length, merge_sort_Permutation.
Qed.

Lemma apply_sort_Permutation sort l : BlogRoutes.apply_sort sort l ≡ₚ l.
Proof.
  unfold BlogRoutes.apply_sort, Query.sort_desc, Query.sort_asc.
  repeat case_match; try done; apply merge_sort_Permutation.
Qed.

#[local] Instance sort_before_trans sort : Transitive (sort_before sort).
Proof.
  intros x y z. unfold sort_before. destruct (sort_ascending sort); lia.
Qed.

Lemma Sorted_always {A} (R : relation A) (l : list A) :
  (∀ x y, R x y) → Sorted R l.
Proof.
  intros HR. induction l as [|x l IH]; constructor; [done|].
  destruct l; constructor. apply HR.
Qed.

Lemma apply_sort_in_order sort l : in_sort_order sort (BlogRoutes.apply_sort sort l).
Proof.
  unfold in_sort_order, sort_before, sort_ascending, sort_key, BlogRoutes.apply_sort.
  cbv zeta. generalize (default "newest" sort). intros s.
  destruct (String.eqb_spec s "newest") as [->|Hn].
  { cbn. apply Sorted_merge_sort. intros x y. unfold Query.sort_desc. lia. }
  destruct (String.eqb_spec s "oldest") as [->|Ho].
  { cbn. apply Sorted_merge_sort. intros x y. lia. }
  destruct (String.eqb_spec s "popular") as [->|Hp].
  { apply Sorted_merge_sort. intros x y. lia. }
  destruct (String.eqb_spec s "likes") as [->|Hl].
  { apply Sorted_always. intros x y. lia. }
  apply Sorted_merge_sort. intros x y. lia.
Qed.

Lemma NoDup_map_inj {A} (f : A → Z) (l : list A) x y :
  NoDup (map f l) → x ∈ l → y ∈ l → f x = f y → x = y.
Proof.
  induction l as [|z l IH]; [by intros _ ?%elem_of_nil|].
  cbn [map]. intros [Hn Hnd]%NoDup_cons Hx Hy E.
  apply elem_of_cons in Hx as [->|Hx]; apply elem_of_cons in Hy as [->|Hy].
  - done.
  - destruct Hn. rewrite E. by apply list_elem_of_In, in_map, list_elem_of_In.
  - destruct Hn. rewrite <-E. by apply list_elem_of_In, in_map, list_elem_of_In.
  - by apply IH.
Qed.

(** When no two of the blogs have the same sort key, the order that the
    sort asks for is one order only. *)
Lemma sort_order_unique sort (l l1 l2 : list (ObjectId * Blog.doc)) :
  sort_keys_distinct sort l →
  l1 ≡ₚ l → l2 ≡ₚ l →
  in_sort_order sort l1 → in_sort_order sort l2 → l1 = l2.
Proof.
  intros Hnd H1 H2 S1 S2.
  apply (Sorted_unique_strong (sort_before sort)); [|done|done|by rewrite H1, H2].
  intros x1 x2 Hx1 Hx2 R12 R21.
  apply (NoDup_map_inj (λ x, sort_key sort x.2) l); [done | by rewrite <-H1 | by rewrite <-H2 |].
  unfold sort_before in *. destruct (sort_ascending sort); lia.
Qed.

(** X17.  The pages of GET /api/blogs tile the result, when no two blogs
    that match the query have the same sort key.  The sort then allows one
    order only, whatever the database does among equal keys, and for a
    positive limit the pages 1 to [n] of the query, one after the other, are
    the first [n * limit] blogs in that order: no blog is skipped and none
    comes twice.  A page holds at most [limit] blogs and, when its [hasNext]
    is true, exactly [limit]; when [hasNext] of page [n] is false, the pages
    1 to [n] are the whole result. *)
Theorem blog_pages_tile text_match db q limit n :
  BlogRoutes.q_limit q = Some limit → 0 < limit →
  sort_keys_distinct (BlogRoutes.q_sort q)
    (Query.find (BlogRoutes.list_filter text_match q) (db_blogs db)) →
  (∀ l, l ≡ₚ Query.find (BlogRoutes.list_filter text_match q) (db_blogs db) →
        in_sort_order (BlogRoutes.q_sort q) l →
        l = BlogRoutes.apply_sort (BlogRoutes.q_sort q)
              (Query.find (BlogRoutes.list_filter text_match q) (db_blogs db)))
  ∧ blog_pages text_match db q n
    = take (n * Z.to_nat limit)
           (BlogRoutes.apply_sort (BlogRoutes.q_sort q)
              (Query.find (BlogRoutes.list_filter text_match q) (db_blogs db)))
  ∧ (∀ p pg, (0 < p)%nat →
       pagination_of (BlogRoutes.get_blogs text_match db (with_page (Some (Z.of_nat p)) q)).1
       = Some pg →
       (List.length
          (listed_blogs
             (BlogRoutes.get_blogs text_match db (with_page (Some (Z.of_nat p)) q)).1)
        ≤ Z.to_nat limit)%nat
       ∧ (hasNext pg = true →
          List.length
            (listed_blogs
               (BlogRoutes.get_blogs text_match db (with_page (Some (Z.of_nat p)) q)).1)
          = Z.to_nat limit)
       ∧ (hasNext pg = false → p = n →
          blog_pages text_match db q n
          = BlogRoutes.apply_sort (BlogRoutes.q_sort q)
              (Query.find (BlogRoutes.list_filter text_match q) (db_blogs db)))).
Proof.
  intros Hl Hlim Hkeys.
  assert (Htile : ∀ n, blog_pages text_match db q n
            = take (n * Z.to_nat limit)
                (BlogRoutes.apply_sort (BlogRoutes.q_sort q)
                   (Query.find (BlogRoutes.list_filter text_match q) (db_blogs db)))).
  { clear n. intros n. unfold blog_pages. induction n as [|n IH]; [done|].
    rewrite seq_S, map_app, concat_app, IH. cbn [map List.concat].
    rewrite app_nil_r, (get_blogs_page _ _ _ _ _ Hl Hlim) by lia.
    replace (1 + n - 1)%nat with n by lia.
    rewrite take_take_drop. f_equal. lia. }
  split.
  { intros l HP HS.
    apply (sort_order_unique _ _ _ _ Hkeys HP (apply_sort_Permutation _ _) HS).
    apply apply_sort_in_order. }
  split; [apply Htile|].
  intros p pg Hp Hpg.
  rewrite (get_blogs_page _ _ _ _ _ Hl Hlim Hp).
  unfold BlogRoutes.get_blogs in Hpg. cbv zeta in Hpg.
  cbn [with_page BlogRoutes.q_page BlogRoutes.q_limit BlogRoutes.q_sort] in Hpg.
  rewrite Hl, !parse_or_positive in Hpg by lia.
  change (BlogRoutes.list_filter text_match (with_page (Some (Z.of_nat p)) q))
    with (BlogRoutes.list_filter text_match q) in Hpg.
  destruct (Query.skip_limit _ _ _); [|done].
  injection Hpg as <-. cbn [hasNext pagination].
  set (L := BlogRoutes.apply_sort (BlogRoutes.q_sort q)
              (Query.find (BlogRoutes.list_filter text_match q) (db_blogs db))).
  assert (HL : Query.countDocuments (BlogRoutes.list_filter text_match q) (db_blogs db)
               = Z.of_nat (List.length L)).
  { unfold Query.countDocuments, L. by rewrite apply_sort_length. }
  rewrite HL. split_and!.
  - rewrite length_take. lia.
  - intros H%Z.ltb_lt. rewrite length_take, length_drop. nia.
  - intros H%Z.ltb_ge ->. rewrite Htile. apply take_ge. nia.
Qed.

Lemma blog_pages_tile_witness :
  blog_pages (λ _ _, true) Sample.db
    (BlogRoutes.mkListQuery None (Some 1) None None None None None) 2
  = [(12%N, Sample.travel); (11%N, Sample.post)].
Proof.
  destruct (blog_pages_tile (λ _ _, true) Sample.db
              (BlogRoutes.mkListQuery None (Some 1) None None None None None) 1 2
              eq_refl ltac:(lia)) as (_ & E & _).
  - apply (bool_decide_unpack _). by vm_compute.
  - rewrite E. by vm_compute.
Defined.

(** X18.  The page and the limit of GET /api/blogs at their edges: a page
    that is absent, not a number or 0 is page 1, and such a limit is 10; a
    negative page, with a positive limit, is answered 500 'Server error'. *)
Theorem get_blogs_page_edges text_match db q :
  BlogRoutes.get_blogs text_match db (with_page None q)
  = BlogRoutes.get_blogs text_match db (with_page (Some 1) q)
  ∧ BlogRoutes.get_blogs text_match db (with_page (Some 0) q)
    = BlogRoutes.get_blogs text_match db (with_page (Some 1) q)
  ∧ BlogRoutes.get_blogs text_match db (with_limit None q)
    = BlogRoutes.get_blogs text_match db (with_limit (Some 10) q)
  ∧ BlogRoutes.get_blogs text_match db (with_limit (Some 0) q)
    = BlogRoutes.get_blogs text_match db (with_limit (Some 10) q)
  ∧ (∀ p, p < 0 → 0 < Query.parse_or (BlogRoutes.q_limit q) 10 →
       BlogRoutes.get_blogs text_match db (with_page (Some p) q) = (server_error, db)).
Proof.
  split_and!; try done.
  intros p Hp Hl. unfold BlogRoutes.get_blogs. cbv zeta.
  cbn [with_page BlogRoutes.q_page BlogRoutes.q_limit].
  assert (Query.parse_or (Some p) 1 = p) as ->.
  { unfold Query.parse_or. destruct (Z.eqb_spec p 0); [lia | done]. }
  unfold Query.skip_limit.
  destruct (Z.ltb_spec ((p - 1) * Query.parse_or (BlogRoutes.q_limit q) 10) 0); [done | nia].
Qed.

Lemma get_blogs_page_edges_witness :
  BlogRoutes.get_blogs (λ _ _, true) Sample.db
    (BlogRoutes.mkListQuery (Some (-1)) None None None None None None)
  = (server_error, Sample.db).
Proof.
  destruct (get_blogs_page_edges (λ _ _, true) Sample.db
              (BlogRoutes.mkListQuery None None None None None None None))
    as (_ & _ & _ & _ & H).
  apply (H (-1)); [lia | by vm_compute].
Defined.

(** ** Adding a comment *)

Lemma post_comment_run db token uid u fresh now content blogId blog parent :
  load_user db token = Some (uid, u) →
  CommentRoutes.validate_content (Some content) = [] →
  db_blogs db !! blogId = Some blog →
  (∀ p, parent = Some p → is_Some (db_comments db !! p)) →
  CommentRoutes.post_comment db token fresh now
    (CommentRoutes.mkPostBody (Some content) (Some blogId) parent)
  = (status_json 201
       (CommentResult "Comment added successfully"
          (pair fresh <$>
             comments_after_post db fresh
               (Comment.mk content uid blogId parent [] [] false false None now) !! fresh)),
     mkDb (db_users db)
          (alter (λ b, Blog.set_comments (JS.push (Blog.comments b) fresh) b) blogId
                 (db_blogs db))
          (comments_after_post db fresh
             (Comment.mk content uid blogId parent [] [] false false None now))).
Proof.
  intros Hu Hv Hb Hp. unfold CommentRoutes.post_comment, auth. rewrite Hu.
  cbn [CommentRoutes.pb_content CommentRoutes.pb_blogId CommentRoutes.pb_parentCommentId].
  rewrite Hv, Hb. cbn [app].
  unfold comments_after_post. cbn [Comment.parentComment].
  destruct parent as [p|]; [|done].
  rewrite bool_decide_eq_false_2; [done|].
  destruct (Hp p eq_refl) as [? E]. by rewrite E.
Qed.

(** X19.  What an accepted POST /api/comments stores, the new id being
    unused: the comment under the new id, with the requester as author, the
    blog and the parent of the body, no likes and not deleted; the new id at
    the end of the blog's [comments], so that its comment count is one more;
    for a reply, the new id at the end of the parent's [replies].  The other
    comments, the other blogs and the users are untouched. *)
Theorem post_comment_stores db token uid u fresh now content blogId blog parent :
  load_user db token = Some (uid, u) →
  CommentRoutes.validate_content (Some content) = [] →
  db_blogs db !! blogId = Some blog →
  (∀ p, parent = Some p → is_Some (db_comments db !! p)) →
  db_comments db !! fresh = None →
  ∃ db', CommentRoutes.post_comment db token fresh now
           (CommentRoutes.mkPostBody (Some content) (Some blogId) parent)
         = (status_json 201
              (CommentResult "Comment added successfully"
                 (Some (fresh,
                        Comment.mk content uid blogId parent [] [] false false None now))),
            db')
    ∧ db_comments db' !! fresh
      = Some (Comment.mk content uid blogId parent [] [] false false None now)
    ∧ db_blogs db' !! blogId
      = Some (Blog.set_comments (Blog.comments blog ++ [fresh]) blog)
    ∧ Blog.commentCount (Blog.set_comments (Blog.comments blog ++ [fresh]) blog)
      = Blog.commentCount blog + 1
    ∧ (∀ p pc, parent = Some p → db_comments db !! p = Some pc →
         db_comments db' !! p
         = Some (Comment.set_replies (Comment.replies pc ++ [fresh]) pc))
    ∧ (∀ id, id ≠ fresh → parent ≠ Some id →
         db_comments db' !! id = db_comments db !! id)
    ∧ (∀ id, id ≠ blogId → db_blogs db' !! id = db_blogs db !! id)
    ∧ db_users db' = db_users db.
Proof.
  intros Hu Hv Hb Hp Hfresh.
  rewrite (post_comment_run _ _ _ _ _ _ _ _ _ _ Hu Hv Hb Hp).
  set (c := Comment.mk content uid blogId parent [] [] false false None now).
  assert (Hnew : comments_after_post db fresh c !! fresh = Some c).
  { unfold comments_after_post. cbn [Comment.parentComment c].
    destruct parent as [p|]; [|apply lookup_insert_eq].
    rewrite lookup_alter_ne, lookup_insert_eq; [done|].
    intros ->. destruct (Hp fresh eq_refl) as [? E]. congruence. }
  eexists. split; [by rewrite Hnew|].
  cbn [db_comments db_blogs db_users].
  split_and!.
  - done.
  - by rewrite lookup_alter_eq, Hb.
  - unfold Blog.commentCount. cbn [Blog.comments Blog.set_comments].
    rewrite length_app. cbn [List.length]. lia.
  - intros p pc -> Hpc. unfold comments_after_post. cbn [Comment.parentComment c].
    rewrite lookup_alter_eq, lookup_insert_ne, Hpc; [done|]. congruence.
  - intros id Hne Hnp. unfold comments_after_post. cbn [Comment.parentComment c].
    destruct parent as [p|].
    + rewrite lookup_alter_ne, lookup_insert_ne; [done..|]. congruence.
    + by rewrite lookup_insert_ne.
  - intros id Hne. by rewrite lookup_alter_ne.
  - done.
Qed.

Lemma post_comment_stores_witness :
  ∃ db', (CommentRoutes.post_comment Sample.db (Some 1%N) 30%N 500
            (CommentRoutes.mkPostBody (Some "welcome") (Some 11%N) (Some 20%N))).2 = db'
         ∧ db_blogs db' !! 11%N
           = Some (Blog.set_comments (Blog.comments Sample.post ++ [30%N]) Sample.post).
Proof.
  destruct (post_comment_stores Sample.db (Some 1%N) 1%N Sample.ann 30%N 500 "welcome"
              11%N Sample.post (Some 20%N))
    as (db' & E & _ & Hb & _);
    [by vm_compute | by vm_compute | by vm_compute
     | intros p [= <-]; by vm_compute; eauto | by vm_compute |].
  exists db'. by rewrite E.
Defined.

Lemma skip_limit_all {B} (limit : Z) (l : list B) :
  Z.of_nat (List.length l) ≤ limit →
  Query.skip_limit ((1 - 1) * limit) limit l = Some l.
Proof.
  intros H. unfold Query.skip_limit. simpl.
  rewrite drop_0, take_ge; [done|]. lia.
Qed.

(** X20.  Post, then list.  After an accepted POST /api/comments on a blog,
    the new id being unused, the first page of
    GET /api/comments/blog/:blogId for that blog shows the new comment,
    provided the limit covers the top-level comments of the blog: as a
    top-level comment when the body names no parent, and among the replies of
    its parent when the parent is a top-level comment of that blog that is
    not deleted. *)
Theorem posted_comment_listed db token uid u fresh now content blogId blog parent limit :
  load_user db token = Some (uid, u) →
  CommentRoutes.validate_content (Some content) = [] →
  db_blogs db !! blogId = Some blog →
  db_comments db !! fresh = None →
  (∀ p, parent = Some p →
     ∃ pc, db_comments db !! p = Some pc
           ∧ CommentRoutes.top_level_of blogId pc = true) →
  Query.countDocuments (CommentRoutes.top_level_of blogId)
    (db_comments (CommentRoutes.post_comment db token fresh now
                    (CommentRoutes.mkPostBody (Some content) (Some blogId) parent)).2)
  ≤ limit →
  0 < limit →
  fresh ∈ listed_ids
            (CommentRoutes.get_blog_comments
               (CommentRoutes.post_comment db token fresh now
                  (CommentRoutes.mkPostBody (Some content) (Some blogId) parent)).2
               blogId (Some 1) (Some limit)).1.
Proof.
  intros Hu Hv Hb Hfresh Hparent Hcount Hlimit.
  assert (Hp : ∀ p, parent = Some p → is_Some (db_comments db !! p)).
  { intros p E. destruct (Hparent p E) as (pc & -> & _). eauto. }
  rewrite (post_comment_run _ _ _ _ fresh now _ _ _ _ Hu Hv Hb Hp) in *.
  cbn [snd] in *.
  set (c := Comment.mk content uid blogId parent [] [] false false None now) in *.
  set (db' := mkDb (db_users db)
                (alter (λ b, Blog.set_comments (JS.push (Blog.comments b) fresh) b) blogId
                       (db_blogs db))
                (comments_after_post db fresh c)) in *.
  assert (Hnew : db_comments db' !! fresh = Some c).
  { cbn [db' db_comments]. unfold comments_after_post. cbn [Comment.parentComment c].
    destruct parent as [p|]; [|apply lookup_insert_eq].
    rewrite lookup_alter_ne, lookup_insert_eq; [done|].
    intros ->. destruct (Hp fresh eq_refl) as [? E]. congruence. }
  assert (Hpar : ∀ p pc, parent = Some p → db_comments db !! p = Some pc →
                 db_comments db' !! p
                 = Some (Comment.set_replies (Comment.replies pc ++ [fresh]) pc)).
  { intros p pc Ep Hpc. cbn [db' db_comments]. unfold comments_after_post.
    cbn [Comment.parentComment c]. rewrite Ep.
    rewrite lookup_alter_eq, lookup_insert_ne, Hpc; [done|]. congruence. }
  unfold CommentRoutes.get_blog_comments. cbv zeta.
  rewrite !parse_or_positive by lia.
  rewrite skip_limit_all;
    [|unfold Query.sort_desc; by rewrite merge_sort_Permutation].
  cbn [fst listed_ids res_body json].
  rewrite list_elem_of_In, in_flat_map.
  destruct parent as [p|].
  - destruct (Hparent p eq_refl) as (pc & Hpc & Htop).
    pose proof (Hpar p pc eq_refl Hpc) as Hpc'.
    exists (mkCommentView p (Comment.set_replies (Comment.replies pc ++ [fresh]) pc)
              (CommentRoutes.populate_replies db'
                 (Comment.set_replies (Comment.replies pc ++ [fresh]) pc))).
    split.
    + apply in_map_iff.
      exists (p, Comment.set_replies (Comment.replies pc ++ [fresh]) pc).
      split; [done|]. apply list_elem_of_In, sort_desc_elem, find_elem. done.
    + cbn [cv_id cv_replies]. right. apply in_map_iff.
      exists (fresh, Comment.mk content uid blogId (Some p) [] [] false false None now).
      split; [done|]. apply list_elem_of_In.
      unfold CommentRoutes.populate_replies. apply list_elem_of_omap.
      exists fresh. split.
      * cbn [Comment.replies Comment.set_replies]. apply elem_of_app. right. by left.
      * by rewrite Hnew.
  - exists (mkCommentView fresh
              (Comment.mk content uid blogId None [] [] false false None now)
              (CommentRoutes.populate_replies db'
                 (Comment.mk content uid blogId None [] [] false false None now))).
    split; [|by left].
    apply in_map_iff.
    exists (fresh, Comment.mk content uid blogId None [] [] false false None now).
    split; [done|]. apply list_elem_of_In, sort_desc_elem, find_elem.
    split; [done|]. unfold CommentRoutes.top_level_of. cbn.
    by rewrite !bool_decide_eq_true_2.
Qed.

Lemma posted_comment_listed_witness :
  30%N ∈ listed_ids
           (CommentRoutes.get_blog_comments
              (CommentRoutes.post_comment Sample.db (Some 1%N) 30%N 500
                 (CommentRoutes.mkPostBody (Some "welcome") (Some 11%N) (Some 20%N))).2
              11%N (Some 1) (Some 20)).1.
Proof.
  apply (posted_comment_listed Sample.db (Some 1%N) 1%N Sample.ann 30%N 500 "welcome"
           11%N Sample.post (Some 20%N) 20);
    [by vm_compute | by vm_compute | by vm_compute | by vm_compute
     | intros p [= <-]; exists Sample.c20; split; by vm_compute
     | by vm_compute | lia].
Defined.

(** X21.  For a signed-in user, the refusals of PUT /api/comments/:id
    come in this order and change nothing: 400 when the content is absent,
    empty or longer than 1000, even if no comment has the id; then 404 when
    no comment has the id. *)
Theorem put_comment_refusals db token now id content :
  is_Some (load_user db token) →
  ((default "" content = "" ∨ 1000 < JS.length (default "" content)) →
   res_status (CommentRoutes.put_comment db token now id content).1 = 400
   ∧ (CommentRoutes.put_comment db token now id content).2 = db)
  ∧ (default "" content ≠ "" → JS.length (default "" content) ≤ 1000 →
     db_comments db !! id = None →
     CommentRoutes.put_comment db token now id content
     = (status_json 404 (Message "Comment not found"), db)).
Proof.
  unfold CommentRoutes.put_comment, auth, CommentRoutes.validate_content.
  cbv zeta. intros [[uid u] ->]. split.
  - intros H.
    destruct (String.eqb_spec (default "" content) "") as [E|E].
    + by destruct (1000 <? _).
    + destruct H as [H|H]; [done|].
      destruct (Z.ltb_spec 1000 (JS.length (default "" content))); [done | lia].
  - intros Hne Hlen Hid.
    destruct (String.eqb_spec (default "" content) ""); [done|].
    destruct (Z.ltb_spec 1000 (JS.length (default "" content))); [lia|].
    cbn [app]. by rewrite Hid.
Qed.

Lemma put_comment_refusals_witness :
  res_status (CommentRoutes.put_comment Sample.db (Some 1%N) 700 99%N (Some "")).1 = 400
  ∧ CommentRoutes.put_comment Sample.db (Some 1%N) 700 99%N (Some "text")
    = (status_json 404 (Message "Comment not found"), Sample.db).
Proof.
  split.
  - apply (put_comment_refusals Sample.db (Some 1%N) 700 99%N (Some ""));
      [by vm_compute; eauto | by left].
  - apply (put_comment_refusals Sample.db (Some 1%N) 700 99%N (Some "text"));
      [by vm_compute; eauto | done | by vm_compute | by vm_compute].
Defined.

(** ** Following *)

Lemma follow_run db token u ud v vd :
  load_user db token = Some (u, ud) →
  db_users db !! v = Some vd →
  u ≠ v →
  UserRoutes.follow db token v
  = if bool_decide (v ∈ User.following ud)
    then (json (FollowResult "User unfollowed" false),
          with_users
            (<[v := User.set_followers
                      (List.filter (λ x, bool_decide (x ≠ u)) (User.followers vd)) vd]>
               (<[u := User.set_following
                         (List.filter (λ x, bool_decide (x ≠ v)) (User.following ud)) ud]>
                  (db_users db))) db)
    else (json (FollowResult "User followed" true),
          with_users
            (<[v := User.set_followers (User.followers vd ++ [u]) vd]>
               (<[u := User.set_following (User.following ud ++ [v]) ud]>
                  (db_users db))) db).
Proof.
  intros Hu Hv Hne. unfold UserRoutes.follow, auth. rewrite Hu, Hv.
  rewrite (bool_decide_eq_false_2 (v = u)) by congruence.
  cbv zeta. rewrite includes_elem_of. by case_bool_decide.
Qed.

Lemma load_user_Some db token u ud :
  load_user db token = Some (u, ud) → token = Some u ∧ db_users db !! u = Some ud.
Proof.
  unfold load_user. destruct token as [t|]; [|done]. simpl.
  destruct (db_users db !! t) eqn:E; [|done]. simpl. intros [= <- <-]. done.
Qed.

Lemma filter_ne_absent (l : list ObjectId) x :
  x ∉ l → List.filter (λ y, bool_decide (y ≠ x)) l = l.
Proof.
  induction l as [|y l IH]; [done|]. intros [Hne Hl]%not_elem_of_cons. simpl.
  rewrite bool_decide_eq_true_2 by congruence. by rewrite IH.
Qed.

Lemma filter_ne_push (l : list ObjectId) x :
  x ∉ l → List.filter (λ y, bool_decide (y ≠ x)) (l ++ [x]) = l.
Proof.
  intros H. rewrite List.filter_app, (filter_ne_absent _ _ H). simpl.
  rewrite bool_decide_eq_false_2 by (by intros ?). apply app_nil_r.
Qed.

Lemma elem_of_filter_ne (l : list ObjectId) x y :
  y ∈ List.filter (λ z, bool_decide (z ≠ x)) l ↔ y ∈ l ∧ y ≠ x.
Proof.
  rewrite !list_elem_of_In, filter_In. by rewrite bool_decide_eq_true.
Qed.

(** X22.  For a signed-in user, POST /api/users/:id/follow refuses and
    changes nothing: with 404 'User not found' when no user has the id, and
    with 400 'You cannot follow yourself' when the id is the requester's
    own. *)
Theorem follow_refusals db token uid u id :
  load_user db token = Some (uid, u) →
  (db_users db !! id = None →
   UserRoutes.follow db token id = (status_json 404 (Message "User not found"), db))
  ∧ (id = uid →
     UserRoutes.follow db token id
     = (status_json 400 (Message "You cannot follow yourself"), db)).
Proof.
  intros Hu. unfold UserRoutes.follow, auth. rewrite Hu. split.
  - by intros ->.
  - intros ->. apply load_user_Some in Hu as [_ ->].
    by rewrite bool_decide_eq_true_2.
Qed.

Lemma follow_refusals_witness :
  UserRoutes.follow Sample.db (Some 1%N) 1%N
  = (status_json 400 (Message "You cannot follow yourself"), Sample.db)
  ∧ UserRoutes.follow Sample.db (Some 1%N) 99%N
    = (status_json 404 (Message "User not found"), Sample.db).
Proof.
  split.
  - apply (follow_refusals Sample.db (Some 1%N) 1%N Sample.ann 1%N); [by vm_compute | done].
  - apply (follow_refusals Sample.db (Some 1%N) 1%N Sample.ann 99%N);
      [by vm_compute | by vm_compute].
Defined.

(** X23.  Follow, then unfollow: when [u] does not follow [v] and is not
    among the followers of [v], two calls of POST /api/users/:id/follow by
    [u] on [v] give back the database as it was; the first answers
    [isFollowing = true] and the second [isFollowing = false]. *)
Theorem follow_then_unfollow db token u ud v vd :
  load_user db token = Some (u, ud) →
  db_users db !! v = Some vd →
  u ≠ v →
  v ∉ User.following ud →
  u ∉ User.followers vd →
  UserRoutes.follow db token v
  = (json (FollowResult "User followed" true), (UserRoutes.follow db token v).2)
  ∧ UserRoutes.follow (UserRoutes.follow db token v).2 token v
    = (json (FollowResult "User unfollowed" false), db).
Proof.
  intros Hu Hv Hne Hf Hf'.
  destruct (load_user_Some _ _ _ _ Hu) as [-> Hud].
  rewrite (follow_run _ _ _ _ _ _ Hu Hv Hne), (bool_decide_eq_false_2 _ Hf).
  split; [done|]. cbn [snd].
  erewrite follow_run; [| |by apply lookup_insert_eq|done].
  2:{ unfold load_user. cbn [mbind option_bind db_users with_users].
      rewrite lookup_insert_ne, lookup_insert_eq by congruence. done. }
  cbn [User.following User.followers User.set_following User.set_followers].
  rewrite bool_decide_eq_true_2
    by (apply elem_of_app; right; by apply list_elem_of_singleton).
  rewrite (filter_ne_push _ _ Hf), (filter_ne_push _ _ Hf').
  f_equal. cbn [db_users with_users].
  rewrite (insert_insert_ne _ u v) by congruence.
  rewrite !insert_insert_eq.
  assert (User.set_following (User.following ud)
            (User.set_following (User.following ud ++ [v]) ud) = ud) as -> by (by destruct ud).
  assert (User.set_followers (User.followers vd)
            (User.set_followers (User.followers vd ++ [u]) vd) = vd) as -> by (by destruct vd).
  rewrite (insert_id _ _ _ Hud), (insert_id _ _ _ Hv). by destruct db.
Qed.

Lemma follow_then_unfollow_witness :
  (UserRoutes.follow (UserRoutes.follow Sample.db (Some 3%N) 2%N).2 (Some 3%N) 2%N).2
  = Sample.db.
Proof.
  destruct (follow_then_unfollow Sample.db (Some 3%N) 3%N Sample.cat 2%N Sample.bob)
    as [_ E];
    [by vm_compute | by vm_compute | done
     | apply (bool_decide_unpack _); by vm_compute | apply not_elem_of_nil |].
  by rewrite E.
Defined.

Lemma NoDup_filter_bool {A} (f : A → bool) (l : list A) :
  NoDup l → NoDup (List.filter f l).
Proof.
  induction 1 as [|x l Hx Hl IH]; simpl; [constructor|].
  destruct (f x); [|done]. constructor; [|done].
  rewrite list_elem_of_In, filter_In, <-list_elem_of_In. tauto.
Qed.

Lemma follow_users_lookup (M : gmap N User.doc) u v ud' vd' x xd :
  u ≠ v →
  <[v := vd']> (<[u := ud']> M) !! x = Some xd →
  (x = v ∧ xd = vd') ∨ (x = u ∧ x ≠ v ∧ xd = ud') ∨ (x ≠ u ∧ x ≠ v ∧ M !! x = Some xd).
Proof.
  intros Hne. rewrite lookup_insert. case_decide as E1.
  - intros [= <-]. left. done.
  - rewrite lookup_insert. case_decide as E2.
    + intros [= <-]. right. left. split_and!; congruence.
    + intros H. right. right. split_and!; congruence.
Qed.

Lemma follow_graph_update db u v ud vd F G :
  db_users db !! u = Some ud →
  db_users db !! v = Some vd →
  u ≠ v →
  follow_graph db →
  (∀ y, y ≠ v → y ∈ F ↔ y ∈ User.following ud) →
  (∀ x, x ≠ u → x ∈ G ↔ x ∈ User.followers vd) →
  (v ∈ F ↔ u ∈ G) →
  follow_graph
    (with_users (<[v := User.set_followers G vd]>
                   (<[u := User.set_following F ud]> (db_users db))) db).
Proof.
  intros Hu Hv Hne Hg HF HG HFG. unfold follow_graph. cbn [db_users with_users].
  apply map_Forall_lookup. intros x xd Hx. apply map_Forall_lookup. intros y yd Hy.
  assert (Hold : ∀ a ad b bd, db_users db !! a = Some ad → db_users db !! b = Some bd →
                 b ∈ User.following ad ↔ a ∈ User.followers bd).
  { intros a ad b bd Ha Hb. exact (Hg a ad Ha b bd Hb). }
  destruct (follow_users_lookup _ _ _ _ _ _ _ Hne Hx)
    as [[-> ->]|[(-> & Hxv & ->)|(Hxu & Hxv & Hx0)]];
  destruct (follow_users_lookup _ _ _ _ _ _ _ Hne Hy)
    as [[-> ->]|[(-> & Hyv & ->)|(Hyu & Hyv & Hy0)]];
  cbn [User.following User.followers User.set_following User.set_followers].
  - rewrite (HG v) by congruence. by apply Hold.
  - by apply Hold.
  - by apply Hold.
  - done.
  - rewrite (HF u) by congruence. by apply Hold.
  - rewrite (HF y) by congruence. by apply Hold.
  - rewrite (HG x) by congruence. by apply Hold.
  - by apply Hold.
  - by apply Hold.
Qed.

Lemma follow_unique_update db u v ud vd F G :
  db_users db !! u = Some ud →
  db_users db !! v = Some vd →
  u ≠ v →
  follow_unique db →
  NoDup F → NoDup G →
  follow_unique
    (with_users (<[v := User.set_followers G vd]>
                   (<[u := User.set_following F ud]> (db_users db))) db).
Proof.
  intros Hu Hv Hne Hq HF HG. unfold follow_unique. cbn [db_users with_users].
  apply map_Forall_lookup. intros x xd Hx.
  destruct (follow_users_lookup _ _ _ _ _ _ _ Hne Hx)
    as [[-> ->]|[(-> & Hxv & ->)|(Hxu & Hxv & Hx0)]];
  cbn [User.following User.followers User.set_following User.set_followers].
  - split; [exact (proj1 (Hq v vd Hv)) | done].
  - split; [done | exact (proj2 (Hq u ud Hu))].
  - exact (Hq x xd Hx0).
Qed.

(** X24.  POST /api/users/:id/follow keeps the follow relation sound for
    all the users together: if, across the stored users, [y] is in the
    [following] of [x] exactly when [x] is in the [followers] of [y], and no
    such array holds an id twice, then the same is true after the call,
    whoever calls it and on whatever id. *)
Theorem follow_keeps_graph db token id :
  follow_graph db → follow_unique db →
  follow_graph (UserRoutes.follow db token id).2
  ∧ follow_unique (UserRoutes.follow db token id).2.
Proof.
  intros Hg Hq.
  destruct (load_user db token) as [[u ud]|] eqn:Hu;
    [|unfold UserRoutes.follow, auth; by rewrite Hu].
  destruct (db_users db !! id) as [vd|] eqn:Hv;
    [|unfold UserRoutes.follow, auth; by rewrite Hu, Hv].
  destruct (decide (id = u)) as [->|Hne].
  { unfold UserRoutes.follow, auth. rewrite Hu, Hv.
    by rewrite bool_decide_eq_true_2. }
  destruct (load_user_Some _ _ _ _ Hu) as [_ Hud].
  assert (Hcons : id ∈ User.following ud ↔ u ∈ User.followers vd)
    by exact (Hg u ud Hud id vd Hv).
  destruct (Hq u ud Hud) as [Hnf _]. destruct (Hq id vd Hv) as [_ Hng].
  rewrite (follow_run _ _ _ _ _ _ Hu Hv ltac:(congruence)).
  case_bool_decide as Hf; cbn [snd].
  - split.
    + apply follow_graph_update; try done; try congruence.
      * intros y Hy. rewrite elem_of_filter_ne. tauto.
      * intros x Hx. rewrite elem_of_filter_ne. tauto.
      * rewrite !elem_of_filter_ne. tauto.
    + apply follow_unique_update; try done; try congruence;
        by apply NoDup_filter_bool.
  - assert (Hf' : u ∉ User.followers vd) by tauto.
    split.
    + apply follow_graph_update; try done; try congruence.
      * intros y Hy. rewrite elem_of_app, list_elem_of_singleton. tauto.
      * intros x Hx. rewrite elem_of_app, list_elem_of_singleton. tauto.
      * rewrite !elem_of_app, !list_elem_of_singleton. tauto.
    + apply follow_unique_update; try done; try congruence.
      * apply NoDup_app. split_and!; [done | | apply NoDup_singleton].
        intros y Hy ->%list_elem_of_singleton. done.
      * apply NoDup_app. split_and!; [done | | apply NoDup_singleton].
        intros y Hy ->%list_elem_of_singleton. done.
Qed.

Lemma sample_follow_graph : follow_graph Sample.db ∧ follow_unique Sample.db.
Proof. split; apply (bool_decide_unpack _); by vm_compute. Defined.

Lemma follow_keeps_graph_witness :
  follow_graph (UserRoutes.follow Sample.db (Some 2%N) 3%N).2
  ∧ follow_unique (UserRoutes.follow Sample.db (Some 2%N) 3%N).2.
Proof.
  apply (follow_keeps_graph Sample.db (Some 2%N) 3%N); apply sample_follow_graph.
Defined.

(** ** The profile *)

Lemma populate_length_le db ids :
  (List.length (UserProfileRoute.populate db ids) ≤ List.length ids)%nat.
Proof.
  unfold UserProfileRoute.populate, omap. induction ids as [|i ids IH]; simpl; [done|].
  destruct (db_users db !! i); simpl; lia.
Qed.

Lemma populate_length_all db ids :
  (∀ i, i ∈ ids → is_Some (db_users db !! i)) →
  List.length (UserProfileRoute.populate db ids) = List.length ids.
Proof.
  unfold UserProfileRoute.populate, omap. induction ids as [|i ids IH]; simpl; [done|].
  intros H. destruct (H i ltac:(by left)) as [x ->]. simpl.
  rewrite IH; [done|]. intros j Hj. apply H. by right.
Qed.

Lemma populate_existsb db ids uid :
  is_Some (db_users db !! uid) →
  existsb (λ follower : ObjectId * User.doc, bool_decide (follower.1 = uid))
          (UserProfileRoute.populate db ids)
  = bool_decide (uid ∈ ids).
Proof.
  intros [x Hx]. unfold UserProfileRoute.populate, omap.
  induction ids as [|i ids IH]; simpl; [done|].
  destruct (decide (i = uid)) as [->|Hne].
  - rewrite Hx. simpl. rewrite !bool_decide_eq_true_2; [done | by left | done].
  - assert (bool_decide (uid ∈ i :: ids) = bool_decide (uid ∈ ids)) as ->.
    { apply bool_decide_ext. rewrite elem_of_cons. split; [intros [?|?]|]; auto.
      congruence. }
    destruct (db_users db !! i); simpl; [|done].
    by rewrite bool_decide_eq_false_2.
Qed.

(** X25.  GET /api/users/:id answers 404 when no user has the id.  For a
    stored user it answers 200 with the user's document; [isFollowing] is
    true exactly when the requester is signed in and their id is in the
    user's [followers]; [followerCount] counts the followers whose document
    exists, so it is at most the length of [followers] and equal to it when
    every follower is a stored user. *)
Theorem profile_follow_fields db token id :
  (db_users db !! id = None → UserProfileRoute.get_user db token id = (404, None))
  ∧ (∀ user, db_users db !! id = Some user →
     ∃ p, UserProfileRoute.get_user db token id = (200, Some p)
          ∧ UserProfileRoute.pr_user p = user
          ∧ (UserProfileRoute.isFollowing p = true ↔
             ∃ uid u, load_user db token = Some (uid, u) ∧ uid ∈ User.followers user)
          ∧ UserProfileRoute.followerCount p ≤ Z.of_nat (List.length (User.followers user))
          ∧ ((∀ f, f ∈ User.followers user → is_Some (db_users db !! f)) →
             UserProfileRoute.followerCount p
             = Z.of_nat (List.length (User.followers user)))).
Proof.
  unfold UserProfileRoute.get_user. split.
  - by intros ->.
  - intros user ->. cbv zeta. eexists. split; [done|].
    cbn [UserProfileRoute.pr_user UserProfileRoute.isFollowing
         UserProfileRoute.followerCount].
    split; [done|]. split; [|split].
    + unfold optionalAuth. destruct (load_user db token) as [[uid u]|] eqn:Hu.
      * destruct (load_user_Some _ _ _ _ Hu) as [_ Hud].
        rewrite populate_existsb by eauto. rewrite bool_decide_eq_true.
        split; [intros H; by exists uid, u | by intros (? & ? & [= <- <-] & H)].
      * split; [done | by intros (? & ? & ? & _)].
    + pose proof (populate_length_le db (User.followers user)). lia.
    + intros H. by rewrite populate_length_all.
Qed.

Lemma profile_follow_fields_witness :
  ∃ p, UserProfileRoute.get_user Sample.db (Some 1%N) 4%N = (200, Some p)
       ∧ UserProfileRoute.isFollowing p = true
       ∧ UserProfileRoute.followerCount p = 3.
Proof.
  destruct (proj2 (profile_follow_fields Sample.db (Some 1%N) 4%N) Sample.dan)
    as (p & E & _ & Hf & _ & Hc); [by vm_compute|].
  exists p. split; [done|]. split.
  - apply Hf. exists 1%N, Sample.ann. split; [by vm_compute|].
    apply (bool_decide_unpack _). by vm_compute.
  - rewrite Hc; [done|]. intros f Hf'.
    apply elem_of_cons in Hf' as [->|Hf']; [by vm_compute; eauto|].
    apply elem_of_cons in Hf' as [->|Hf']; [by vm_compute; eauto|].
    apply elem_of_cons in Hf' as [->|Hf']; [by vm_compute; eauto|].
    by apply elem_of_nil in Hf'.
Defined.

Lemma populate_length_same db db' ids :
  (∀ i, is_Some (db_users db' !! i) ↔ is_Some (db_users db !! i)) →
  List.length (UserProfileRoute.populate db' ids)
  = List.length (UserProfileRoute.populate db ids).
Proof.
  intros H. unfold UserProfileRoute.populate, omap.
  induction ids as [|i ids IH]; simpl; [done|].
  destruct (db_users db' !! i) eqn:E1, (db_users db !! i) eqn:E2; simpl;
    try (by rewrite IH).
  - assert (is_Some (db_users db !! i)) as [? ?] by (apply H; eauto). congruence.
  - assert (is_Some (db_users db' !! i)) as [? ?] by (apply H; eauto). congruence.
Qed.

(** X26.  Follow, then look at the profile: after [u] has followed [v]
    through POST /api/users/:id/follow, GET /api/users/:id on [v] by [u]
    shows [isFollowing = true] and a [followerCount] one more than before. *)
Theorem follow_shows_in_profile db token u ud v vd :
  load_user db token = Some (u, ud) →
  db_users db !! v = Some vd →
  u ≠ v →
  v ∉ User.following ud →
  ∃ p p', UserProfileRoute.get_user db token v = (200, Some p)
          ∧ UserProfileRoute.get_user (UserRoutes.follow db token v).2 token v
            = (200, Some p')
          ∧ UserProfileRoute.isFollowing p' = true
          ∧ UserProfileRoute.followerCount p' = UserProfileRoute.followerCount p + 1.
Proof.
  intros Hu Hv Hne Hf.
  destruct (load_user_Some _ _ _ _ Hu) as [-> Hud].
  rewrite (follow_run _ _ _ _ _ _ Hu Hv Hne), (bool_decide_eq_false_2 _ Hf). cbn [snd].
  set (db' := with_users _ db).
  assert (Hdom : ∀ i, is_Some (db_users db' !! i) ↔ is_Some (db_users db !! i)).
  { intros i. cbn [db' db_users with_users]. rewrite !lookup_insert.
    repeat case_decide; subst; split; eauto. }
  assert (Hu' : load_user db' (Some u)
                = Some (u, User.set_following (User.following ud ++ [v]) ud)).
  { unfold load_user. cbn [mbind option_bind db' db_users with_users].
    rewrite lookup_insert_ne, lookup_insert_eq by congruence. done. }
  unfold UserProfileRoute.get_user, optionalAuth. rewrite Hv, Hu, Hu'.
  cbn [db' db_users with_users]. rewrite lookup_insert_eq. cbv zeta.
  do 2 eexists. split; [done|]. split; [done|].
  cbn [UserProfileRoute.isFollowing UserProfileRoute.followerCount
       User.followers User.set_followers].
  fold db'. split.
  - rewrite populate_existsb.
    + apply bool_decide_eq_true_2, elem_of_app. right. by apply list_elem_of_singleton.
    + apply Hdom. eauto.
  - rewrite <-(populate_length_same db db' (User.followers vd) Hdom).
    unfold UserProfileRoute.populate. rewrite omap_app, length_app.
    cbn [omap list_omap]. destruct (proj2 (Hdom u) ltac:(eauto)) as [x ->].
    cbn. lia.
Qed.

Lemma follow_shows_in_profile_witness :
  ∃ p', UserProfileRoute.get_user (UserRoutes.follow Sample.db (Some 3%N) 2%N).2
          (Some 3%N) 2%N = (200, Some p')
        ∧ UserProfileRoute.isFollowing p' = true.
Proof.
  destruct (follow_shows_in_profile Sample.db (Some 3%N) 3%N Sample.cat 2%N Sample.bob)
    as (p & p' & _ & E & Hf & _);
    [by vm_compute | by vm_compute | done | apply (bool_decide_unpack _); by vm_compute |].
  by exists p'.
Defined.

(** ** Categories and tags *)

(** What the handlers of ['/categories'] and ['/tags'] compute: the
    categories and the tags of all the stored blogs, each once. *)
Lemma distinct_categories_and_tags db :
  NoDup (BlogMeta.get_categories db)
  ∧ (∀ c, c ∈ BlogMeta.get_categories db ↔
          ∃ id b, db_blogs db !! id = Some b ∧ Blog.category b = c)
  ∧ NoDup (BlogMeta.get_tags db)
  ∧ (∀ t, t ∈ BlogMeta.get_tags db ↔
          ∃ id b, db_blogs db !! id = Some b ∧ t ∈ Blog.tags b).
Proof.
  unfold BlogMeta.get_categories, BlogMeta.get_tags, BlogMeta.distinct.
  split_and!.
  - apply NoDup_remove_dups.
  - intros c. rewrite elem_of_remove_dups, list_elem_of_In, in_map_iff. split.
    + intros ([id b] & <- & H). apply list_elem_of_In, elem_of_map_to_list in H.
      by exists id, b.
    + intros (id & b & H & <-). exists (id, b). split; [done|].
      by apply list_elem_of_In, elem_of_map_to_list.
  - apply NoDup_remove_dups.
  - intros t. rewrite elem_of_remove_dups, list_elem_of_In, in_flat_map. split.
    + intros ([id b] & H & Ht). apply list_elem_of_In, elem_of_map_to_list in H.
      exists id, b. split; [done|]. by apply list_elem_of_In.
    + intros (id & b & H & Ht). exists (id, b). split.
      * by apply list_elem_of_In, elem_of_map_to_list.
      * by apply list_elem_of_In.
Qed.

Lemma dispatch_one_segment seg :
  seg ≠ "" → BlogRouter.dispatch [seg] = Some (BlogRouter.blog_by_id, [seg]).
Proof.
  intros H. unfold BlogRouter.dispatch, BlogRouter.get_routes.
  cbn [BlogRouter.first_match BlogRouter.match_path].
  by destruct (String.eqb_spec seg "").
Qed.

Lemma match_path_lit_param s path params :
  BlogRouter.lower s ≠ "" →
  BlogRouter.match_path [BlogRouter.lit s] path = Some params →
  is_Some (BlogRouter.match_path [BlogRouter.param] path).
Proof.
  intros Hs. destruct path as [|seg [|b path]]; cbn [BlogRouter.match_path]; [done| |].
  - destruct (String.eqb_spec (BlogRouter.lower s) (BlogRouter.lower seg)) as [E|E]; [|done].
    intros _. destruct (String.eqb_spec seg "") as [->|Hne]; [|by eexists].
    by destruct Hs.
  - by destruct (String.eqb _ _).
Qed.

(** X27.  The handlers of GET /api/blogs/categories and GET /api/blogs/tags
    are never reached: the route ['/:id'], registered before them, takes
    every path of one segment.  So no GET request to the blog router is
    answered with a list of categories or tags, and these two paths, whose
    segment is no id, are answered 500 'Server error' by the handler of
    ['/:id'], with nothing written. *)
Theorem categories_and_tags_shadowed castObjectId text_match db token q :
  (∀ s i, castObjectId s = Some i →
     String.length s = 12%nat ∨ String.length s = 24%nat) →
  (∀ path h params, BlogRouter.dispatch path = Some (h, params) →
     h ≠ BlogRouter.categories ∧ h ≠ BlogRouter.tags)
  ∧ (∀ path l, BlogRouter.get castObjectId text_match db token q path ≠ Some (inr l))
  ∧ BlogRouter.get castObjectId text_match db token q ["categories"]
    = Some (inl (server_error, db))
  ∧ BlogRouter.get castObjectId text_match db token q ["tags"]
    = Some (inl (server_error, db)).
Proof.
  intros Hcast.
  assert (Hd : ∀ path h params, BlogRouter.dispatch path = Some (h, params) →
                 h ≠ BlogRouter.categories ∧ h ≠ BlogRouter.tags).
  { intros path h params. unfold BlogRouter.dispatch, BlogRouter.get_routes.
    cbn [BlogRouter.first_match].
    destruct (BlogRouter.match_path [] path); [by intros [= <- <-]|].
    destruct (BlogRouter.match_path [BlogRouter.param] path) eqn:E1;
      [by intros [= <- <-]|].
    destruct (BlogRouter.match_path [BlogRouter.lit "user"; BlogRouter.param] path);
      [by intros [= <- <-]|].
    destruct (BlogRouter.match_path [BlogRouter.lit "categories"] path) eqn:E3.
    { apply match_path_lit_param in E3 as [? E3]; [congruence | by vm_compute]. }
    destruct (BlogRouter.match_path [BlogRouter.lit "tags"] path) eqn:E4; [|done].
    apply match_path_lit_param in E4 as [? E4]; [congruence | by vm_compute]. }
  assert (Hnone : ∀ s, String.length s ≠ 12%nat → String.length s ≠ 24%nat →
                       castObjectId s = None).
  { intros s H12 H24. destruct (castObjectId s) as [i|] eqn:E; [|done].
    destruct (Hcast s i E); done. }
  split_and!.
  - exact Hd.
  - intros path l. unfold BlogRouter.get.
    destruct (BlogRouter.dispatch path) as [[h params]|] eqn:E; [|done].
    destruct (Hd _ _ _ E) as [Hc Ht].
    destruct h; try done; by destruct params as [|? [|? ?]].
  - unfold BlogRouter.get. rewrite dispatch_one_segment by done.
    by rewrite Hnone.
  - unfold BlogRouter.get. rewrite dispatch_one_segment by done.
    by rewrite Hnone.
Qed.

Lemma categories_and_tags_shadowed_witness :
  BlogRouter.get BlogRouter.hexObjectId (λ _ _, true) Sample.db None
    (BlogRoutes.mkListQuery None None None None None None None) ["categories"]
  = Some (inl (server_error, Sample.db)).
Proof.
  apply (categories_and_tags_shadowed BlogRouter.hexObjectId).
  intros s i. unfold BlogRouter.hexObjectId.
  destruct (Nat.eqb_spec (String.length s) 24); [by right | done].
Defined.

(** ** The blog slice of the client *)

Lemma findIndex_absent id l :
  BlogSlice.findIndex id l = -1 ↔ ∀ x, x ∈ l → BlogSlice._id x ≠ id.
Proof.
  induction l as [|y l IH]; simpl.
  - split; [by intros _ x ?%elem_of_nil | done].
  - destruct (decide (BlogSlice._id y = id)) as [E|E].
    + split; [done|]. intros H. destruct (H y ltac:(by left) E).
    + assert (Hlow : -1 ≤ BlogSlice.findIndex id l).
      { clear. induction l as [|z l IH]; simpl; [lia|].
        destruct (decide _); [lia|]. destruct (decide _); lia. }
      destruct (decide (BlogSlice.findIndex id l = -1)) as [E'|E'].
      * split; [|done]. intros _ x [->|Hx]%elem_of_cons; [done|]. by apply IH.
      * split; [lia|]. intros Hall. destruct E'. apply IH.
        intros x Hx. apply Hall. by right.
Qed.

Lemma findIndex_found id l :
  BlogSlice.findIndex id l ≠ -1 →
  ∃ l1 x l2, l = l1 ++ x :: l2 ∧ BlogSlice._id x = id
             ∧ (∀ y, y ∈ l1 → BlogSlice._id y ≠ id)
             ∧ BlogSlice.findIndex id l = Z.of_nat (List.length l1).
Proof.
  induction l as [|y l IH]; simpl; [done|].
  destruct (decide (BlogSlice._id y = id)) as [E|E].
  - intros _. exists [], y, l. split_and!; try done. by intros ? ?%elem_of_nil.
  - destruct (decide (BlogSlice.findIndex id l = -1)) as [E'|E']; [done|].
    intros _. destruct (IH E') as (l1 & x & l2 & -> & Hx & Hl1 & Hi).
    exists (y :: l1), x, l2. split_and!; try done.
    + intros z [->|Hz]%elem_of_cons; [done | by apply Hl1].
    + rewrite Hi. simpl List.length. lia.
Qed.

Lemma alter_middle {A} (f : A → A) (l1 l2 : list A) x :
  alter f (List.length l1) (l1 ++ x :: l2) = l1 ++ f x :: l2.
Proof. induction l1 as [|y l1 IH]; simpl; [done | f_equal; exact IH]. Qed.

Lemma insert_middle {A} (l1 l2 : list A) x y :
  <[List.length l1 := y]> (l1 ++ x :: l2) = l1 ++ y :: l2.
Proof. induction l1 as [|z l1 IH]; simpl; [done | f_equal; exact IH]. Qed.

Lemma like_fulfilled_blogs id n il s :
  BlogSlice.blogs (BlogSlice.like_fulfilled id n il s)
  = if decide (BlogSlice.findIndex id (BlogSlice.blogs s) = -1) then BlogSlice.blogs s
    else alter (BlogSlice.set_like n il)
               (Z.to_nat (BlogSlice.findIndex id (BlogSlice.blogs s))) (BlogSlice.blogs s).
Proof.
  destruct s as [bl cur ub cats tgs pg ld er ms]. unfold BlogSlice.like_fulfilled.
  cbn [BlogSlice.blogs]. destruct (decide (BlogSlice.findIndex id bl = -1));
    destruct cur as [c|]; cbn; try done; by destruct (decide _).
Qed.

Lemma like_fulfilled_current id n il s :
  BlogSlice.currentBlog (BlogSlice.like_fulfilled id n il s)
  = (λ c, if decide (BlogSlice._id c = id) then BlogSlice.set_like n il c else c)
      <$> BlogSlice.currentBlog s.
Proof.
  destruct s as [bl cur ub cats tgs pg ld er ms]. unfold BlogSlice.like_fulfilled.
  cbn [BlogSlice.blogs]. destruct (decide (BlogSlice.findIndex id bl = -1));
    destruct cur as [c|]; cbn; try done; by destruct (decide _).
Qed.

Lemma like_fulfilled_userBlogs id n il s :
  BlogSlice.userBlogs (BlogSlice.like_fulfilled id n il s) = BlogSlice.userBlogs s.
Proof.
  destruct s as [bl cur ub cats tgs pg ld er ms]. unfold BlogSlice.like_fulfilled.
  cbn [BlogSlice.blogs]. destruct (decide (BlogSlice.findIndex id bl = -1));
    destruct cur as [c|]; cbn; try done; by destruct (decide _).
Qed.

Lemma like_fulfilled_ids id n il s :
  map BlogSlice._id (BlogSlice.blogs (BlogSlice.like_fulfilled id n il s))
  = map BlogSlice._id (BlogSlice.blogs s).
Proof.
  rewrite like_fulfilled_blogs.
  destruct (decide (BlogSlice.findIndex id (BlogSlice.blogs s) = -1)) as [E|E]; [done|].
  destruct (findIndex_found _ _ E) as (l1 & y & l2 & El & Hy & Hl1 & Hi).
  rewrite Hi, Nat2Z.id, El, alter_middle. by rewrite !map_app.
Qed.

(** X28.  [deleteBlog.fulfilled] takes every blog with the deleted id out
    of [blogs] and keeps the others, empties [currentBlog] when it is the
    deleted blog, and leaves [userBlogs] as it is, so that a
    deleted blog stays there.  After [createBlog.fulfilled], deleting the
    created blog gives back the former [blogs], provided no blog there had
    its id. *)
Theorem deleteBlog_fulfilled_removes s id :
  (∀ x, x ∈ BlogSlice.blogs (BlogSlice.reducer s (BlogSlice.deleteBlog_fulfilled id))
        ↔ x ∈ BlogSlice.blogs s ∧ BlogSlice._id x ≠ id)
  ∧ (∀ c, BlogSlice.currentBlog (BlogSlice.reducer s (BlogSlice.deleteBlog_fulfilled id))
          = Some c ↔ BlogSlice.currentBlog s = Some c ∧ BlogSlice._id c ≠ id)
  ∧ BlogSlice.userBlogs (BlogSlice.reducer s (BlogSlice.deleteBlog_fulfilled id))
    = BlogSlice.userBlogs s
  ∧ (∀ b, BlogSlice._id b = id →
          (∀ x, x ∈ BlogSlice.blogs s → BlogSlice._id x ≠ id) →
          BlogSlice.blogs
            (BlogSlice.reducer (BlogSlice.reducer s (BlogSlice.createBlog_fulfilled b))
               (BlogSlice.deleteBlog_fulfilled id))
          = BlogSlice.blogs s).
Proof.
  destruct s as [bl cur ub cats tgs pg ld er ms].
  assert (Hb : ∀ l c, BlogSlice.blogs
                 (BlogSlice.reducer (BlogSlice.mkState l c ub cats tgs pg ld er ms)
                    (BlogSlice.deleteBlog_fulfilled id))
               = List.filter (λ blog, bool_decide (BlogSlice._id blog ≠ id)) l).
  { intros l [c|]; cbn; [|done]. by destruct (decide _). }
  split_and!.
  - intros x. rewrite Hb, list_elem_of_In, filter_In, <-list_elem_of_In.
    by rewrite bool_decide_eq_true.
  - intros c. cbn. destruct cur as [c0|]; cbn.
    + destruct (decide (BlogSlice._id c0 = id)) as [E|E]; cbn.
      * split; [done|]. intros [[= ->] H]. done.
      * split; [intros [= ->]; done | by intros [? _]].
    + split; [done | by intros [? _]].
  - cbn. destruct cur; cbn; [|done]. by destruct (decide _).
  - intros b Hid Hnone. cbn [BlogSlice.blogs] in Hnone.
    change (BlogSlice.reducer _ (BlogSlice.createBlog_fulfilled b))
      with (BlogSlice.mkState (b :: bl) cur ub cats tgs pg false er
              (Some "Blog created successfully")).
    assert (Hb' : ∀ l c m ld', BlogSlice.blogs
                   (BlogSlice.reducer (BlogSlice.mkState l c ub cats tgs pg ld' er m)
                      (BlogSlice.deleteBlog_fulfilled id))
                 = List.filter (λ blog, bool_decide (BlogSlice._id blog ≠ id)) l).
    { intros l [c|] m ld'; cbn; [|done]. by destruct (decide _). }
    rewrite Hb'. cbn [List.filter BlogSlice.blogs].
    rewrite bool_decide_eq_false_2 by (by intros ?).
    induction bl as [|x l IH]; [done|]. cbn [List.filter].
    rewrite bool_decide_eq_true_2 by (apply Hnone; by left).
    f_equal. apply IH. intros y Hy. apply Hnone. by right.
Qed.

Lemma deleteBlog_fulfilled_removes_witness :
  BlogSlice.blogs
    (BlogSlice.reducer
       (BlogSlice.reducer BlogSlice.initialState
          (BlogSlice.createBlog_fulfilled (BlogSlice.mkItem 10%N None None Sample.draft)))
       (BlogSlice.deleteBlog_fulfilled 10%N))
  = BlogSlice.blogs BlogSlice.initialState.
Proof.
  apply (deleteBlog_fulfilled_removes BlogSlice.initialState 10%N); [done|].
  by intros x ?%elem_of_nil.
Defined.

(** X29.  From the server to the cache.  A signed-in user likes a stored
    blog that passes the schema and whose [likes] hold no id twice, and the
    client reduces the outcome of its [likeBlog] thunk on the answer.  Then
    every blog of [blogs] with
    that id, provided the ids of [blogs] are distinct, and [currentBlog] when
    it has that id, carry the [likeCount] of the stored blog and an [isLiked]
    that tells whether the user is in its [likes]; the blogs with another id
    and the ids of the list are as before. *)
Theorem like_reaches_cache db token uid u id b s :
  load_user db token = Some (uid, u) →
  db_blogs db !! id = Some b →
  Blog.validate_new b = true →
  NoDup (Blog.likes b) →
  NoDup (map BlogSlice._id (BlogSlice.blogs s)) →
  ∃ b',
    db_blogs (BlogRoutes.like_blog db token id).2 !! id = Some b'
    ∧ (∀ x, x ∈ BlogSlice.blogs
              (BlogSlice.reducer s
                 (BlogSlice.likeBlog_outcome id (BlogRoutes.like_blog db token id).1)) →
            BlogSlice._id x = id →
            BlogSlice.likeCount x = Some (Blog.likeCount b')
            ∧ BlogSlice.isLiked x = Some (bool_decide (uid ∈ Blog.likes b')))
    ∧ (∀ c, BlogSlice.currentBlog
              (BlogSlice.reducer s
                 (BlogSlice.likeBlog_outcome id (BlogRoutes.like_blog db token id).1))
            = Some c →
            BlogSlice._id c = id →
            BlogSlice.likeCount c = Some (Blog.likeCount b')
            ∧ BlogSlice.isLiked c = Some (bool_decide (uid ∈ Blog.likes b')))
    ∧ (∀ x, BlogSlice._id x ≠ id →
            x ∈ BlogSlice.blogs
                  (BlogSlice.reducer s
                     (BlogSlice.likeBlog_outcome id (BlogRoutes.like_blog db token id).1))
            ↔ x ∈ BlogSlice.blogs s)
    ∧ map BlogSlice._id
          (BlogSlice.blogs
             (BlogSlice.reducer s
                (BlogSlice.likeBlog_outcome id (BlogRoutes.like_blog db token id).1)))
      = map BlogSlice._id (BlogSlice.blogs s).
Proof.
  intros Hu Hb Hv Hnd Hids. rewrite (like_blog_run _ _ _ _ _ _ Hu Hb Hv).
  cbn [fst snd db_blogs with_blogs].
  exists (Blog.set_likes (toggle_like (Blog.likes b) uid) b).
  split; [apply lookup_insert_eq|].
  unfold Blog.likeCount. rewrite likes_set_likes.
  assert (Hil : (JS.indexOf (Blog.likes b) uid =? -1)
                = bool_decide (uid ∈ toggle_like (Blog.likes b) uid)).
  { destruct (decide (uid ∈ Blog.likes b)) as [Hin|Hin].
    - destruct (toggle_like_present _ _ Hin) as (l1 & l2 & E & Hl1 & Hi & ->).
      rewrite Hi. destruct (Z.eqb_spec (Z.of_nat (List.length l1)) (-1)); [lia|].
      symmetry. apply bool_decide_eq_false_2.
      rewrite E in Hnd. apply NoDup_app in Hnd as (_ & Hd & Hn).
      apply NoDup_cons in Hn as [Hn _]. intros [?|?]%elem_of_app; done.
    - rewrite (toggle_like_absent _ _ Hin).
      apply indexOf_absent in Hin as ->. symmetry. apply bool_decide_eq_true_2.
      apply elem_of_app. right. by apply list_elem_of_singleton. }
  rewrite Hil.
  set (n := Z.of_nat (List.length (toggle_like (Blog.likes b) uid))).
  set (il := bool_decide (uid ∈ toggle_like (Blog.likes b) uid)).
  change (BlogSlice.reducer s (BlogSlice.likeBlog_outcome id _))
    with (BlogSlice.like_fulfilled id (Some n) (Some il) s).
  rewrite like_fulfilled_ids, like_fulfilled_current, like_fulfilled_blogs.
  split; [|split; [|split]]; [| | |done].
  - destruct (decide (BlogSlice.findIndex id (BlogSlice.blogs s) = -1)) as [E|E].
    + intros x Hx Hid. by destruct (proj1 (findIndex_absent _ _) E x Hx).
    + destruct (findIndex_found _ _ E) as (l1 & y & l2 & El & Hy & Hl1 & Hi).
      rewrite Hi, Nat2Z.id, El, alter_middle.
      rewrite El, map_app in Hids. cbn [map] in Hids.
      apply NoDup_app in Hids as (_ & _ & Hn). apply NoDup_cons in Hn as [Hn _].
      intros x [Hx|[->|Hx]%elem_of_cons]%elem_of_app Hid.
      * by destruct (Hl1 x Hx).
      * done.
      * destruct Hn. rewrite Hy, <-Hid. apply list_elem_of_In, in_map.
        by apply list_elem_of_In.
  - intros c Hc Hid. destruct (BlogSlice.currentBlog s) as [c0|]; [|done].
    cbn in Hc. injection Hc as <-.
    destruct (decide (BlogSlice._id c0 = id)) as [E|E]; [done|]. by destruct E.
  - intros x Hne.
    destruct (decide (BlogSlice.findIndex id (BlogSlice.blogs s) = -1)) as [E|E]; [done|].
    destruct (findIndex_found _ _ E) as (l1 & y & l2 & El & Hy & Hl1 & Hi).
    rewrite Hi, Nat2Z.id, El, alter_middle.
    rewrite !elem_of_app, !elem_of_cons.
    split; (intros [?|[->|?]]; [by left | | by right; right]).
    + done.
    + congruence.
Qed.

Lemma like_reaches_cache_witness :
  ∃ b', db_blogs (BlogRoutes.like_blog Sample.db (Some 3%N) 10%N).2 !! 10%N = Some b'
        ∧ map BlogSlice._id
            (BlogSlice.blogs
               (BlogSlice.reducer
                  (BlogSlice.set_blogs [BlogSlice.mkItem 10%N None None Sample.draft]
                     BlogSlice.initialState)
                  (BlogSlice.likeBlog_outcome 10%N
                     (BlogRoutes.like_blog Sample.db (Some 3%N) 10%N).1)))
          = [10%N].
Proof.
  destruct (like_reaches_cache Sample.db (Some 3%N) 3%N Sample.cat 10%N Sample.draft
              (BlogSlice.set_blogs [BlogSlice.mkItem 10%N None None Sample.draft]
                 BlogSlice.initialState))
    as (b' & Hb' & _ & _ & _ & Hids);
    [by vm_compute | by vm_compute | by vm_compute
     | apply (bool_decide_unpack _); by vm_compute
     | apply (bool_decide_unpack _); by vm_compute |].
  exists b'. split; [done|]. by rewrite Hids.
Defined.

(** X30.  Which blogs the list shows changes only on fetch, create and
    delete: every other action of the slice, the update and the likes
    included, leaves the ids of [blogs] and their order as they are; and
    [userBlogs] changes only when it is fetched or cleared. *)
Theorem blogSlice_ids_stable s a :
  match a with
  | BlogSlice.fetchBlogs_fulfilled _ _ | BlogSlice.createBlog_fulfilled _
  | BlogSlice.deleteBlog_fulfilled _ => True
  | _ => map BlogSlice._id (BlogSlice.blogs (BlogSlice.reducer s a))
         = map BlogSlice._id (BlogSlice.blogs s)
  end
  ∧ match a with
    | BlogSlice.fetchUserBlogs_fulfilled _ _ | BlogSlice.clearUserBlogs => True
    | _ => BlogSlice.userBlogs (BlogSlice.reducer s a) = BlogSlice.userBlogs s
    end.
Proof.
  destruct a; try (split; done);
    try (split; [apply like_fulfilled_ids | apply like_fulfilled_userBlogs]).
  - (* updateBlog.fulfilled *)
    destruct s as [bl cur ub cats tgs pg ld er ms]. cbn.
    destruct (decide (BlogSlice.findIndex (BlogSlice._id blog) bl = -1)) as [E|E].
    + destruct cur as [c|]; cbn; [|done]. by destruct (decide _).
    + destruct (findIndex_found _ _ E) as (l1 & y & l2 & El & Hy & Hl1 & Hi).
      assert (map BlogSlice._id
                (<[Z.to_nat (BlogSlice.findIndex (BlogSlice._id blog) bl) := blog]> bl)
              = map BlogSlice._id bl) as Hm.
      { rewrite Hi, Nat2Z.id, El, insert_middle. rewrite !map_app. cbn [map].
        by rewrite Hy. }
      destruct cur as [c|]; cbn; [|done]. by destruct (decide _).
  - (* deleteBlog.fulfilled *)
    destruct s as [bl cur ub cats tgs pg ld er ms]. cbn.
    destruct cur as [c|]; cbn; [|done]. by destruct (decide _).
Qed.
